(** * LONGALANG: the self-regenerating agent cascade of [longa.py]

    A shallow embedding of [longa.py] (the cascade orchestrator and the
    agents it generates), of the polling watcher [delete1.py], of the
    selector [loadmax.py] and of the sequence builder of [longatrain.py],
    followed by the properties of the cascade. *)

From Stdlib Require Import ZArith NArith List String Ascii Decimal Lia.
From Stdlib Require Import PrimFloat.
From Stdlib.Strings Require Import Byte.
From stdpp Require Import base option list gmap strings.

Open Scope N_scope.

(** ** Python text and bytes

    A Python [str] is a sequence of Unicode code points, a [bytes] object a
    sequence of octets. *)

Abbreviation pystr := (list N).
Abbreviation pybytes := (list byte).

Module Text.

(** The octet whose value is [n mod 256]. *)
Definition chr8 (n : N) : byte :=
  match Byte.of_N (n mod 256) with
  | Some b => b
  | None => x00
  end.

(** Code points of a Rocq string, and back (code points above 255 have no
    Rocq character and are cut to their low octet). *)
Definition codes (s : string) : pystr :=
  map Byte.to_N (list_byte_of_string s).

Definition text (s : pystr) : string :=
  string_of_list_byte (map chr8 s).

(** A Python text written in this file with a backquote for each double
    quote. *)
Definition py (s : string) : pystr :=
  map (fun c => if c =? 96 then 34 else c) (codes s).

(** [str(n)] for a natural number: its decimal digits. *)
Fixpoint uint_codes (u : Decimal.uint) : pystr :=
  match u with
  | Decimal.Nil => []
  | Decimal.D0 u => 48 :: uint_codes u
  | Decimal.D1 u => 49 :: uint_codes u
  | Decimal.D2 u => 50 :: uint_codes u
  | Decimal.D3 u => 51 :: uint_codes u
  | Decimal.D4 u => 52 :: uint_codes u
  | Decimal.D5 u => 53 :: uint_codes u
  | Decimal.D6 u => 54 :: uint_codes u
  | Decimal.D7 u => 55 :: uint_codes u
  | Decimal.D8 u => 56 :: uint_codes u
  | Decimal.D9 u => 57 :: uint_codes u
  end.

Definition decimal (n : N) : pystr := uint_codes (N.to_uint n).

(** [s.replace(old, new)] for a one-character [old]. *)
Definition replace1 (old : N) (new : pystr) (s : pystr) : pystr :=
  flat_map (fun c => if c =? old then new else [c]) s.

(** [s.replace(old, new)]: the occurrences of [old] are found from the
    left and do not overlap; an empty [old] matches before every character
    and at the end. *)
Fixpoint starts_with (prefix s : pystr) : bool :=
  match prefix, s with
  | [], _ => true
  | _ :: _, [] => false
  | a :: prefix', b :: s' => (a =? b) && starts_with prefix' s'
  end.

Fixpoint replace_from (old new : pystr) (skip : nat) (s : pystr) : pystr :=
  match s with
  | [] => []
  | c :: s' =>
      match skip with
      | S k => replace_from old new k s'
      | O =>
          if starts_with old s
          then new ++ replace_from old new (pred (length old)) s'
          else c :: replace_from old new 0 s'
      end
  end.

Definition replace (old new s : pystr) : pystr :=
  match old with
  | [] => new ++ flat_map (fun c => c :: new) s
  | _ :: _ => replace_from old new 0 s
  end.

(** *** Codecs *)

(** [raw.decode('latin-1', errors='replace')]: every octet is the code point
    of the same value, so the error handler is never consulted. *)
Definition decode_latin1 (raw : pybytes) : pystr := map Byte.to_N raw.

(** [s.encode('ascii', errors='xmlcharrefreplace')]: a character outside
    ASCII becomes its decimal numeric character reference. *)
Definition xmlcharref (c : N) : pystr := [38; 35] ++ decimal c ++ [59].

Definition encode_ascii_xmlcharrefreplace (s : pystr) : pybytes :=
  flat_map (fun c => if c <? 128 then [chr8 c] else map chr8 (xmlcharref c)) s.

(** The text such an encoding stands for. *)
Definition charrefs (s : pystr) : pystr :=
  flat_map (fun c => if c <? 128 then [c] else xmlcharref c) s.

Definition is_ascii (c : N) : Prop := c < 128.
Definition ascii_byte (b : byte) : Prop := Byte.to_N b < 128.

(** [b.decode('ascii')] with the default strict handler: [None] stands for
    [UnicodeDecodeError]. *)
Definition decode_ascii (b : pybytes) : option pystr :=
  if forallb (fun x => Byte.to_N x <? 128) b
  then Some (map Byte.to_N b) else None.

(** [s.encode('utf-8')], strict: surrogates and values past U+10FFFF are
    refused ([None] stands for [UnicodeEncodeError]). *)
Definition utf8_char (c : N) : option pybytes :=
  if c <? 128 then Some [chr8 c]
  else if c <? 2048 then
    Some [chr8 (192 + c / 64); chr8 (128 + c mod 64)]
  else if c <? 65536 then
    if (55296 <=? c) && (c <? 57344) then None
    else Some [chr8 (224 + c / 4096); chr8 (128 + (c / 64) mod 64);
               chr8 (128 + c mod 64)]
  else if c <? 1114112 then
    Some [chr8 (240 + c / 262144); chr8 (128 + (c / 4096) mod 64);
          chr8 (128 + (c / 64) mod 64); chr8 (128 + c mod 64)]
  else None.

Fixpoint encode_utf8 (s : pystr) : option pybytes :=
  match s with
  | [] => Some []
  | c :: s' =>
      match utf8_char c, encode_utf8 s' with
      | Some b, Some bs => Some (b ++ bs)
      | _, _ => None
      end
  end.

(** *** [repr] of a string and the evaluation of a string literal

    [repr] as CPython's [unicode_repr] computes it: single quotes unless
    the text has a single quote and no double quote; backslash and the
    chosen quote are escaped, tab, newline and carriage return get their
    letter escapes, other control characters a hexadecimal escape.  For
    code points above 0x7e the escaped form is emitted (what [ascii()]
    gives); [repr] proper keeps the printable ones raw, which needs the
    Unicode database and concerns no text this program passes to it. *)
Definition hex_digit (d : N) : N := if d <? 10 then 48 + d else 87 + d.

Fixpoint hex_fixed (k : nat) (n : N) : pystr :=
  match k with
  | O => []
  | S k' => hex_fixed k' (n / 16) ++ [hex_digit (n mod 16)]
  end.

Definition repr_quote (s : pystr) : N :=
  if existsb (N.eqb 39) s && negb (existsb (N.eqb 34) s) then 34 else 39.

Definition repr_char (q c : N) : pystr :=
  if (c =? q) || (c =? 92) then [92; c]
  else if c =? 9 then [92; 116]
  else if c =? 10 then [92; 110]
  else if c =? 13 then [92; 114]
  else if (c <? 32) || (c =? 127) then 92 :: 120 :: hex_fixed 2 c
  else if c <? 127 then [c]
  else if c <? 256 then 92 :: 120 :: hex_fixed 2 c
  else if c <? 65536 then 92 :: 117 :: hex_fixed 4 c
  else 92 :: 85 :: hex_fixed 8 c.

Definition repr (s : pystr) : pystr :=
  let q := repr_quote s in q :: flat_map (repr_char q) s ++ [q].

(** The lexer's reading of a one-line quoted literal at the head of the
    text: the value and the text after the closing quote.  The escapes
    handled are the letter escapes and the fixed-width hexadecimal ones;
    octal and named escapes, and a backslash before any other character,
    are outside the model ([None]), as is an unterminated literal. *)
Inductive lit_state :=
| LNormal
| LEscape
| LHex (todo : nat) (acc : N).

Definition hex_value (c : N) : option N :=
  if (48 <=? c) && (c <=? 57) then Some (c - 48)
  else if (97 <=? c) && (c <=? 102) then Some (c - 87)
  else if (65 <=? c) && (c <=? 70) then Some (c - 55)
  else None.

Definition simple_escape (c : N) : option N :=
  if c =? 92 then Some 92
  else if c =? 39 then Some 39
  else if c =? 34 then Some 34
  else if c =? 110 then Some 10
  else if c =? 114 then Some 13
  else if c =? 116 then Some 9
  else if c =? 97 then Some 7
  else if c =? 98 then Some 8
  else if c =? 102 then Some 12
  else if c =? 118 then Some 11
  else None.

Fixpoint scan_literal (q : N) (st : lit_state) (acc : pystr) (s : pystr)
  : option (pystr * pystr) :=
  match s with
  | [] => None
  | c :: rest =>
      match st with
      | LNormal =>
          if c =? q then Some (rev acc, rest)
          else if c =? 92 then scan_literal q LEscape acc rest
          else if (c =? 10) || (c =? 13) then None
          else scan_literal q LNormal (c :: acc) rest
      | LEscape =>
          match simple_escape c with
          | Some v => scan_literal q LNormal (v :: acc) rest
          | None =>
              if c =? 120 then scan_literal q (LHex 2 0) acc rest
              else if c =? 117 then scan_literal q (LHex 4 0) acc rest
              else if c =? 85 then scan_literal q (LHex 8 0) acc rest
              else None
          end
      | LHex O _ => None
      | LHex (S k) a =>
          match hex_value c with
          | None => None
          | Some d =>
              match k with
              | O => scan_literal q LNormal ((a * 16 + d) :: acc) rest
              | S _ => scan_literal q (LHex k (a * 16 + d)) acc rest
              end
          end
      end
  end.

Definition read_literal (s : pystr) : option (pystr * pystr) :=
  match s with
  | q :: body =>
      if (q =? 39) || (q =? 34) then scan_literal q LNormal [] body else None
  | [] => None
  end.

(** The value of a text that is exactly one literal. *)
Definition eval_literal (s : pystr) : option pystr :=
  match read_literal s with
  | Some (v, []) => Some v
  | _ => None
  end.

End Text.

(** ** Code Capture ([longa.py], lines 9-24) *)

Module Capture.
Import Text.

(** Line 23: the two dash replacements. *)
Definition dash_normalised (decoded_string : pystr) : pystr :=
  replace1 8211 [45] (replace1 8212 [45; 45] decoded_string).

(** The body of [get_clean_ascii_code] after the file has been read.
    [None] stands for an exception raised by the final strict decoding. *)
Definition clean_ascii_code (raw_bytes : pybytes) : option pystr :=
  let decoded_string := decode_latin1 raw_bytes in
  let decoded_string := dash_normalised decoded_string in
  decode_ascii (encode_ascii_xmlcharrefreplace decoded_string).

(** *** Code Capture in a regenerated orchestrator

    The file is captured whole, line 23 with it: what stands between the
    quotes of its two literals is rewritten like any other text, so the
    orchestrator that a cycle leaves behind replaces the texts [em_dash]
    and [en_dash] that its own line 23 holds. *)
Definition dash_normalised_with (em_dash en_dash decoded_string : pystr)
  : pystr :=
  replace en_dash [45] (replace em_dash [45; 45] decoded_string).

Definition clean_ascii_code_with (em_dash en_dash : pystr)
    (raw_bytes : pybytes) : option pystr :=
  let decoded_string := decode_latin1 raw_bytes in
  let decoded_string := dash_normalised_with em_dash en_dash decoded_string in
  decode_ascii (encode_ascii_xmlcharrefreplace decoded_string).

(** The text of line 23 with [em_dash] and [en_dash] between the quotes. *)
Definition line_23 (em_dash en_dash : pystr) : pystr :=
  codes "    decoded_string = decoded_string.replace('" ++ em_dash
    ++ codes "', '--').replace('" ++ en_dash ++ codes "', '-')".

End Capture.

(** ** The process world

    The namestore (the working directory as a finite map from entry names
    to contents), what a run has done so far, a logical clock, and the
    lines still waiting on the terminal's input. *)

Inductive event :=
| Printed (line : string)
| Slept (seconds : nat)
| Wrote (name : string) (data : pybytes)
| Removed (name : string)
| ChildStarted (argv : list string)
| ChildExited (argv : list string) (returncode : N)
| Detached (argv : list string).

Record World := mkWorld {
  fs : gmap string pybytes;
  trace : list event;
  now : nat;
  stdin : list (option Z);
}.

(** What the program does not control: which deletions and writes the
    filesystem refuses, when the [python] executable cannot be started,
    when the watcher of [delete1.py] gets to run, the directory the
    processes run in, when the module loader cannot write its cache, and
    the bytecode the compiler makes of a source. *)
Record Env := mkEnv {
  remove_refused : nat -> string -> bool;
  write_refused : nat -> string -> bool;
  launch_fails : nat -> bool;
  watcher_polls : nat -> bool;
  cwd : string;
  cache_refused : nat -> bool;
  bytecode : pybytes -> pybytes;
}.

Module Py.

Inductive exn :=
| FileNotFoundError (filename : string)
| PermissionError (filename : string)
| UnicodeDecodeError
| UnicodeEncodeError
| SyntaxError (filename : string)
| CalledProcessError (cmd : list string) (returncode : N)
| EOFError.

(** [isinstance(e, OSError)]. *)
Definition is_OSError (e : exn) : bool :=
  match e with
  | FileNotFoundError _ | PermissionError _ => true
  | _ => false
  end.

Definition str_N (n : N) : string := Text.text (Text.decimal n).

(** [str(argv)] for a list of plain words. *)
Fixpoint str_words (l : list string) : string :=
  match l with
  | [] => EmptyString
  | [x] => "'" +:+ x +:+ "'"
  | x :: l' => "'" +:+ x +:+ "', " +:+ str_words l'
  end.

Definition str_list (l : list string) : string := "[" +:+ str_words l +:+ "]".

(** [str(e)], as CPython on a POSIX system words it. *)
Definition str (e : exn) : string :=
  match e with
  | FileNotFoundError f => "[Errno 2] No such file or directory: '" +:+ f +:+ "'"
  | PermissionError f => "[Errno 13] Permission denied: '" +:+ f +:+ "'"
  | UnicodeDecodeError => "'ascii' codec can't decode byte: ordinal not in range(128)"
  | UnicodeEncodeError => "'utf-8' codec can't encode character: surrogates not allowed"
  | SyntaxError f => "invalid syntax (" +:+ f +:+ ", line 1)"
  | CalledProcessError cmd rc =>
      "Command '" +:+ str_list cmd +:+ "' returned non-zero exit status "
        +:+ str_N rc +:+ "."
  | EOFError => "EOF when reading a line"
  end.

(** *** Computations: a state monad over the world, with exceptions *)

Definition M (A : Type) : Type := World -> (exn + A) * World.

Definition ret {A} (a : A) : M A := fun w => (inr a, w).

Definition bind {A B} (m : M A) (k : A -> M B) : M B :=
  fun w =>
    match m w with
    | (inr a, w') => k a w'
    | (inl e, w') => (inl e, w')
    end.

Definition raise {A} (e : exn) : M A := fun w => (inl e, w).

(** [try: body / except ...: handler]: [handler e] is [None] when no
    clause matches [e], which then propagates. *)
Definition try_except {A} (body : M A) (handler : exn -> option (M A)) : M A :=
  fun w =>
    match body w with
    | (inl e, w') =>
        match handler e with
        | Some h => h w'
        | None => (inl e, w')
        end
    | r => r
    end.

(** The handlers of the program: [except OSError as e], [except Exception
    as e]. *)
Definition except_OSError {A} (h : exn -> M A) (e : exn) : option (M A) :=
  if is_OSError e then Some (h e) else None.

Definition except_Exception {A} (h : exn -> M A) (e : exn) : option (M A) :=
  Some (h e).

Fixpoint for_each {A} (l : list A) (body : A -> M unit) : M unit :=
  match l with
  | [] => ret tt
  | x :: l' => bind (body x) (fun _ => for_each l' body)
  end.

End Py.

#[export] Instance M_ret : MRet Py.M := @Py.ret.
#[export] Instance M_bind : MBind Py.M := fun A B k m => Py.bind m k.

Import Py.

(** ** The operating system as the program sees it *)

Module Os.
Section WithEnv.
Variable env : Env.

Definition log (e : event) (w : World) : World :=
  mkWorld (fs w) (trace w ++ [e]) (now w) (stdin w).

Definition with_fs (m : gmap string pybytes) (w : World) : World :=
  mkWorld m (trace w) (now w) (stdin w).

Definition advance (w : World) : World :=
  mkWorld (fs w) (trace w) (S (now w)) (stdin w).

(** *** The calls themselves, at the current instant *)

Definition exists_now (name : string) : M bool :=
  fun w => (inr (bool_decide (is_Some (fs w !! name))), w).

Definition remove_now (name : string) : M unit :=
  fun w =>
    match fs w !! name with
    | None => (inl (FileNotFoundError name), w)
    | Some _ =>
        if remove_refused env (now w) name
        then (inl (PermissionError name), w)
        else (inr tt, log (Removed name) (with_fs (delete name (fs w)) w))
    end.

(** [with open(name, 'rb') as f: f.read()].  The entries of the namestore
    are regular files that may be read: of the ways in which [open] can
    fail, the model has the missing file. *)
Definition read_now (name : string) : M pybytes :=
  fun w =>
    match fs w !! name with
    | None => (inl (FileNotFoundError name), w)
    | Some data => (inr data, w)
    end.

(** [with open(name, 'w', encoding='utf-8') as f: f.write(text)].  A
    refused [open] leaves the namestore as it was; an accepted one
    truncates the entry before the text is encoded and written, so a text
    that cannot be encoded leaves the entry written empty.  Of the ways in
    which [open] can be refused, the model has the missing permission. *)
Definition write_now (name : string) (text : pystr) : M unit :=
  fun w =>
    if write_refused env (now w) name
    then (inl (PermissionError name), w)
    else
      match Text.encode_utf8 text with
      | None =>
          (inl UnicodeEncodeError,
           log (Wrote name []) (with_fs (<[name := []]> (fs w)) w))
      | Some data =>
          (inr tt, log (Wrote name data) (with_fs (<[name := data]> (fs w)) w))
      end.

Definition print (line : string) : M unit :=
  fun w => (inr tt, log (Printed line) w).

(** *** The watcher of [delete1.py]

    One turn of its loop.  It is another process: it shares the namestore,
    and what it prints goes to its own terminal. *)
Definition delete1_poll : M unit :=
  b ← exists_now "longa1.py";
  if b : bool then
    try_except
      (remove_now "longa1.py";; print "Deleted longa1.py")
      (except_Exception (fun e => print ("Failed to delete longa1.py: " +:+ str e)))
  else print "No longa1.py found.".

(** Time passes before every call: the clock moves, the watcher may take
    a turn at that instant, and the call itself happens at the next. *)
Definition tick : M unit :=
  fun w =>
    let w1 := advance w in
    let w2 :=
      if watcher_polls env (now w1)
      then with_fs (fs (snd (delete1_poll (mkWorld (fs w1) [] (now w1) [])))) w1
      else w1 in
    (inr tt, advance w2).

Definition os_path_exists (name : string) : M bool := tick;; exists_now name.
Definition os_remove (name : string) : M unit := tick;; remove_now name.
Definition read_bytes (name : string) : M pybytes := tick;; read_now name.
Definition write_text (name : string) (text : pystr) : M unit :=
  tick;; write_now name text.

Definition sleep_now (seconds : nat) : M unit :=
  fun w => (inr tt, log (Slept seconds) w).

Definition time_sleep (seconds : nat) : M unit := tick;; sleep_now seconds.

(** The cache of the module loader.  Having compiled a module it loads
    from a file, [SourceFileLoader] writes the bytecode into the directory
    [__pycache__], which it creates when needed, and goes on in silence
    when it cannot or need not.  The namestore holds that directory as the
    entry [__pycache__], whose content is the bytecode written last. *)
Definition cache_now (source : pybytes) : M unit :=
  fun w =>
    if cache_refused env (now w) then (inr tt, w)
    else
      (inr tt,
       log (Wrote "__pycache__" (bytecode env source))
         (with_fs (<["__pycache__" := bytecode env source]> (fs w)) w)).

Definition cache_bytecode (source : pybytes) : M unit :=
  tick;; cache_now source.

(** [os.path.abspath(name)], for the text of messages.  The namestore is
    the working directory, so a name and its absolute path are one entry. *)
Definition abspath (name : string) : string := cwd env +:+ "/" +:+ name.

(** *** Process Launcher *)

(** [subprocess.run(argv, check=True)] where [child] is what the started
    process does, returning its exit status (an exception that escapes the
    child counts as status 1): the caller blocks until the child is done
    and gets [CalledProcessError] for a status other than zero. *)
Definition returncode (r : exn + N) : N :=
  match r with
  | inr rc => rc
  | inl _ => 1
  end.

Definition run_now (child : M N) (argv : list string) : M unit :=
  fun w =>
    if launch_fails env (now w) then (inl (FileNotFoundError "python"), w)
    else
      let '(r, w') := child (log (ChildStarted argv) w) in
      let rc := returncode r in
      (if rc =? 0 then inr tt else inl (CalledProcessError argv rc),
       log (ChildExited argv rc) w').

Definition subprocess_run (child : M N) (argv : list string) : M unit :=
  tick;; run_now child argv.

(** [subprocess.Popen(argv, ...)]: the child is started and left to
    itself; the model records the launch and does not follow the child. *)
Definition popen_now (argv : list string) : M unit :=
  fun w =>
    if launch_fails env (now w) then (inl (FileNotFoundError "python"), w)
    else (inr tt, log (Detached argv) w).

Definition subprocess_Popen (argv : list string) : M unit :=
  tick;; popen_now argv.

(** [python script] as a child process, where [interp] is what the
    interpreter does with the text of a script it could open.  The child
    ends with status 2 when the script cannot be opened, and with status 1
    (an exception here) when the script raises and nothing catches it.
    The child is taken to have a standard output it can flush when it
    ends; an interpreter that cannot ends with status 120 instead. *)
Definition python (interp : string -> pybytes -> M unit) (script : string)
  : M N :=
  fun w =>
    match read_bytes script w with
    | (inl _, w') => (inr 2, w')
    | (inr source, w') =>
        match interp script source w' with
        | (inr _, w'') => (inr 0, w'')
        | (inl e, w'') => (inl e, w'')
        end
    end.

End WithEnv.
End Os.

(** ** Agent Template Builder: the generated scripts

    The texts are the ones [longa.py] builds (its f-strings with the
    doubled braces resolved).  A double quote of the Python text is written
    here as a backquote, a character [longa.py] does not use; [Text.py]
    puts the double quote back. *)

Module Agents.

Definition longa1_head : pystr := Text.py
  "# longa1.py
# -*- coding: utf-8 -*-
# This script is designed to overwrite the original longa.py with its own content.
# The 'code' variable holds the exact content of longa.py at the time longa1.py was created.
code = ".

Definition longa1_tail : pystr := Text.py
  "

with open(`longa.py`, `w`, encoding=`utf-8`) as f: # Explicitly write as UTF-8
    f.write(code) # Write the pre-prepared code directly

import os
# Self-destruct longa1.py after it has completed its task
current_script_path = os.path.abspath(__file__) # Get path for the currently running longa1.py
try:
    os.remove(current_script_path)
    print(f`longa1.py self-destruction complete: {os.path.basename(current_script_path)} removed.`)
except OSError as e:
    print(f`Error during self-destruction of longa1.py ({os.path.basename(current_script_path)}): {e}`)

".

(** [longa1_code], lines 64-82: the successor, with the captured source
    embedded as [repr] prints it. *)
Definition longa1_code (current_longa_code_for_longa1 : pystr) : pystr :=
  longa1_head ++ Text.repr current_longa_code_for_longa1 ++ longa1_tail.

Definition longamax_head : pystr := Text.py
  "# longamax.py
# -*- coding: utf-8 -*-
import time
import os
import subprocess

print(`longamax.py started. Countdown to self-destruct...`)
for i in range(3, 0, -1): # Reduced countdown for quicker testing
    print(f`Deleting in {i} seconds...`)
    time.sleep(1)

# Recreate original longa.py first
# The code for the original longa.py is embedded here directly as a string literal
# It's already ASCII-cleaned by get_clean_ascii_code
original_longa_code_to_write = ".

Definition longamax_tail : pystr := Text.py
  "

with open(`longa.py`, `w`, encoding=`utf-8`) as f: # Explicitly write as UTF-8
    f.write(original_longa_code_to_write)
print(`longa.py recreated.`)

# Delete self (longamax.py)
current_script_path = os.path.abspath(__file__)
try:
    os.remove(current_script_path)
    print(f`longamax.py self-destruction complete: {os.path.basename(current_script_path)} removed.`)
except OSError as e:
    print(f`Error during self-destruction of longamax.py ({os.path.basename(current_script_path)}): {e}`)

# Run longa.py immediately after longamax.py self-destructs
print(`Attempting to run longa.py after longamax.py self-destructs...`)
try:
    # subprocess.Popen detaches the process, allowing the parent (this longamax.py instance) to exit cleanly.
    # This is the very last action taken by longamax.py
    subprocess.Popen([`python`, `longa.py`],
                     stdout=subprocess.PIPE, stderr=subprocess.PIPE,
                     text=True, # text=True means stdout/stderr are text, not bytes
                     creationflags=subprocess.DETACHED_PROCESS if os.name == 'nt' else 0)
    print(`longa.py launched successfully from longamax.py.`)
except Exception as e:
    print(f`Error launching longa.py: {e}`)
".

(** [longamax_code_content], lines 138-178: Recovery-A. *)
Definition longamax_code_content (current_longa_code_for_longamax : pystr)
  : pystr :=
  longamax_head ++ Text.repr current_longa_code_for_longamax ++ longamax_tail.

(** [loadedmax_code_content], lines 202-236: Recovery-B. *)
Definition loadedmax_code_content : pystr := Text.py
  "# loadedmax.py
# -*- coding: utf-8 -*-
import os # Added import for os module
import subprocess
import time

print(`loadedmax.py started.`)

# As requested, attempt to RUN 'loadmax.py' as a separate process.
target_script_path = `loadmax.py`

# Check if the target script file exists before attempting to run.
if os.path.exists(target_script_path):
    try:
        print(f`Attempting to run {target_script_path} from loadedmax.py as a subprocess...`)
        # Use subprocess.run to execute loadmax.py.
        # This will block loadedmax.py until loadmax.py finishes.
        subprocess.run([`python`, target_script_path], check=True)
        print(f`{target_script_path} executed successfully by loadedmax.py.`)
    except Exception as e:
        print(f`Error running {target_script_path} from loadedmax.py: {e}`)
else:
    print(f`{target_script_path} not found. Skipping its execution from loadedmax.py.`)

print(`loadedmax.py finished. Initiating self-destruct.`)
# Self-destruct loadedmax.py after it has completed its task
current_loadedmax_script_path = os.path.abspath(__file__)
try:
    os.remove(current_loadedmax_script_path)
    print(f`Self-destruction complete: {os.path.basename(current_loadedmax_script_path)} has been removed.`)
except OSError as e:
    print(f`Error during self-destruction of {os.path.basename(current_loadedmax_script_path)}: {e}`)
    print(`The loadedmax.py script could not be removed automatically.`)

".

(** The two lines written to [longa2.py], lines 113-114: the marker. *)
Definition longa2_content : pystr := Text.py
  "# longa2.py created at second 3 after importing longa1.py
print('longa2.py has been created.')
".

(** *** Reading a script back

    The interpreter of the model knows the four generated scripts and
    nothing else: a text is one of them with some embedded source, or it
    is not a script the model can run. *)
Inductive agent :=
| Successor (embedded_source : pystr)
| Marker
| RecoveryA (embedded_source : pystr)
| RecoveryB.

Fixpoint strip_prefix (p s : pystr) : option pystr :=
  match p, s with
  | [], _ => Some s
  | a :: p', b :: s' => if a =? b then strip_prefix p' s' else None
  | _ :: _, [] => None
  end.

(** The value of the literal that stands between [head] and [tail]. *)
Definition hole (head tail : pystr) (source : pystr) : option pystr :=
  match strip_prefix head source with
  | None => None
  | Some rest =>
      match Text.read_literal rest with
      | Some (v, rest') => if decide (rest' = tail) then Some v else None
      | None => None
      end
  end.

Definition recognise (source : pystr) : option agent :=
  match hole longa1_head longa1_tail source with
  | Some code => Some (Successor code)
  | None =>
      match hole longamax_head longamax_tail source with
      | Some code => Some (RecoveryA code)
      | None =>
          if decide (source = loadedmax_code_content) then Some RecoveryB
          else if decide (source = longa2_content) then Some Marker
          else None
      end
  end.

End Agents.

(** ** The selector, [loadmax.py] *)

Module Loadmax.
Section WithEnv.
Variable env : Env.

Definition options : list Z := [1; 2; 3; 4]%Z.

Definition str_Z (n : Z) : string := str_N (Z.to_N n).

(** [input(prompt)]: the prompt goes out and one line comes in; at the end
    of input it raises [EOFError]. *)
Definition readline : M (option Z) :=
  fun w =>
    match stdin w with
    | [] => (inl EOFError, w)
    | l :: rest => (inr l, mkWorld (fs w) (trace w) (now w) rest)
    end.

Definition input (prompt : string) : M (option Z) :=
  Os.print prompt;; readline.

Definition pending_input : M (list (option Z)) := fun w => (inr (stdin w), w).

(** The [while True] loop of [select_number], unrolled over the lines the
    terminal has for it; a line is [None] when [int] rejects it. *)
Fixpoint select_loop (pending : list (option Z)) : M Z :=
  match pending with
  | [] => _ ← input "Enter your choice (1-4): "; raise EOFError
  | _ :: later =>
      line ← input "Enter your choice (1-4): ";
      match line with
      | None => Os.print "Please enter a valid number.";; select_loop later
      | Some choice =>
          if bool_decide (choice ∈ options) then mret choice
          else
            Os.print "Invalid selection. Please choose a number between 1 and 4.";;
            select_loop later
      end
  end.

Definition select_number : M Z :=
  Os.print "Please select a number from the following options:";;
  for_each options
    (fun option => Os.print (str_Z option +:+ ") Option " +:+ str_Z option));;
  pending ← pending_input;
  select_loop pending.

Definition main : M unit :=
  selected_num ← select_number;
  Os.print ("You selected: " +:+ str_Z selected_num);;
  let file_name := "longastop" +:+ str_Z selected_num +:+ ".py" in
  try_except
    (Os.write_text env file_name
       (Text.codes ("# This is longastop" +:+ str_Z selected_num
                    +:+ ".py, created by loadmax.py
# The number " +:+ str_Z selected_num +:+ " was selected.
"));;
     Os.print ("Successfully created file: " +:+ file_name))
    (except_OSError
       (fun e => Os.print ("Error creating file " +:+ file_name +:+ ": " +:+ str e))).

End WithEnv.
End Loadmax.

(** ** What the generated scripts do when they run *)

Module Generated.
Section WithEnv.
Variable env : Env.

(** [longa1.py]: the successor. *)
Definition longa1_main (__file__ : string) (code : pystr) : M unit :=
  Os.write_text env "longa.py" code;;
  try_except
    (Os.os_remove env __file__;;
     Os.print ("longa1.py self-destruction complete: " +:+ __file__ +:+ " removed."))
    (except_OSError
       (fun e =>
          Os.print ("Error during self-destruction of longa1.py (" +:+ __file__
                    +:+ "): " +:+ str e))).

(** [longamax.py]: Recovery-A. *)
Definition longamax_main (__file__ : string)
    (original_longa_code_to_write : pystr) : M unit :=
  Os.print "longamax.py started. Countdown to self-destruct...";;
  for_each [3; 2; 1]
    (fun i =>
       Os.print ("Deleting in " +:+ str_N i +:+ " seconds...");;
       Os.time_sleep env 1);;
  Os.write_text env "longa.py" original_longa_code_to_write;;
  Os.print "longa.py recreated.";;
  try_except
    (Os.os_remove env __file__;;
     Os.print ("longamax.py self-destruction complete: " +:+ __file__ +:+ " removed."))
    (except_OSError
       (fun e =>
          Os.print ("Error during self-destruction of longamax.py (" +:+ __file__
                    +:+ "): " +:+ str e)));;
  Os.print "Attempting to run longa.py after longamax.py self-destructs...";;
  try_except
    (Os.subprocess_Popen env ["python"; "longa.py"];;
     Os.print "longa.py launched successfully from longamax.py.")
    (except_Exception (fun e => Os.print ("Error launching longa.py: " +:+ str e))).

(** [loadedmax.py]: Recovery-B.  The file [loadmax.py] it starts is taken
    to hold the selector of this repository. *)
Definition loadedmax_main (__file__ : string) : M unit :=
  Os.print "loadedmax.py started.";;
  let target_script_path := "loadmax.py" in
  found ← Os.os_path_exists env target_script_path;
  (if found : bool then
     try_except
       (Os.print ("Attempting to run " +:+ target_script_path
                  +:+ " from loadedmax.py as a subprocess...");;
        Os.subprocess_run env
          (Os.python env (fun _ _ => Loadmax.main env) target_script_path)
          ["python"; target_script_path];;
        Os.print (target_script_path +:+ " executed successfully by loadedmax.py."))
       (except_Exception
          (fun e =>
             Os.print ("Error running " +:+ target_script_path
                       +:+ " from loadedmax.py: " +:+ str e)))
   else
     Os.print (target_script_path
               +:+ " not found. Skipping its execution from loadedmax.py."));;
  Os.print "loadedmax.py finished. Initiating self-destruct.";;
  try_except
    (Os.os_remove env __file__;;
     Os.print ("Self-destruction complete: " +:+ __file__ +:+ " has been removed."))
    (except_OSError
       (fun e =>
          Os.print ("Error during self-destruction of " +:+ __file__ +:+ ": " +:+ str e);;
          Os.print "The loadedmax.py script could not be removed automatically.")).

(** [longa2.py]: the marker. *)
Definition longa2_main : M unit := Os.print "longa2.py has been created.".

Definition run_agent (__file__ : string) (a : Agents.agent) : M unit :=
  match a with
  | Agents.Successor code => longa1_main __file__ code
  | Agents.Marker => longa2_main
  | Agents.RecoveryA code => longamax_main __file__ code
  | Agents.RecoveryB => loadedmax_main __file__
  end.

(** Whether the bytes of a script compile: they are ASCII and the text of
    one of the generated scripts. *)
Definition compiles (source : pybytes) : bool :=
  match Text.decode_ascii source with
  | None => false
  | Some text => bool_decide (is_Some (Agents.recognise text))
  end.

(** The interpreter on the bytes of a script: a text it cannot read as
    one of the generated scripts is a fault of the load. *)
Definition interp (__file__ : string) (source : pybytes) : M unit :=
  match Text.decode_ascii source with
  | None => raise (SyntaxError __file__)
  | Some text =>
      match Agents.recognise text with
      | Some a => run_agent __file__ a
      | None => raise (SyntaxError __file__)
      end
  end.

End WithEnv.
End Generated.

(** ** The cascade orchestrator, [longa.py] *)

Module Longa.
Section WithEnv.
Variable env : Env.

(** The orchestrator is started as [python longa.py] in the working
    directory. *)
Definition __file__ : string := "longa.py".

(** [get_clean_ascii_code], lines 9-24. *)
Definition get_clean_ascii_code (filepath : string) : M pystr :=
  raw_bytes ← Os.read_bytes env filepath;
  match Capture.clean_ascii_code raw_bytes with
  | Some code => mret code
  | None => raise UnicodeDecodeError
  end.

(** [clean_previous_run_artifacts], lines 26-48. *)
Definition files_to_clean : list string :=
  ["longa1.py"; "longa2.py"; "longamax.py"; "loadedmax.py"].

Definition clean_one (f_name : string) : M unit :=
  found ← Os.os_path_exists env f_name;
  if found : bool then
    try_except
      (Os.os_remove env f_name;;
       Os.print ("  Cleaned up: " +:+ f_name))
      (except_OSError
         (fun e =>
            Os.print ("  Error cleaning up " +:+ f_name +:+ ": " +:+ str e
                      +:+ " (file might be in use or permissions issue)")))
  else
    Os.print ("  " +:+ f_name +:+ " not found (already clean or never created).").

Definition clean_previous_run_artifacts : M unit :=
  Os.print "
--- Cleaning up previous run artifacts ---";;
  for_each files_to_clean clean_one;;
  Os.print "--- Cleanup complete ---
".

(** Lines 55-87: cleanup, capture of the orchestrator's own source, and
    the write of the successor.  The result is the captured source. *)
Definition write_successor : M pystr :=
  clean_previous_run_artifacts;;
  Os.time_sleep env 1;;
  current_longa_code_for_longa1 ← get_clean_ascii_code __file__;
  Os.write_text env "longa1.py"
    (Agents.longa1_code current_longa_code_for_longa1);;
  Os.print "Step 1 complete: longa1.py created.";;
  mret current_longa_code_for_longa1.

(** [spec_from_file_location], [module_from_spec] and [exec_module]: the
    file is read, compiled and run inside the current process; a source
    that compiles goes to the loader's cache before it is run. *)
Definition exec_module (location : string) : M unit :=
  source ← Os.read_bytes env location;
  (if Generated.compiles source then Os.cache_bytecode env source
   else mret tt);;
  Generated.interp env location source.

(** Lines 91-105: the load of the successor; the result is
    [longa1_imported]. *)
Definition import_longa1 : M bool :=
  Os.time_sleep env 1;;
  found ← Os.os_path_exists env "longa1.py";
  if found : bool then
    try_except
      (exec_module "longa1.py";;
       Os.print "Step 2 complete: longa1.py imported successfully.";;
       mret true)
      (except_Exception
         (fun e =>
            Os.print ("Step 2: Failed to import longa1.py: " +:+ str e);;
            mret false))
  else
    Os.print "Step 2: longa1.py not found.";;
    mret false.

(** The closing self-destruction of either branch: [done] is the message
    of its success, [after] the words its error message is marked with. *)
Definition self_destruct (done after : string) : M unit :=
  let current_longa_path := Os.abspath env __file__ in
  try_except
    (Os.os_remove env __file__;;
     Os.print (done +:+ current_longa_path +:+ "."))
    (except_OSError
       (fun e =>
          Os.print ("Error during self-destruction of longa.py (" +:+ after
                    +:+ "): " +:+ str e);;
          Os.print ("longa.py (" +:+ __file__
                    +:+ ") could not be removed automatically."))).

(** Lines 110-126: the branch taken when [longa1_imported] holds. *)
Definition success_path : M unit :=
  Os.write_text env "longa2.py" Agents.longa2_content;;
  Os.print "Step 3 complete: longa2.py created.";;
  self_destruct "longa.py has self-destructed (after longa1 imported) from: "
    "after longa1 imported".

(** The three [except] clauses around a supervised run. *)
Definition except_run (script what : string) (e : exn) : option (M unit) :=
  match e with
  | CalledProcessError _ _ =>
      Some (Os.print ("Error running " +:+ script +:+ ": " +:+ str e))
  | FileNotFoundError _ =>
      Some (Os.print ("Python executable not found for " +:+ script
                      +:+ ". Make sure Python is in your PATH."))
  | _ =>
      Some (Os.print ("An unexpected error occurred during " +:+ script
                      +:+ " " +:+ what +:+ ": " +:+ str e))
  end.

Definition run_python (script : string) : M unit :=
  Os.subprocess_run env (Os.python env (Generated.interp env) script)
    ["python"; script].

(** Lines 129-197: Recovery-A is built, written and run under
    supervision. *)
Definition recovery_A : M unit :=
  Os.print "Skipping longa2.py creation -- longa1.py import failed.";;
  current_longa_code_for_longamax ← get_clean_ascii_code __file__;
  Os.write_text env "longamax.py"
    (Agents.longamax_code_content current_longa_code_for_longamax);;
  Os.print "longamax.py created because longa1.py import failed.";;
  Os.print "Attempting to run longamax.py...";;
  try_except
    (run_python "longamax.py";;
     Os.print "longamax.py executed successfully.")
    (except_run "longamax.py" "execution").

(** Lines 200-252: Recovery-B is built, written and run under
    supervision. *)
Definition recovery_B : M unit :=
  Os.print "
--- NEW SECTION (longa1_imported FALSE): Creating and Running loadedmax.py ---";;
  let loadedmax_script_name := "loadedmax.py" in
  try_except
    (Os.write_text env loadedmax_script_name Agents.loadedmax_code_content;;
     Os.print (loadedmax_script_name +:+ " created.");;
     Os.print ("Attempting to run " +:+ loadedmax_script_name +:+ "...");;
     run_python loadedmax_script_name;;
     Os.print (loadedmax_script_name +:+ " executed successfully."))
    (except_run "loadedmax.py" "creation/execution");;
  Os.print "--- NEW SECTION END ---".

(** Lines 128-261: the branch taken otherwise. *)
Definition failure_path : M unit :=
  recovery_A;;
  recovery_B;;
  self_destruct
    "longa.py has self-destructed after longamax.py and loadedmax.py completed from: "
    "after longamax/loadedmax".

(** Lines 107-109. *)
Definition branch (longa1_imported : bool) : M unit :=
  Os.time_sleep env 1;;
  if longa1_imported then success_path else failure_path.

(** The [__main__] block, lines 53-261. *)
Definition main : M unit :=
  _ ← write_successor;
  longa1_imported ← import_longa1;
  branch longa1_imported.

(** A run up to the branch decision: the captured source and the outcome
    of the load. *)
Definition until_branch : M (pystr * bool) :=
  code ← write_successor;
  longa1_imported ← import_longa1;
  mret (code, longa1_imported).

End WithEnv.

(** A process that has just started: nothing done yet. *)
Definition boot (files : gmap string pybytes) (typed : list (option Z)) : World :=
  mkWorld files [] 0 typed.

End Longa.

(** ** Regeneration, seen from the orchestrator's file

    One cycle: the source is captured and embedded in the successor; the
    successor is written, read back and recognised; it writes the text it
    holds over the orchestrator's file.  The result is the new content of
    that file ([None] when a step of the cycle raises). *)
Definition regenerate (source : pybytes) : option pybytes :=
  code ← Capture.clean_ascii_code source;
  script ← Text.encode_utf8 (Agents.longa1_code code);
  text ← Text.decode_ascii script;
  match Agents.recognise text with
  | Some (Agents.Successor embedded_source) => Text.encode_utf8 embedded_source
  | _ => None
  end.

(** The same cycle run by a regenerated orchestrator, whose line 23 holds
    the literals [em_dash] and [en_dash]. *)
Definition regenerate_with (em_dash en_dash : pystr) (source : pybytes)
  : option pybytes :=
  code ← Capture.clean_ascii_code_with em_dash en_dash source;
  script ← Text.encode_utf8 (Agents.longa1_code code);
  text ← Text.decode_ascii script;
  match Agents.recognise text with
  | Some (Agents.Successor embedded_source) => Text.encode_utf8 embedded_source
  | _ => None
  end.

(** ** What a computation may do to the world

    The atomic changes of the world: the clock moves, the watcher deletes
    the successor, a line of input is consumed, or an event allowed by
    [ok] is logged together with its effect on the namestore. *)

Definition effect (e : event) (m : gmap string pybytes) : gmap string pybytes :=
  match e with
  | Wrote name data => <[name := data]> m
  | Removed name => delete name m
  | _ => m
  end.

Inductive atom (ok : event -> bool) : World -> World -> Prop :=
| atom_clock w : atom ok w (Os.advance w)
| atom_watcher w : atom ok w (Os.with_fs (delete "longa1.py" (fs w)) w)
| atom_input w : atom ok w (mkWorld (fs w) (trace w) (now w) (tail (stdin w)))
| atom_event w e :
    ok e = true -> atom ok w (Os.log e (Os.with_fs (effect e (fs w)) w)).

Definition steps (ok : event -> bool) : World -> World -> Prop := rtc (atom ok).

(** Every run of [m] changes the world by such steps only. *)
Definition runs (ok : event -> bool) {A} (m : M A) : Prop :=
  forall w, steps ok w (snd (m w)).

(** No event at all: time passing. *)
Definition silent : event -> bool := fun _ => false.

(** ** What the orchestrator leaves in the trace *)

Module Seen.

(** One turn of the cleanup loop, for [f_name]. *)
Definition not_found (f_name : string) : event :=
  Printed ("  " +:+ f_name +:+ " not found (already clean or never created).").

Definition cleanup_error (f_name : string) (e : exn) : event :=
  Printed ("  Error cleaning up " +:+ f_name +:+ ": " +:+ str e
           +:+ " (file might be in use or permissions issue)").

Inductive cleaned (f_name : string) : list event -> Prop :=
| cleaned_not_found : cleaned f_name [not_found f_name]
| cleaned_removed :
    cleaned f_name [Removed f_name; Printed ("  Cleaned up: " +:+ f_name)]
| cleaned_error e :
    is_OSError e = true -> cleaned f_name [cleanup_error f_name e].


(** The outcome of the turn for [f_name], by what the directory held under
    that name when the cleanup began ([before]) and holds when it has
    ended ([after]).  A name that was absent is logged as not found.  A
    name that was present is removed, or the deletion raised and the
    error is logged while the entry stays as it was; only the successor's
    file can also vanish under the cleanup, deleted by the watcher before
    the turn looked for it or after. *)
Definition outcome (f_name : string) (before after : option pybytes)
    (evs : list event) : Prop :=
  match before with
  | None => evs = [not_found f_name] /\ after = None
  | Some _ =>
      (evs = [Removed f_name; Printed ("  Cleaned up: " +:+ f_name)]
       /\ after = None)
      \/ (exists e,
            is_OSError e = true
            /\ evs = [cleanup_error f_name e]
            /\ (after = before \/ (f_name = "longa1.py" /\ after = None)))
      \/ (f_name = "longa1.py" /\ evs = [not_found f_name] /\ after = None)
  end.

(** What a cleanup may do: print, and remove one of its names. *)
Definition cleanup_only (e : event) : bool :=
  match e with
  | Printed _ => true
  | Removed name => bool_decide (name ∈ Longa.files_to_clean)
  | _ => false
  end.


(** A script deleting its own file [name]: the file is removed and the
    line [done] printed, or the deletion raises and the handler leaves
    [stuck e]. *)
Inductive deleted_itself (name : string) (done : string)
    (stuck : exn -> list event) : list event -> Prop :=
| itself_removed : deleted_itself name done stuck [Removed name; Printed done]
| itself_stuck e :
    is_OSError e = true -> deleted_itself name done stuck (stuck e).

(** The messages of the successor's self-deletion. *)
Definition successor_done : string :=
  "longa1.py self-destruction complete: longa1.py removed.".

Definition successor_stuck (e : exn) : list event :=
  [Printed ("Error during self-destruction of longa1.py (longa1.py): " +:+ str e)].

(** The load completed without exception: after the pause the successor
    was found, and [exec_module] returned. *)
Definition load_completes (env : Env) (w : World) : Prop :=
  exists w1 w2 w3,
    Os.time_sleep env 1 w = (inr tt, w1)
    /\ Os.os_path_exists env "longa1.py" w1 = (inr true, w2)
    /\ Longa.exec_module env "longa1.py" w2 = (inr tt, w3).

(** The messages of the orchestrator's closing self-deletion. *)
Definition orchestrator_done (env : Env) (done : string) : string :=
  done +:+ Os.abspath env "longa.py" +:+ ".".

Definition orchestrator_stuck (after : string) (e : exn) : list event :=
  [Printed ("Error during self-destruction of longa.py (" +:+ after +:+ "): "
            +:+ str e);
   Printed "longa.py (longa.py) could not be removed automatically."].

(** The closing of the success path, and of the failure path. *)
Definition success_closing (env : Env) : list event -> Prop :=
  deleted_itself "longa.py"
    (orchestrator_done env
       "longa.py has self-destructed (after longa1 imported) from: ")
    (orchestrator_stuck "after longa1 imported").

Definition failure_closing (env : Env) : list event -> Prop :=
  deleted_itself "longa.py"
    (orchestrator_done env
       "longa.py has self-destructed after longamax.py and loadedmax.py completed from: ")
    (orchestrator_stuck "after longamax/loadedmax").

(** The lines a trace shows on the console. *)
Fixpoint console (evs : list event) : list string :=
  match evs with
  | [] => []
  | Printed line :: evs' => line :: console evs'
  | _ :: evs' => console evs'
  end.

(** Events that only the failure path produces: a recovery script is
    written, a process is started. *)
Definition of_failure_path (e : event) : bool :=
  match e with
  | Wrote name _ => String.eqb name "longamax.py" || String.eqb name "loadedmax.py"
  | ChildStarted _ | ChildExited _ _ | Detached _ => true
  | _ => false
  end.

(** Events that only the success path produces: the marker is written. *)
Definition of_success_path (e : event) : bool :=
  match e with
  | Wrote name _ => String.eqb name "longa2.py"
  | _ => false
  end.

(** What the run does between the cleanup and the load. *)
Definition writing_successor (e : event) : bool :=
  match e with
  | Printed _ | Slept _ => true
  | Wrote name _ => String.eqb name "longa1.py"
  | _ => false
  end.

(** What the run may do up to the write of the successor. *)
Definition preparing (e : event) : bool :=
  match e with
  | Printed _ | Slept _ => true
  | Removed name => bool_decide (name ∈ Longa.files_to_clean)
  | Wrote name _ => String.eqb name "longa1.py"
  | _ => false
  end.

(** What the success branch may do: print, pause, write the marker and
    remove the orchestrator's file. *)
Definition succeeding (e : event) : bool :=
  match e with
  | Printed _ | Slept _ => true
  | Wrote name _ => String.eqb name "longa2.py"
  | Removed name => String.eqb name "longa.py"
  | _ => false
  end.

(** A process is started, supervised or detached. *)
Definition launch (e : event) : bool :=
  match e with
  | ChildStarted _ | Detached _ => true
  | _ => false
  end.

(** The countdown of Recovery-A. *)
Definition countdown : list event :=
  [Printed "Deleting in 3 seconds..."; Slept 1;
   Printed "Deleting in 2 seconds..."; Slept 1;
   Printed "Deleting in 1 seconds..."; Slept 1].

(** The messages of the self-deletion of Recovery-A. *)
Definition longamax_done : string :=
  "longamax.py self-destruction complete: longamax.py removed.".

Definition longamax_stuck (e : exn) : list event :=
  [Printed ("Error during self-destruction of longamax.py (longamax.py): "
            +:+ str e)].

(** What Recovery-A does from its start to its end when nothing it needs
    is refused; [gone] is what its self-deletion leaves in the trace. *)
Definition recovery_A_events (code : pystr) (gone : list event) : list event :=
  [Printed "longamax.py started. Countdown to self-destruct..."]
  ++ countdown
  ++ [Wrote "longa.py" (map Text.chr8 code); Printed "longa.py recreated."]
  ++ gone
  ++ [Printed "Attempting to run longa.py after longamax.py self-destructs...";
      Detached ["python"; "longa.py"];
      Printed "longa.py launched successfully from longamax.py."].

(** The number of detached launches in a trace. *)
Fixpoint spawns (evs : list event) : nat :=
  match evs with
  | [] => 0
  | Detached _ :: evs' => S (spawns evs')
  | _ :: evs' => spawns evs'
  end.

(** What Recovery-B and the selector it starts may do: print, write and
    remove [loadedmax.py], run the selector under supervision, and write
    one [longastop] file. *)
Definition recovery_B_only (e : event) : bool :=
  match e with
  | Printed _ => true
  | Wrote name _ => String.eqb name "loadedmax.py" || String.prefix "longastop" name
  | Removed name => String.eqb name "loadedmax.py"
  | ChildStarted _ | ChildExited _ _ => true
  | _ => false
  end.

(** The names a run works on: the orchestrator's file and the four
    scripts it generates. *)
Definition own_names : list string :=
  ["longa.py"; "longa1.py"; "longa2.py"; "longamax.py"; "loadedmax.py"].

(** What a whole run, with the processes it waits for, may do to the
    directory: write one of its names, a [longastop] file of the selector
    or the loader's cache, and remove one of its names. *)
Definition of_run (e : event) : bool :=
  match e with
  | Wrote name _ =>
      bool_decide (name ∈ own_names) || String.prefix "longastop" name
      || String.eqb name "__pycache__"
  | Removed name => bool_decide (name ∈ own_names)
  | _ => true
  end.

(** What the loader leaves in the trace for the module it loads: the
    write of its cache, unless that could not be done. *)
Definition cached (env : Env) (evs : list event) : Prop :=
  evs = [] \/ exists source, evs = [Wrote "__pycache__" (bytecode env source)].

(** What the orchestrator prints after a supervised run of [script] that
    ended with the exit status [rc]. *)
Definition supervised (script : string) (rc : N) : string :=
  if rc =? 0 then script +:+ " executed successfully."
  else "Error running " +:+ script +:+ ": "
       +:+ str (CalledProcessError ["python"; script] rc).

(** The selector's menu and its prompt. *)
Definition menu : list event :=
  Printed "Please select a number from the following options:"
  :: map (fun option =>
            Printed (Loadmax.str_Z option +:+ ") Option " +:+ Loadmax.str_Z option))
       Loadmax.options.

Definition prompt : event := Printed "Enter your choice (1-4): ".

(** A line the selector does not accept: [int] rejects it, or the number
    is not an option.  For such a line the console shows the prompt that
    asked for it and then the complaint. *)
Definition refused_line (line : option Z) : bool :=
  match line with
  | None => true
  | Some choice => negb (bool_decide (choice ∈ Loadmax.options))
  end.

Definition asked_again (line : option Z) : list event :=
  [prompt;
   Printed
     match line with
     | None => "Please enter a valid number."
     | Some _ => "Invalid selection. Please choose a number between 1 and 4."
     end].

(** The file the selector creates for the choice [n]. *)
Definition longastop (n : Z) : string := "longastop" +:+ Loadmax.str_Z n +:+ ".py".

Definition longastop_text (n : Z) : string :=
  "# This is longastop" +:+ Loadmax.str_Z n +:+ ".py, created by loadmax.py
# The number " +:+ Loadmax.str_Z n +:+ " was selected.
".

(** The messages of the self-deletion of Recovery-B. *)
Definition loadedmax_done : string :=
  "Self-destruction complete: loadedmax.py has been removed.".

Definition loadedmax_stuck (e : exn) : list event :=
  [Printed ("Error during self-destruction of loadedmax.py: " +:+ str e);
   Printed "The loadedmax.py script could not be removed automatically."].

End Seen.

(** ** The sequence builder of [longatrain.py]

    The data are the floats that [load_data] makes of the rows of the
    file (line 24); [np.array] keeps each of them as it is, so an array
    is given by its rows and a row by its entries. *)

Module Longatrain.

Abbreviation pyfloat := PrimFloat.float.

(** [data[i:j]] for indices that are not negative. *)
Definition slice (data : list pyfloat) (i j : nat) : list pyfloat :=
  take (j - i)%nat (drop i data).

(** The loop of lines 58-64 over the indices still to come, on the two
    accumulators; [data[i + look_back]] raises [IndexError] (here [None])
    past the end of the list. *)
Fixpoint windows (data : list pyfloat) (look_back : nat) (indices : list nat)
    (X : list (list pyfloat)) (y : list pyfloat)
  : option (list (list pyfloat) * list pyfloat) :=
  match indices with
  | [] => Some (X, y)
  | i :: later =>
      let feature_set := slice data i (i + look_back)%nat in
      target ← data !! (i + look_back)%nat;
      windows data look_back later (X ++ [feature_set]) (y ++ [target])
  end.

(** [create_sequences], lines 36-66, for a [look_back] that is not
    negative (the script calls it with 5). *)
Definition create_sequences (data : list pyfloat) (look_back : nat)
  : option (list (list pyfloat) * list pyfloat) :=
  if bool_decide (length data <= look_back)%nat then Some ([], [])
  else windows data look_back (seq 0 (length data - look_back)%nat) [] [].

End Longatrain.

(** ** Environments and worlds to run the model in *)

Module Scenario.

(** A compiler for the scenarios: the bytecode is a magic number followed
    by the source. *)
Definition pyc (source : pybytes) : pybytes :=
  list_byte_of_string "pyc:" ++ source.

(** Nothing is refused, every launch works, and no watcher runs. *)
Definition quiet : Env :=
  mkEnv (fun _ _ => false) (fun _ _ => false) (fun _ => false) (fun _ => false)
    "/srv/longa" (fun _ => false) pyc.

(** As [quiet], with the watcher of [delete1.py] taking every turn. *)
Definition watched : Env :=
  mkEnv (fun _ _ => false) (fun _ _ => false) (fun _ => false) (fun _ => true)
    "/srv/longa" (fun _ => false) pyc.

(** As [watched], on a system where [python] cannot be started. *)
Definition no_python : Env :=
  mkEnv (fun _ _ => false) (fun _ _ => false) (fun _ => true) (fun _ => true)
    "/srv/longa" (fun _ => false) pyc.

(** As [quiet], where [name] can be neither removed nor opened for
    writing. *)
Definition locked (name : string) : Env :=
  mkEnv (fun _ f => String.eqb f name) (fun _ f => String.eqb f name)
    (fun _ => false) (fun _ => false) "/srv/longa" (fun _ => false) pyc.

(** A directory that holds the orchestrator alone, a one-line program. *)
Definition source : pybytes := list_byte_of_string "print(1)".

Definition code : pystr := Text.codes "print(1)".

Definition fresh : gmap string pybytes := {[ "longa.py" := source ]}.

(** The same directory with a file left by an earlier run. *)
Definition stale (name : string) : gmap string pybytes :=
  <[name := list_byte_of_string "# left over"]> fresh.

End Scenario.
(** * Properties *)

(** ** Text and codecs *)

Section TextFacts.
Import Text.

Lemma to_N_chr8 (n : N) : n < 256 -> Byte.to_N (chr8 n) = n.
Proof.
  intros Hn. unfold chr8. rewrite N.mod_small by exact Hn.
  destruct (Byte.of_N n) as [b|] eqn:E.
  - now apply Byte.to_of_N.
  - apply Byte.of_N_None_iff in E. lia.
Qed.

Lemma chr8_to_N (b : byte) : chr8 (Byte.to_N b) = b.
Proof.
  unfold chr8. pose proof (Byte.to_N_bounded b) as Hb.
  rewrite N.mod_small by lia. now rewrite Byte.of_to_N.
Qed.

Lemma to_N_lt_256 (b : byte) : Byte.to_N b < 256.
Proof. pose proof (Byte.to_N_bounded b). lia. Qed.

Lemma map_to_N_chr8 (s : pystr) :
  Forall is_ascii s -> map Byte.to_N (map chr8 s) = s.
Proof.
  induction 1 as [|c s Hc _ IH]; simpl; [reflexivity|].
  unfold is_ascii in Hc. rewrite to_N_chr8 by lia. now rewrite IH.
Qed.

Lemma map_chr8_to_N (b : pybytes) : map chr8 (map Byte.to_N b) = b.
Proof. induction b as [|x b IH]; simpl; [|rewrite chr8_to_N, IH]; reflexivity. Qed.

Lemma uint_codes_ascii (u : Decimal.uint) : Forall is_ascii (uint_codes u).
Proof.
  induction u; simpl; constructor; try assumption; unfold is_ascii; lia.
Qed.

Lemma xmlcharref_ascii (c : N) : Forall is_ascii (xmlcharref c).
Proof.
  unfold xmlcharref, decimal. repeat apply Forall_app_2.
  - repeat constructor; unfold is_ascii; lia.
  - apply uint_codes_ascii.
  - repeat constructor; unfold is_ascii; lia.
Qed.

Lemma charrefs_ascii (s : pystr) : Forall is_ascii (charrefs s).
Proof.
  induction s as [|c s IH]; simpl; [constructor|].
  apply Forall_app_2; [|exact IH].
  destruct (N.ltb_spec c 128).
  - constructor; [assumption|constructor].
  - apply xmlcharref_ascii.
Qed.

Lemma encode_ascii_charrefs (s : pystr) :
  encode_ascii_xmlcharrefreplace s = map chr8 (charrefs s).
Proof.
  unfold encode_ascii_xmlcharrefreplace, charrefs.
  induction s as [|c s IH]; cbn [flat_map]; [reflexivity|].
  rewrite map_app, IH. destruct (c <? 128); reflexivity.
Qed.

Lemma charrefs_id (s : pystr) : Forall is_ascii s -> charrefs s = s.
Proof.
  induction 1 as [|c s Hc _ IH]; simpl; [reflexivity|].
  unfold is_ascii in Hc. apply N.ltb_lt in Hc. now rewrite Hc, IH.
Qed.

Lemma decode_ascii_chr8 (s : pystr) :
  Forall is_ascii s -> decode_ascii (map chr8 s) = Some s.
Proof.
  intros Hs. unfold decode_ascii.
  assert (forallb (fun x => Byte.to_N x <? 128) (map chr8 s) = true) as ->.
  { apply forallb_forall. intros x Hx. apply in_map_iff in Hx as (c & <- & Hc).
    rewrite List.Forall_forall in Hs. specialize (Hs c Hc). unfold is_ascii in Hs.
    rewrite to_N_chr8 by lia. now apply N.ltb_lt. }
  now rewrite map_to_N_chr8.
Qed.

Lemma decode_ascii_Some (b : pybytes) (s : pystr) :
  decode_ascii b = Some s -> s = map Byte.to_N b /\ Forall ascii_byte b.
Proof.
  unfold decode_ascii. destruct (forallb _ b) eqn:E; [|discriminate].
  intros [= <-]. split; [reflexivity|].
  apply List.Forall_forall. intros x Hx.
  rewrite forallb_forall in E. specialize (E x Hx). now apply N.ltb_lt in E.
Qed.

Lemma encode_utf8_ascii (s : pystr) :
  Forall is_ascii s -> encode_utf8 s = Some (map chr8 s).
Proof.
  induction 1 as [|c s Hc _ IH]; simpl; [reflexivity|].
  unfold utf8_char. unfold is_ascii in Hc. apply N.ltb_lt in Hc.
  now rewrite Hc, IH.
Qed.

(** Latin-1 text has no character for the dash replacements to find. *)
Lemma replace1_absent (old : N) (new s : pystr) :
  Forall (fun c => c <> old) s -> replace1 old new s = s.
Proof.
  unfold replace1.
  induction 1 as [|c s Hc _ IH]; cbn [flat_map]; [reflexivity|].
  apply N.eqb_neq in Hc. now rewrite Hc, IH.
Qed.

Lemma dash_normalised_latin1 (raw : pybytes) :
  Capture.dash_normalised (decode_latin1 raw) = decode_latin1 raw.
Proof.
  unfold Capture.dash_normalised, decode_latin1.
  assert (forall old, 256 <= old ->
            Forall (fun c => c <> old) (map Byte.to_N raw)) as Hfar.
  { intros old Hold. apply List.Forall_forall. intros c Hc.
    apply in_map_iff in Hc as (b & <- & _). pose proof (to_N_lt_256 b). lia. }
  rewrite (replace1_absent 8212) by (apply Hfar; lia).
  apply replace1_absent, Hfar. lia.
Qed.

End TextFacts.

(** ** String literals: [repr] and the lexer agree *)

Section LiteralFacts.
Import Text.

Ltac ncases :=
  repeat match goal with
    | |- context [N.eqb ?a ?b] => destruct (N.eqb_spec a b)
    | |- context [N.ltb ?a ?b] => destruct (N.ltb_spec a b)
    | |- context [N.leb ?a ?b] => destruct (N.leb_spec a b)
    end.

Lemma hex_value_hex_digit (d : N) : d < 16 -> hex_value (hex_digit d) = Some d.
Proof.
  intros Hd. unfold hex_value, hex_digit.
  ncases; cbn [andb]; try lia; f_equal; lia.
Qed.

Lemma hex_digit_ascii (d : N) : d < 16 -> is_ascii (hex_digit d).
Proof. unfold is_ascii, hex_digit. intros Hd. ncases; lia. Qed.

Lemma hex_fixed_ascii (k : nat) (n : N) : Forall is_ascii (hex_fixed k n).
Proof.
  revert n. induction k as [|k IH]; intros n; cbn [hex_fixed]; [constructor|].
  apply Forall_app_2; [apply IH|].
  constructor; [|constructor]. apply hex_digit_ascii, N.mod_lt. lia.
Qed.

Section Scan.
Variable q : N.

Lemma scan_hex_prefix (k j : nat) (a n : N) (acc rest : pystr) :
  n < 16 ^ N.of_nat k ->
  scan_literal q (LHex (k + S j) a) acc (hex_fixed k n ++ rest)
  = scan_literal q (LHex (S j) (a * 16 ^ N.of_nat k + n)) acc rest.
Proof.
  revert j a n rest. induction k as [|k IH]; intros j a n rest Hn.
  - cbn in Hn. assert (n = 0) as -> by lia. cbn [hex_fixed app Nat.add].
    do 2 f_equal. cbn. lia.
  - rewrite Nat2N.inj_succ, N.pow_succ_r' in *.
    cbn [hex_fixed]. rewrite <- app_assoc. cbn [app].
    replace (S k + S j)%nat with (k + S (S j))%nat by lia.
    rewrite IH by (apply N.Div0.div_lt_upper_bound; lia).
    cbn [scan_literal]. rewrite hex_value_hex_digit by (apply N.mod_lt; lia).
    do 2 f_equal. pose proof (N.div_mod n 16). lia.
Qed.

Lemma scan_hex (k : nat) (n : N) (acc rest : pystr) :
  n < 16 ^ N.of_nat (S k) ->
  scan_literal q (LHex (S k) 0) acc (hex_fixed (S k) n ++ rest)
  = scan_literal q LNormal (n :: acc) rest.
Proof.
  intros Hn. rewrite Nat2N.inj_succ, N.pow_succ_r' in Hn.
  cbn [hex_fixed]. rewrite <- app_assoc. cbn [app].
  replace (S k) with (k + 1)%nat at 1 by lia.
  rewrite scan_hex_prefix by (apply N.Div0.div_lt_upper_bound; lia).
  cbn [scan_literal]. rewrite hex_value_hex_digit by (apply N.mod_lt; lia).
  do 2 f_equal. pose proof (N.div_mod n 16). lia.
Qed.

Hypothesis quote : q = 39 \/ q = 34.

Lemma scan_repr_char (c : N) (acc rest : pystr) :
  c < 4294967296 ->
  scan_literal q LNormal acc (repr_char q c ++ rest)
  = scan_literal q LNormal (c :: acc) rest.
Proof.
  intros Hc. unfold repr_char.
  destruct (N.eqb_spec c q) as [->|Hq]; cbn [orb].
  { destruct quote as [-> | ->]; reflexivity. }
  destruct (N.eqb_spec c 92) as [->|H92].
  { destruct quote as [-> | ->]; reflexivity. }
  destruct (N.eqb_spec c 9) as [->|H9].
  { destruct quote as [-> | ->]; reflexivity. }
  destruct (N.eqb_spec c 10) as [->|H10].
  { destruct quote as [-> | ->]; reflexivity. }
  destruct (N.eqb_spec c 13) as [->|H13].
  { destruct quote as [-> | ->]; reflexivity. }
  assert (forall k n,
             n < 16 ^ N.of_nat (S k) ->
             forall e, simple_escape e = None ->
             (if e =? 120 then scan_literal q (LHex 2 0) acc (hex_fixed (S k) n ++ rest)
              else if e =? 117 then scan_literal q (LHex 4 0) acc (hex_fixed (S k) n ++ rest)
              else if e =? 85 then scan_literal q (LHex 8 0) acc (hex_fixed (S k) n ++ rest)
              else None) = scan_literal q (LHex (S k) 0) acc (hex_fixed (S k) n ++ rest) ->
             scan_literal q LNormal acc (92 :: e :: hex_fixed (S k) n ++ rest)
             = scan_literal q LNormal (n :: acc) rest) as Hhex.
  { intros k n Hn e He Hsel.
    cbn [scan_literal].
    assert ((92 =? q) = false) as -> by (destruct quote as [-> | ->]; reflexivity).
    cbn [N.eqb Pos.eqb]. rewrite He, Hsel. now apply scan_hex. }
  destruct ((c <? 32) || (c =? 127)) eqn:Hctl.
  { apply (Hhex 1%nat); [|reflexivity..].
    apply orb_true_iff in Hctl as [H|H]; [apply N.ltb_lt in H|apply N.eqb_eq in H];
      cbn; lia. }
  apply orb_false_iff in Hctl as [Hlo Hdel].
  apply N.ltb_ge in Hlo. apply N.eqb_neq in Hdel.
  destruct (N.ltb_spec c 127) as [H127|H127].
  { cbn [app scan_literal].
    destruct (N.eqb_spec c q); [contradiction|].
    destruct (N.eqb_spec c 92); [contradiction|].
    destruct (N.eqb_spec c 10); [contradiction|].
    destruct (N.eqb_spec c 13); [contradiction|]. reflexivity. }
  destruct (N.ltb_spec c 256).
  { apply (Hhex 1%nat); [cbn; lia|reflexivity..]. }
  destruct (N.ltb_spec c 65536).
  { apply (Hhex 3%nat); [cbn; lia|reflexivity..]. }
  apply (Hhex 7%nat); [cbn; lia|reflexivity..].
Qed.

Lemma scan_repr_chars (s acc rest : pystr) :
  Forall (fun c => c < 4294967296) s ->
  scan_literal q LNormal acc (flat_map (repr_char q) s ++ q :: rest)
  = Some (rev acc ++ s, rest).
Proof.
  intros Hs. revert acc. induction Hs as [|c s Hc _ IH]; intros acc.
  - cbn [flat_map app scan_literal]. rewrite N.eqb_refl.
    now rewrite app_nil_r.
  - cbn [flat_map]. rewrite <- app_assoc, scan_repr_char by exact Hc.
    rewrite IH. cbn [rev]. now rewrite <- app_assoc.
Qed.

End Scan.

Lemma repr_quote_cases (s : pystr) : repr_quote s = 39 \/ repr_quote s = 34.
Proof. unfold repr_quote. destruct (_ && _); auto. Qed.

(** What [repr] prints, the lexer reads back, whatever text follows. *)
Lemma read_literal_repr (s rest : pystr) :
  Forall (fun c => c < 4294967296) s ->
  read_literal (repr s ++ rest) = Some (s, rest).
Proof.
  intros Hs. unfold repr. cbn [app read_literal].
  pose proof (repr_quote_cases s) as Hq.
  assert ((repr_quote s =? 39) || (repr_quote s =? 34) = true) as ->.
  { destruct Hq as [-> | ->]; reflexivity. }
  rewrite <- app_assoc. cbn [app].
  now rewrite scan_repr_chars.
Qed.

Lemma eval_literal_repr (s : pystr) :
  Forall (fun c => c < 4294967296) s -> eval_literal (repr s) = Some s.
Proof.
  intros Hs. unfold eval_literal.
  rewrite <- (app_nil_r (repr s)), read_literal_repr by exact Hs. reflexivity.
Qed.

Lemma ascii_is_char (s : pystr) :
  Forall is_ascii s -> Forall (fun c => c < 4294967296) s.
Proof.
  intros Hs. eapply Forall_impl; [exact Hs|].
  unfold is_ascii. intros c Hc. lia.
Qed.

Lemma repr_char_ascii (q c : N) : is_ascii c -> Forall is_ascii (repr_char q c).
Proof.
  intros Hc. unfold repr_char.
  assert (is_ascii 92 /\ is_ascii 116 /\ is_ascii 110 /\ is_ascii 114
          /\ is_ascii 120 /\ is_ascii 117 /\ is_ascii 85) as (?&?&?&?&?&?&?)
    by (unfold is_ascii; repeat split; lia).
  repeat match goal with
    | |- context [if ?b then _ else _] => destruct b
    end;
    repeat first [assumption | apply hex_fixed_ascii | constructor].
Qed.

Lemma repr_ascii (s : pystr) : Forall is_ascii s -> Forall is_ascii (repr s).
Proof.
  intros Hs. unfold repr.
  assert (is_ascii (repr_quote s)) as Hq.
  { destruct (repr_quote_cases s) as [-> | ->]; unfold is_ascii; lia. }
  constructor; [exact Hq|]. apply Forall_app_2; [|constructor; [exact Hq|constructor]].
  clear Hq. generalize (repr_quote s) as q. intros q.
  induction Hs as [|c s Hc _ IH]; cbn [flat_map]; [constructor|].
  apply Forall_app_2; [now apply repr_char_ascii|exact IH].
Qed.

End LiteralFacts.

(** ** Code Capture and the scripts that embed its result *)

Section CaptureFacts.
Import Text.

Lemma clean_ascii_code_charrefs (raw : pybytes) :
  Capture.clean_ascii_code raw = Some (charrefs (decode_latin1 raw)).
Proof.
  unfold Capture.clean_ascii_code.
  rewrite dash_normalised_latin1, encode_ascii_charrefs.
  apply decode_ascii_chr8, charrefs_ascii.
Qed.

Lemma clean_ascii_code_ascii (raw : pybytes) (code : pystr) :
  Capture.clean_ascii_code raw = Some code -> Forall is_ascii code.
Proof.
  rewrite clean_ascii_code_charrefs. intros [= <-]. apply charrefs_ascii.
Qed.

Lemma latin1_ascii (raw : pybytes) :
  Forall ascii_byte raw -> Forall is_ascii (decode_latin1 raw).
Proof.
  unfold decode_latin1. induction 1; simpl; constructor; assumption.
Qed.

(** ASCII bytes are their own capture. *)
Lemma clean_ascii_code_fixed (code : pystr) :
  Forall is_ascii code -> Capture.clean_ascii_code (map chr8 code) = Some code.
Proof.
  intros Hc. rewrite clean_ascii_code_charrefs. unfold decode_latin1.
  rewrite map_to_N_chr8 by exact Hc. now rewrite charrefs_id.
Qed.

Lemma ascii_check (l : pystr) :
  forallb (fun c => c <? 128) l = true -> Forall is_ascii l.
Proof.
  intros H. apply List.Forall_forall. intros c Hc.
  rewrite forallb_forall in H. apply N.ltb_lt. now apply H.
Qed.

Lemma strip_prefix_app (p s : pystr) : Agents.strip_prefix p (p ++ s) = Some s.
Proof.
  induction p as [|a p IH]; simpl; [reflexivity|]. now rewrite N.eqb_refl.
Qed.

Lemma hole_filled (head tail code : pystr) :
  Forall is_ascii code ->
  Agents.hole head tail (head ++ repr code ++ tail) = Some code.
Proof.
  intros Hc. unfold Agents.hole.
  rewrite strip_prefix_app, read_literal_repr by now apply ascii_is_char.
  now rewrite decide_True.
Qed.

Lemma recognise_longa1_code (code : pystr) :
  Forall is_ascii code ->
  Agents.recognise (Agents.longa1_code code) = Some (Agents.Successor code).
Proof.
  intros Hc. unfold Agents.recognise, Agents.longa1_code.
  now rewrite hole_filled.
Qed.

Lemma not_longa1_head (rest : pystr) :
  Agents.strip_prefix Agents.longa1_head (Agents.longamax_head ++ rest) = None.
Proof. reflexivity. Qed.

Lemma recognise_longamax_code_content (code : pystr) :
  Forall is_ascii code ->
  Agents.recognise (Agents.longamax_code_content code)
  = Some (Agents.RecoveryA code).
Proof.
  intros Hc. unfold Agents.recognise.
  assert (Agents.hole Agents.longa1_head Agents.longa1_tail
            (Agents.longamax_code_content code) = None) as ->.
  { unfold Agents.hole, Agents.longamax_code_content.
    now rewrite not_longa1_head. }
  unfold Agents.longamax_code_content. now rewrite hole_filled.
Qed.

Lemma recognise_loadedmax_code_content :
  Agents.recognise Agents.loadedmax_code_content = Some Agents.RecoveryB.
Proof. vm_compute. reflexivity. Qed.

Lemma longa1_code_ascii (code : pystr) :
  Forall is_ascii code -> Forall is_ascii (Agents.longa1_code code).
Proof.
  intros Hc. unfold Agents.longa1_code.
  repeat apply Forall_app_2; [| now apply repr_ascii |];
    apply ascii_check; vm_compute; reflexivity.
Qed.

Lemma longamax_code_content_ascii (code : pystr) :
  Forall is_ascii code -> Forall is_ascii (Agents.longamax_code_content code).
Proof.
  intros Hc. unfold Agents.longamax_code_content.
  repeat apply Forall_app_2; [| now apply repr_ascii |];
    apply ascii_check; vm_compute; reflexivity.
Qed.

Lemma loadedmax_code_content_ascii : Forall is_ascii Agents.loadedmax_code_content.
Proof. apply ascii_check. vm_compute. reflexivity. Qed.

Lemma longa2_content_ascii : Forall is_ascii Agents.longa2_content.
Proof. apply ascii_check. vm_compute. reflexivity. Qed.

(** One regeneration leaves the captured text, as bytes, in the file. *)
Lemma regenerate_charrefs (source : pybytes) :
  regenerate source = Some (map chr8 (charrefs (decode_latin1 source))).
Proof.
  unfold regenerate. rewrite clean_ascii_code_charrefs. cbn [mbind option_bind].
  pose proof (charrefs_ascii (decode_latin1 source)) as Hc.
  rewrite (encode_utf8_ascii (Agents.longa1_code _)) by now apply longa1_code_ascii.
  cbn [mbind option_bind].
  rewrite decode_ascii_chr8 by now apply longa1_code_ascii.
  cbn [mbind option_bind].
  rewrite recognise_longa1_code by exact Hc.
  now apply encode_utf8_ascii.
Qed.

(** *** The capture of a regenerated orchestrator *)

Lemma replace_from_ascii (old new : pystr) (skip : nat) (s : pystr) :
  Forall is_ascii new -> Forall is_ascii s ->
  Forall is_ascii (replace_from old new skip s).
Proof.
  intros Hn Hs. revert skip.
  induction Hs as [|c s Hc Hs IH]; intros skip; cbn [replace_from];
    [constructor|].
  destruct skip; [|apply IH].
  destruct (starts_with old (c :: s)).
  - apply Forall_app_2; [exact Hn|apply IH].
  - constructor; [exact Hc|apply IH].
Qed.

Lemma replace_ascii (old new s : pystr) :
  Forall is_ascii new -> Forall is_ascii s -> Forall is_ascii (replace old new s).
Proof.
  intros Hn Hs. destruct old as [|a old]; cbn [replace].
  - apply Forall_app_2; [exact Hn|].
    induction Hs as [|c s Hc Hs IH]; cbn [flat_map]; [constructor|].
    constructor; [exact Hc|]. now apply Forall_app_2.
  - now apply replace_from_ascii.
Qed.

(** For a literal of one character [replace] is [replace1]. *)
Lemma replace_single (old : N) (new s : pystr) :
  replace [old] new s = replace1 old new s.
Proof.
  cbn [replace]. unfold replace1.
  induction s as [|c s IH]; [reflexivity|].
  cbn [replace_from starts_with flat_map length pred].
  rewrite IH, N.eqb_sym. destruct (c =? old); reflexivity.
Qed.

Lemma dash_normalised_with_ascii (em_dash en_dash code : pystr) :
  Forall is_ascii code ->
  Forall is_ascii (Capture.dash_normalised_with em_dash en_dash code).
Proof.
  intros Hc. unfold Capture.dash_normalised_with.
  apply replace_ascii; [repeat constructor|].
  apply replace_ascii; [repeat constructor|exact Hc].
Qed.

Lemma clean_ascii_code_with_src (raw : pybytes) :
  Capture.clean_ascii_code_with [8212] [8211] raw = Capture.clean_ascii_code raw.
Proof.
  unfold Capture.clean_ascii_code_with, Capture.clean_ascii_code,
    Capture.dash_normalised_with, Capture.dash_normalised.
  now rewrite !replace_single.
Qed.

(** On the bytes of an ASCII text a capture is its dash replacement. *)
Lemma clean_ascii_code_with_ascii (em_dash en_dash code : pystr) :
  Forall is_ascii code ->
  Capture.clean_ascii_code_with em_dash en_dash (map chr8 code)
  = Some (Capture.dash_normalised_with em_dash en_dash code).
Proof.
  intros Hc. unfold Capture.clean_ascii_code_with, decode_latin1.
  rewrite map_to_N_chr8 by exact Hc.
  pose proof (dash_normalised_with_ascii em_dash en_dash code Hc) as Hd.
  rewrite encode_ascii_charrefs, charrefs_id by exact Hd.
  now apply decode_ascii_chr8.
Qed.

Lemma regenerate_with_ascii (em_dash en_dash code : pystr) :
  Forall is_ascii code ->
  regenerate_with em_dash en_dash (map chr8 code)
  = Some (map chr8 (Capture.dash_normalised_with em_dash en_dash code)).
Proof.
  intros Hc. unfold regenerate_with.
  rewrite clean_ascii_code_with_ascii by exact Hc. cbn [mbind option_bind].
  pose proof (dash_normalised_with_ascii em_dash en_dash code Hc) as Hd.
  rewrite (encode_utf8_ascii (Agents.longa1_code _)) by now apply longa1_code_ascii.
  cbn [mbind option_bind].
  rewrite decode_ascii_chr8 by now apply longa1_code_ascii.
  cbn [mbind option_bind].
  rewrite recognise_longa1_code by exact Hd.
  now apply encode_utf8_ascii.
Qed.

End CaptureFacts.

(** C7. Code Capture is total: on every byte sequence it returns, never
    raising, a text of ASCII characters only, whose [repr] is an ASCII
    string literal that evaluates back to that text. *)
Theorem capture_total_and_embeddable (raw_bytes : pybytes) :
  exists code,
    Capture.clean_ascii_code raw_bytes = Some code
    /\ Forall Text.is_ascii code
    /\ Forall Text.is_ascii (Text.repr code)
    /\ Text.eval_literal (Text.repr code) = Some code.
Proof.
  exists (Text.charrefs (Text.decode_latin1 raw_bytes)).
  pose proof (charrefs_ascii (Text.decode_latin1 raw_bytes)) as Hc.
  split; [apply clean_ascii_code_charrefs|].
  split; [exact Hc|].
  split; [now apply repr_ascii|].
  now apply eval_literal_repr, ascii_is_char.
Qed.





(** ** Steps of the world *)

Section StepFacts.

Lemma with_fs_same (w : World) : Os.with_fs (fs w) w = w.
Proof. now destruct w. Qed.

#[local] Instance steps_preorder (ok : event -> bool) : PreOrder (steps ok).
Proof. unfold steps. apply _. Qed.

Lemma steps_atom (ok : event -> bool) (w w' : World) :
  atom ok w w' -> steps ok w w'.
Proof. intros H. now apply rtc_once. Qed.

Lemma steps_mono (ok ok' : event -> bool) (w w' : World) :
  (forall e, ok e = true -> ok' e = true) -> steps ok w w' -> steps ok' w w'.
Proof.
  intros Hsub. induction 1 as [|x y z Hxy _ IH]; [reflexivity|].
  etrans; [|exact IH]. apply steps_atom.
  destruct Hxy; try constructor. auto.
Qed.

Lemma steps_silent (ok : event -> bool) (w w' : World) :
  steps silent w w' -> steps ok w w'.
Proof. apply steps_mono. discriminate. Qed.

Lemma steps_event (ok : event -> bool) (w : World) (e : event) :
  ok e = true -> steps ok w (Os.log e (Os.with_fs (effect e (fs w)) w)).
Proof. intros H. apply steps_atom. now constructor. Qed.

(** An event that leaves the namestore alone. *)
Lemma steps_log (ok : event -> bool) (w : World) (e : event) :
  ok e = true -> effect e (fs w) = fs w -> steps ok w (Os.log e w).
Proof.
  intros H He. pose proof (steps_event ok w e H) as Hs.
  now rewrite He, with_fs_same in Hs.
Qed.

Lemma steps_trace (ok : event -> bool) (w w' : World) :
  steps ok w w' ->
  exists evs, trace w' = trace w ++ evs /\ Forall (fun e => ok e = true) evs.
Proof.
  induction 1 as [w|x y z Hxy _ (evs & Hz & Hevs)].
  - exists []. now rewrite app_nil_r.
  - destruct Hxy as [w|w|w|w e He]; cbn in Hz; try (now exists evs).
    exists (e :: evs). rewrite Hz, <- app_assoc. split; [reflexivity|].
    now constructor.
Qed.

Lemma steps_frame (ok : event -> bool) (w w' : World) (name : string) :
  steps ok w w' ->
  name <> "longa1.py" ->
  (forall data, ok (Wrote name data) = false) ->
  ok (Removed name) = false ->
  fs w' !! name = fs w !! name.
Proof.
  intros Hs Hn Hw Hr. induction Hs as [w|x y z Hxy _ IH]; [reflexivity|].
  rewrite IH. destruct Hxy as [w|w|w|w e He]; cbn; try reflexivity.
  - now rewrite lookup_delete_ne.
  - destruct e; cbn; try reflexivity.
    + rewrite lookup_insert_ne; [reflexivity|]. intros <-. now rewrite Hw in He.
    + rewrite lookup_delete_ne; [reflexivity|]. intros <-. now rewrite Hr in He.
Qed.

(** Without a write, what is absent stays absent. *)
Lemma steps_absent (ok : event -> bool) (w w' : World) (name : string) :
  steps ok w w' ->
  (forall data, ok (Wrote name data) = false) ->
  fs w !! name = None -> fs w' !! name = None.
Proof.
  intros Hs Hw. induction Hs as [w|x y z Hxy _ IH]; [auto|].
  intros Hx. apply IH. destruct Hxy as [w|w|w|w e He]; cbn; try assumption.
  - rewrite lookup_delete_None. auto.
  - destruct e; cbn; try assumption.
    + rewrite lookup_insert_ne; [assumption|]. intros <-. now rewrite Hw in He.
    + rewrite lookup_delete_None. auto.
Qed.

(** Without a write, an entry is gone or as it was. *)
Lemma steps_kept (ok : event -> bool) (w w' : World) (name : string) :
  steps ok w w' ->
  (forall data, ok (Wrote name data) = false) ->
  fs w' !! name = None \/ fs w' !! name = fs w !! name.
Proof.
  intros Hs Hw. induction Hs as [w|x y z Hxy _ IH]; [auto|].
  destruct IH as [IH|IH]; [auto|]. rewrite IH.
  destruct Hxy as [w|w|w|w e He]; cbn; auto.
  - destruct (decide (name = "longa1.py")) as [->|Hn].
    + left. now rewrite lookup_delete_eq.
    + right. now rewrite lookup_delete_ne.
  - destruct e; cbn; auto.
    + right. rewrite lookup_insert_ne; [reflexivity|]. intros <-.
      now rewrite Hw in He.
    + destruct (decide (name = name0)) as [->|Hn].
      * left. now rewrite lookup_delete_eq.
      * right. now rewrite lookup_delete_ne.
Qed.

Lemma silent_trace (w w' : World) : steps silent w w' -> trace w' = trace w.
Proof.
  intros Hs. apply steps_trace in Hs as (evs & -> & Hevs).
  destruct Hevs as [|e evs He _]; [now rewrite app_nil_r|discriminate He].
Qed.

Lemma silent_frame (w w' : World) (name : string) :
  steps silent w w' -> name <> "longa1.py" -> fs w' !! name = fs w !! name.
Proof. intros Hs Hn. now apply (steps_frame silent). Qed.

Lemma silent_kept (w w' : World) (name : string) :
  steps silent w w' -> fs w' !! name = None \/ fs w' !! name = fs w !! name.
Proof. intros Hs. now apply (steps_kept silent). Qed.

Lemma silent_absent (w w' : World) (name : string) :
  steps silent w w' -> fs w !! name = None -> fs w' !! name = None.
Proof. intros Hs. now apply (steps_absent silent). Qed.

End StepFacts.

(** ** The calls and the steps they take *)

Section CallFacts.
Variable env : Env.

Lemma bind_run {A B} (m : M A) (k : A -> M B) (w : World) :
  (m ≫= k) w
  = match m w with
    | (inr a, w') => k a w'
    | (inl e, w') => (inl e, w')
    end.
Proof. reflexivity. Qed.

Lemma bind_ok {A B} (m : M A) (k : A -> M B) (w w' : World) (a : A) :
  m w = (inr a, w') -> (m ≫= k) w = k a w'.
Proof. intros H. now rewrite bind_run, H. Qed.

Lemma bind_raised {A B} (m : M A) (k : A -> M B) (w w' : World) (e : exn) :
  m w = (inl e, w') -> (m ≫= k) w = (inl e, w').
Proof. intros H. now rewrite bind_run, H. Qed.

Lemma try_ok {A} (body : M A) (handler : exn -> option (M A)) w w' a :
  body w = (inr a, w') -> try_except body handler w = (inr a, w').
Proof. intros H. unfold try_except. now rewrite H. Qed.

Lemma try_raised {A} (body : M A) (handler : exn -> option (M A)) w w' e :
  body w = (inl e, w') ->
  try_except body handler w
  = match handler e with Some h => h w' | None => (inl e, w') end.
Proof. intros H. unfold try_except. now rewrite H. Qed.

(** *** Structure of [runs] *)

Lemma runs_ret (ok : event -> bool) {A} (a : A) : runs ok (mret a : M A).
Proof. intros w. reflexivity. Qed.

Lemma runs_raise (ok : event -> bool) {A} (e : exn) : runs ok (raise e : M A).
Proof. intros w. reflexivity. Qed.

Lemma runs_bind (ok : event -> bool) {A B} (m : M A) (k : A -> M B) :
  runs ok m -> (forall a, runs ok (k a)) -> runs ok (m ≫= k).
Proof.
  intros Hm Hk w. rewrite bind_run. specialize (Hm w).
  destruct (m w) as [[e|a] w']; cbn in *; [exact Hm|].
  etrans; [exact Hm|]. apply Hk.
Qed.

Lemma runs_try_except (ok : event -> bool) {A} (body : M A)
    (handler : exn -> option (M A)) :
  runs ok body ->
  (forall e h, handler e = Some h -> runs ok h) ->
  runs ok (try_except body handler).
Proof.
  intros Hb Hh w. unfold try_except. specialize (Hb w).
  destruct (body w) as [[e|a] w']; cbn in *; [|exact Hb].
  destruct (handler e) as [h|] eqn:E; cbn; [|exact Hb].
  etrans; [exact Hb|]. now apply (Hh e).
Qed.

Lemma runs_except_OSError (ok : event -> bool) {A} (h : exn -> M A) :
  (forall e, runs ok (h e)) ->
  forall e h', except_OSError h e = Some h' -> runs ok h'.
Proof.
  intros H e h'. unfold except_OSError. destruct (is_OSError e); [|discriminate].
  intros [= <-]. apply H.
Qed.

Lemma runs_except_Exception (ok : event -> bool) {A} (h : exn -> M A) :
  (forall e, runs ok (h e)) ->
  forall e h', except_Exception h e = Some h' -> runs ok h'.
Proof. intros H e h' [= <-]. apply H. Qed.

Lemma runs_for_each (ok : event -> bool) {A} (l : list A) (body : A -> M unit) :
  (forall x, runs ok (body x)) -> runs ok (for_each l body).
Proof.
  intros Hb. induction l as [|x l IH]; cbn [for_each].
  - apply (runs_ret ok tt).
  - intros w. unfold bind. specialize (Hb x w).
    destruct (body x w) as [[e|[]] w']; cbn in *; [exact Hb|].
    etrans; [exact Hb|]. apply IH.
Qed.

(** *** The watcher and the clock *)

Lemma delete1_poll_fs (w : World) :
  fs (snd (Os.delete1_poll env w)) = fs w
  \/ fs (snd (Os.delete1_poll env w)) = delete "longa1.py" (fs w).
Proof.
  unfold Os.delete1_poll. rewrite bind_run. cbn [Os.exists_now].
  destruct (bool_decide _); [|now left].
  unfold try_except. rewrite bind_run. unfold Os.remove_now.
  destruct (fs w !! "longa1.py"); [|now left].
  destruct (remove_refused env (now w) "longa1.py"); [now left|now right].
Qed.

Lemma tick_spec (w : World) :
  exists w', Os.tick env w = (inr tt, w') /\ steps silent w w'.
Proof.
  unfold Os.tick. eexists. split; [reflexivity|].
  etrans; [apply steps_atom, atom_clock|].
  etrans; [|apply steps_atom, atom_clock].
  destruct (watcher_polls env _); [|reflexivity].
  destruct (delete1_poll_fs (mkWorld (fs (Os.advance w)) [] (now (Os.advance w)) []))
    as [-> | ->]; cbn [fs].
  - rewrite with_fs_same. reflexivity.
  - apply steps_atom, atom_watcher.
Qed.

(** A call made after the clock has moved. *)
Lemma after_tick {A} (m : M A) (w : World) :
  exists w1, steps silent w w1 /\ (Os.tick env;; m) w = m w1.
Proof.
  destruct (tick_spec w) as (w1 & Ht & Hs). exists w1. split; [exact Hs|].
  now rewrite (bind_ok _ _ _ _ _ Ht).
Qed.

Lemma runs_tick (ok : event -> bool) : runs ok (Os.tick env).
Proof.
  intros w. destruct (tick_spec w) as (w' & -> & Hs). now apply steps_silent.
Qed.

(** *** Each call *)

Lemma runs_exists_now (ok : event -> bool) name : runs ok (Os.exists_now name).
Proof. intros w. reflexivity. Qed.

Lemma runs_read_now (ok : event -> bool) name : runs ok (Os.read_now name).
Proof. intros w. unfold Os.read_now. destruct (fs w !! name); reflexivity. Qed.

Lemma runs_remove_now (ok : event -> bool) name :
  ok (Removed name) = true -> runs ok (Os.remove_now env name).
Proof.
  intros Hok w. unfold Os.remove_now.
  destruct (fs w !! name); [|reflexivity].
  destruct (remove_refused env (now w) name); [reflexivity|].
  now apply (steps_event ok w (Removed name)).
Qed.

Lemma runs_write_now (ok : event -> bool) name text :
  (forall data, ok (Wrote name data) = true) ->
  runs ok (Os.write_now env name text).
Proof.
  intros Hok w. unfold Os.write_now.
  destruct (write_refused env (now w) name); [reflexivity|].
  destruct (Text.encode_utf8 text) as [data|].
  - apply (steps_event ok w (Wrote name data)), Hok.
  - apply (steps_event ok w (Wrote name [])), Hok.
Qed.

Lemma runs_print (ok : event -> bool) line :
  ok (Printed line) = true -> runs ok (Os.print line).
Proof. intros Hok w. now apply steps_log. Qed.

Lemma runs_sleep_now (ok : event -> bool) seconds :
  ok (Slept seconds) = true -> runs ok (Os.sleep_now seconds).
Proof. intros Hok w. now apply steps_log. Qed.

Lemma runs_popen_now (ok : event -> bool) argv :
  ok (Detached argv) = true -> runs ok (Os.popen_now env argv).
Proof.
  intros Hok w. unfold Os.popen_now.
  destruct (launch_fails env (now w)); [reflexivity|]. now apply steps_log.
Qed.

Lemma runs_run_now (ok : event -> bool) (child : M N) argv :
  ok (ChildStarted argv) = true ->
  (forall rc, ok (ChildExited argv rc) = true) ->
  runs ok child -> runs ok (Os.run_now env child argv).
Proof.
  intros Hs He Hc w. unfold Os.run_now.
  destruct (launch_fails env (now w)); [reflexivity|].
  specialize (Hc (Os.log (ChildStarted argv) w)).
  destruct (child _) as [r w']; cbn in *.
  etrans; [now apply (steps_log ok w (ChildStarted argv))|].
  etrans; [exact Hc|]. now apply steps_log.
Qed.

Lemma runs_os_path_exists (ok : event -> bool) name :
  runs ok (Os.os_path_exists env name).
Proof. apply runs_bind; [apply runs_tick|intros _; apply runs_exists_now]. Qed.

Lemma runs_read_bytes (ok : event -> bool) name :
  runs ok (Os.read_bytes env name).
Proof. apply runs_bind; [apply runs_tick|intros _; apply runs_read_now]. Qed.

Lemma runs_os_remove (ok : event -> bool) name :
  ok (Removed name) = true -> runs ok (Os.os_remove env name).
Proof.
  intros H. apply runs_bind; [apply runs_tick|intros _; now apply runs_remove_now].
Qed.

Lemma runs_write_text (ok : event -> bool) name text :
  (forall data, ok (Wrote name data) = true) ->
  runs ok (Os.write_text env name text).
Proof.
  intros H. apply runs_bind; [apply runs_tick|intros _; now apply runs_write_now].
Qed.

Lemma runs_time_sleep (ok : event -> bool) seconds :
  ok (Slept seconds) = true -> runs ok (Os.time_sleep env seconds).
Proof.
  intros H. apply runs_bind; [apply runs_tick|intros _; now apply runs_sleep_now].
Qed.

Lemma runs_subprocess_Popen (ok : event -> bool) argv :
  ok (Detached argv) = true -> runs ok (Os.subprocess_Popen env argv).
Proof.
  intros H. apply runs_bind; [apply runs_tick|intros _; now apply runs_popen_now].
Qed.

Lemma runs_subprocess_run (ok : event -> bool) (child : M N) argv :
  ok (ChildStarted argv) = true ->
  (forall rc, ok (ChildExited argv rc) = true) ->
  runs ok child -> runs ok (Os.subprocess_run env child argv).
Proof.
  intros. apply runs_bind; [apply runs_tick|intros _; now apply runs_run_now].
Qed.

Lemma runs_cache_now (ok : event -> bool) source :
  (forall data, ok (Wrote "__pycache__" data) = true) ->
  runs ok (Os.cache_now env source).
Proof.
  intros Hok w. unfold Os.cache_now.
  destruct (cache_refused env (now w)); [reflexivity|].
  apply (steps_event ok w (Wrote "__pycache__" (bytecode env source))), Hok.
Qed.

Lemma runs_cache_bytecode (ok : event -> bool) source :
  (forall data, ok (Wrote "__pycache__" data) = true) ->
  runs ok (Os.cache_bytecode env source).
Proof.
  intros H. apply runs_bind; [apply runs_tick|intros _; now apply runs_cache_now].
Qed.

Lemma runs_python (ok : event -> bool) interp script :
  (forall f source, runs ok (interp f source)) ->
  runs ok (Os.python env interp script).
Proof.
  intros Hi w. unfold Os.python.
  pose proof (runs_read_bytes ok script w) as Hr.
  destruct (Os.read_bytes env script w) as [[e|source] w1]; cbn in *; [exact Hr|].
  specialize (Hi script source w1).
  destruct (interp script source w1) as [[e|a] w2]; cbn in *;
    (etrans; [exact Hr|exact Hi]).
Qed.

End CallFacts.

(** ** Cleanup *)

Section Cleanup.
Variable env : Env.

Lemma os_path_exists_spec (name : string) (w : World) :
  exists w1,
    steps silent w w1
    /\ Os.os_path_exists env name w
       = (inr (bool_decide (is_Some (fs w1 !! name))), w1).
Proof. apply (after_tick env (Os.exists_now name)). Qed.

(** The three ways of [os.remove]. *)
Lemma os_remove_spec (name : string) (w : World) :
  exists w1,
    steps silent w w1
    /\ ((fs w1 !! name = None
         /\ Os.os_remove env name w = (inl (FileNotFoundError name), w1))
        \/ (is_Some (fs w1 !! name)
            /\ Os.os_remove env name w = (inl (PermissionError name), w1))
        \/ (is_Some (fs w1 !! name)
            /\ Os.os_remove env name w
               = (inr tt, Os.log (Removed name)
                            (Os.with_fs (delete name (fs w1)) w1)))).
Proof.
  unfold Os.os_remove.
  destruct (after_tick env (Os.remove_now env name) w) as (w1 & Hs & ->).
  exists w1. split; [exact Hs|]. unfold Os.remove_now.
  destruct (fs w1 !! name) as [data|] eqn:E; [|now left].
  right. destruct (remove_refused env (now w1) name); [left|right]; eauto.
Qed.

Lemma clean_one_spec (f_name : string) (w : World) :
  exists w' evs,
    Longa.clean_one env f_name w = (inr tt, w')
    /\ trace w' = trace w ++ evs
    /\ Seen.cleaned f_name evs
    /\ (fs w !! f_name = None -> evs = [Seen.not_found f_name])
    /\ (fs w' !! f_name = None
        \/ (fs w' !! f_name = fs w !! f_name
            /\ exists e, evs = [Seen.cleanup_error f_name e])).
Proof.
  unfold Longa.clean_one.
  destruct (os_path_exists_spec f_name w) as (w1 & Hs1 & Hex).
  rewrite (bind_ok _ _ _ _ _ Hex).
  pose proof (silent_trace _ _ Hs1) as Ht1.
  case_bool_decide as Hfound.
  - destruct (os_remove_spec f_name w1) as (w2 & Hs2 & Hrm).
    pose proof (silent_trace _ _ Hs2) as Ht2.
    assert (fs w !! f_name = None -> False) as Hpresent.
    { intros Hn. apply (silent_absent _ _ _ Hs1) in Hn.
      rewrite Hn in Hfound. now destruct Hfound. }
    destruct Hrm as [[Hgone Hrm]|[[Hthere Hrm]|[Hthere Hrm]]].
    + eexists _, [Seen.cleanup_error f_name (FileNotFoundError f_name)].
      rewrite (try_raised _ _ _ _ _ (bind_raised _ _ _ _ _ Hrm)). cbn.
      split; [reflexivity|]. cbn. rewrite Ht2, Ht1.
      split; [reflexivity|]. split; [now constructor|].
      split; [intros Hn; now destruct (Hpresent Hn)|]. now left.
    + eexists _, [Seen.cleanup_error f_name (PermissionError f_name)].
      rewrite (try_raised _ _ _ _ _ (bind_raised _ _ _ _ _ Hrm)). cbn.
      split; [reflexivity|]. cbn. rewrite Ht2, Ht1.
      split; [reflexivity|]. split; [now constructor|].
      split; [intros Hn; now destruct (Hpresent Hn)|].
      right. split; [|eauto].
      destruct (silent_kept _ _ f_name Hs2) as [Hk|Hk];
        [rewrite Hk in Hthere; now destruct Hthere|].
      destruct (silent_kept _ _ f_name Hs1) as [Hk1|Hk1];
        [rewrite Hk1 in Hfound; now destruct Hfound|].
      now rewrite Hk, Hk1.
    + eexists _, [Removed f_name; Printed ("  Cleaned up: " +:+ f_name)].
      rewrite (try_ok _ _ _ _ _ (bind_ok _ _ _ _ _ Hrm)). cbn.
      split; [reflexivity|]. cbn. rewrite Ht2, Ht1, <- app_assoc.
      split; [reflexivity|]. split; [constructor|].
      split; [intros Hn; now destruct (Hpresent Hn)|].
      left. apply lookup_delete_eq.
  - eexists _, [Seen.not_found f_name]. cbn.
    split; [reflexivity|]. cbn. rewrite Ht1.
    split; [reflexivity|]. split; [constructor|]. split; [reflexivity|].
    left. destruct (fs w1 !! f_name) eqn:E; [|reflexivity].
    destruct Hfound. eauto.
Qed.

Lemma runs_clean_one (f_name : string) :
  f_name ∈ Longa.files_to_clean ->
  runs Seen.cleanup_only (Longa.clean_one env f_name).
Proof.
  intros Hin. unfold Longa.clean_one.
  apply runs_bind; [apply runs_os_path_exists|].
  intros [|]; [|now apply runs_print].
  apply runs_try_except.
  - apply runs_bind; [|intros _; now apply runs_print].
    apply runs_os_remove. cbn. now apply bool_decide_eq_true.
  - apply runs_except_OSError. intros e. now apply runs_print.
Qed.

Lemma cleanup_loop (names : list string) (w0 w : World) :
  names ⊆ Longa.files_to_clean ->
  steps Seen.cleanup_only w0 w ->
  exists w' logs,
    for_each names (Longa.clean_one env) w = (inr tt, w')
    /\ trace w' = trace w ++ concat logs
    /\ Forall2
         (fun f_name evs =>
            Seen.cleaned f_name evs
            /\ (fs w0 !! f_name = None -> evs = [Seen.not_found f_name])
            /\ (fs w' !! f_name = None
                \/ (fs w' !! f_name = fs w0 !! f_name
                    /\ exists e, evs = [Seen.cleanup_error f_name e])))
         names logs
    /\ steps Seen.cleanup_only w w'.
Proof.
  intros Hsub. revert w.
  induction names as [|f_name names IH]; intros w Hw.
  - exists w, []. cbn. rewrite app_nil_r. repeat split; [constructor|reflexivity].
  - destruct (clean_one_spec f_name w) as (w1 & evs & Hrun & Ht & Hc & Habs & Hfs).
    assert (steps Seen.cleanup_only w w1) as Hw1.
    { assert (f_name ∈ Longa.files_to_clean) as Hin by (apply Hsub; left).
      pose proof (runs_clean_one f_name Hin w) as Hr. now rewrite Hrun in Hr. }
    destruct (IH (fun x Hx => Hsub x (list_elem_of_further _ _ _ Hx)) w1)
      as (w' & logs & Hrest & Ht' & Hall & Hw');
      [etrans; eassumption|].
    exists w', (evs :: logs). cbn [for_each concat]. unfold bind.
    rewrite Hrun, Hrest, Ht', Ht, <- app_assoc.
    repeat split; [|etrans; eassumption].
    constructor; [|exact Hall]. split; [exact Hc|].
    assert (forall data, Seen.cleanup_only (Wrote f_name data) = false) as Hnw
      by reflexivity.
    split.
    + intros Hn. apply Habs. now apply (steps_absent Seen.cleanup_only w0 w).
    + destruct (steps_kept _ _ _ f_name Hw' Hnw) as [Hk|Hk]; [now left|].
      rewrite Hk. destruct Hfs as [Hgone|[Hsame Herr]]; [now left|].
      rewrite Hsame.
      destruct (steps_kept _ _ _ f_name Hw Hnw) as [Hk0|Hk0]; [now left|].
      right. now rewrite Hk0.
Qed.

(** *** The outcome of each turn *)

Lemma clean_one_outcome (f_name : string) (w : World) :
  exists w' evs,
    Longa.clean_one env f_name w = (inr tt, w')
    /\ trace w' = trace w ++ evs
    /\ Seen.outcome f_name (fs w !! f_name) (fs w' !! f_name) evs
    /\ forall g, g <> f_name -> g <> "longa1.py" -> fs w' !! g = fs w !! g.
Proof.
  unfold Longa.clean_one.
  destruct (os_path_exists_spec f_name w) as (w1 & Hs1 & Hex).
  rewrite (bind_ok _ _ _ _ _ Hex).
  pose proof (silent_trace _ _ Hs1) as Ht1.
  assert (f_name <> "longa1.py" -> fs w1 !! f_name = fs w !! f_name) as Hsame1
      by (intros Hn; now apply silent_frame).
  assert (fs w !! f_name = None -> fs w1 !! f_name = None) as Habs1
      by apply (silent_absent _ _ _ Hs1).
  case_bool_decide as Hfound.
  - destruct (os_remove_spec f_name w1) as (w2 & Hs2 & Hrm).
    pose proof (silent_trace _ _ Hs2) as Ht2.
    assert (forall g (m : gmap string pybytes),
               m = fs w2 \/ m = delete f_name (fs w2) ->
               g <> f_name -> g <> "longa1.py" -> m !! g = fs w !! g) as Hframe.
    { intros g m Hm Hg Hg1.
      assert (m !! g = fs w2 !! g) as ->
          by (destruct Hm as [-> | ->]; [|rewrite lookup_delete_ne by congruence];
              reflexivity).
      rewrite (silent_frame _ _ g Hs2 Hg1). now apply silent_frame. }
    assert (exists data, fs w !! f_name = Some data) as [data Hdata].
    { destruct (fs w !! f_name) eqn:E; [eauto|].
      rewrite (Habs1 eq_refl) in Hfound. now destruct Hfound. }
    unfold Seen.outcome. rewrite Hdata.
    destruct Hrm as [[Hgone Hrm]|[[Hthere Hrm]|[Hthere Hrm]]].
    + eexists _, [Seen.cleanup_error f_name (FileNotFoundError f_name)].
      rewrite (try_raised _ _ _ _ _ (bind_raised _ _ _ _ _ Hrm)). cbn.
      split; [reflexivity|]. cbn [trace fs Os.log]. rewrite Ht2, Ht1.
      split; [reflexivity|]. split; [|intros g; apply Hframe; now left].
      right. left. exists (FileNotFoundError f_name).
      split; [reflexivity|]. split; [reflexivity|]. right.
      split; [|exact Hgone].
      destruct (decide (f_name = "longa1.py")) as [Heq|Hne]; [exact Heq|].
      rewrite (silent_frame _ _ f_name Hs2 Hne) in Hgone.
      rewrite Hgone in Hfound. now destruct Hfound.
    + eexists _, [Seen.cleanup_error f_name (PermissionError f_name)].
      rewrite (try_raised _ _ _ _ _ (bind_raised _ _ _ _ _ Hrm)). cbn.
      split; [reflexivity|]. cbn [trace fs Os.log]. rewrite Ht2, Ht1.
      split; [reflexivity|]. split; [|intros g; apply Hframe; now left].
      right. left. exists (PermissionError f_name).
      split; [reflexivity|]. split; [reflexivity|]. left.
      destruct (silent_kept _ _ f_name Hs2) as [Hk|Hk];
        [rewrite Hk in Hthere; now destruct Hthere|].
      destruct (silent_kept _ _ f_name Hs1) as [Hk1|Hk1];
        [rewrite Hk1 in Hfound; now destruct Hfound|].
      now rewrite Hk, Hk1.
    + eexists _, [Removed f_name; Printed ("  Cleaned up: " +:+ f_name)].
      rewrite (try_ok _ _ _ _ _ (bind_ok _ _ _ _ _ Hrm)). cbn.
      split; [reflexivity|]. cbn [trace fs Os.log Os.with_fs].
      rewrite Ht2, Ht1, <- app_assoc.
      split; [reflexivity|]. split; [|intros g; apply Hframe; now right].
      left. split; [reflexivity|]. apply lookup_delete_eq.
  - assert (fs w1 !! f_name = None) as Hgone.
    { destruct (fs w1 !! f_name) eqn:E; [|reflexivity]. destruct Hfound. eauto. }
    eexists _, [Seen.not_found f_name]. cbn.
    split; [reflexivity|]. cbn [trace fs Os.log]. rewrite Ht1.
    split; [reflexivity|].
    split; [|intros g _ Hg1; now apply silent_frame].
    unfold Seen.outcome. destruct (fs w !! f_name) as [data|] eqn:E; [|auto].
    right. right. split; [|auto].
    destruct (decide (f_name = "longa1.py")) as [Heq|Hne]; [exact Heq|].
    rewrite (Hsame1 Hne) in Hgone. discriminate.
Qed.

(** The successor's file under a watcher that may delete it before the
    turn and after. *)
Lemma outcome_watched (before0 before after1 after : option pybytes)
    (evs : list event) :
  Seen.outcome "longa1.py" before after1 evs ->
  before = None \/ before = before0 ->
  after = None \/ after = after1 ->
  Seen.outcome "longa1.py" before0 after evs.
Proof.
  unfold Seen.outcome. intros Hout Hb Ha.
  destruct before0 as [d0|].
  - destruct before as [d|].
    + destruct Hb as [Hb|Hb]; [discriminate|]. injection Hb as ->.
      destruct Hout as [[-> H1]|[(e & He & -> & H1)|(_ & -> & H1)]].
      * left. split; [reflexivity|]. destruct Ha; congruence.
      * right. left. exists e. split; [exact He|]. split; [reflexivity|].
        destruct Ha as [-> | ->]; [now right|].
        destruct H1 as [H1|[_ H1]]; [now left|now right].
      * right. right. split; [reflexivity|]. split; [reflexivity|].
        destruct Ha; congruence.
    + destruct Hout as [-> H1]. right. right.
      split; [reflexivity|]. split; [reflexivity|]. destruct Ha; congruence.
  - destruct before as [d|]; [destruct Hb; discriminate|].
    destruct Hout as [-> H1]. split; [reflexivity|]. destruct Ha; congruence.
Qed.

Lemma cleanup_loop_outcome (names : list string) (w0 w : World) :
  names ⊆ Longa.files_to_clean ->
  NoDup names ->
  steps Seen.cleanup_only w0 w ->
  (forall f_name,
      f_name ∈ names -> f_name <> "longa1.py" -> fs w !! f_name = fs w0 !! f_name) ->
  exists w' logs,
    for_each names (Longa.clean_one env) w = (inr tt, w')
    /\ trace w' = trace w ++ concat logs
    /\ Forall2
         (fun f_name evs =>
            Seen.outcome f_name (fs w0 !! f_name) (fs w' !! f_name) evs)
         names logs
    /\ steps Seen.cleanup_only w w'
    /\ forall g, g ∉ names -> g <> "longa1.py" -> fs w' !! g = fs w !! g.
Proof.
  intros Hsub Hnd. revert w.
  induction names as [|f_name names IH]; intros w Hw Hinv.
  - exists w, []. cbn. rewrite app_nil_r.
    repeat split; [constructor|reflexivity].
  - apply NoDup_cons in Hnd as [Hnotin Hnd].
    destruct (clean_one_outcome f_name w) as (w1 & evs & Hrun & Ht & Hout & Hframe).
    assert (steps Seen.cleanup_only w w1) as Hw1.
    { assert (f_name ∈ Longa.files_to_clean) as Hin by (apply Hsub; left).
      pose proof (runs_clean_one f_name Hin w) as Hr. now rewrite Hrun in Hr. }
    destruct (IH (fun x Hx => Hsub x (list_elem_of_further _ _ _ Hx)) Hnd w1)
      as (w' & logs & Hrest & Ht' & Hall & Hw' & Hframe');
      [etrans; eassumption| |].
    { intros g Hg Hg1. rewrite Hframe; [|intros ->; contradiction|exact Hg1].
      apply Hinv; [now apply list_elem_of_further|exact Hg1]. }
    exists w', (evs :: logs). cbn [for_each concat]. unfold bind.
    rewrite Hrun, Hrest, Ht', Ht, <- app_assoc.
    split; [reflexivity|]. split; [reflexivity|].
    assert (forall data, Seen.cleanup_only (Wrote "longa1.py" data) = false) as Hnw
      by reflexivity.
    split; [constructor; [|exact Hall]|split; [etrans; eassumption|]].
    + destruct (decide (f_name = "longa1.py")) as [-> | Hne].
      * apply (outcome_watched _ _ _ _ _ Hout).
        -- apply (steps_kept _ _ _ "longa1.py" Hw Hnw).
        -- apply (steps_kept _ _ _ "longa1.py" Hw' Hnw).
      * rewrite (Hframe' f_name Hnotin Hne).
        rewrite <- (Hinv f_name) by (try left; assumption). exact Hout.
    + intros g Hg Hg1. apply not_elem_of_cons in Hg as [Hgf Hg].
      rewrite (Hframe' g Hg Hg1). now apply Hframe.
Qed.

End Cleanup.


(** ** Up to the branch decision *)

Section Prepare.
Variable env : Env.

Lemma bind_inv_ok {A B} (m : M A) (k : A -> M B) (w w' : World) (b : B) :
  (m ≫= k) w = (inr b, w') ->
  exists a w1, m w = (inr a, w1) /\ k a w1 = (inr b, w').
Proof.
  rewrite bind_run. destruct (m w) as [[e|a] w1]; [discriminate|]. eauto.
Qed.

Lemma read_bytes_spec (name : string) (w : World) :
  exists w1,
    steps silent w w1
    /\ ((fs w1 !! name = None
         /\ Os.read_bytes env name w = (inl (FileNotFoundError name), w1))
        \/ exists raw,
            fs w1 !! name = Some raw
            /\ Os.read_bytes env name w = (inr raw, w1)).
Proof.
  unfold Os.read_bytes.
  destruct (after_tick env (Os.read_now name) w) as (w1 & Hs & ->).
  exists w1. split; [exact Hs|]. unfold Os.read_now.
  destruct (fs w1 !! name) as [raw|]; [right|left]; eauto.
Qed.

Lemma write_text_spec (name : string) (text : pystr) (w : World) :
  Forall Text.is_ascii text ->
  exists w1,
    steps silent w w1
    /\ (Os.write_text env name text w = (inl (PermissionError name), w1)
        \/ Os.write_text env name text w
           = (inr tt, Os.log (Wrote name (map Text.chr8 text))
                        (Os.with_fs (<[name := map Text.chr8 text]> (fs w1)) w1))).
Proof.
  intros Ha. unfold Os.write_text.
  destruct (after_tick env (Os.write_now env name text) w) as (w1 & Hs & ->).
  exists w1. split; [exact Hs|]. unfold Os.write_now.
  destruct (write_refused env (now w1) name); [now left|].
  rewrite encode_utf8_ascii by exact Ha. now right.
Qed.

Lemma time_sleep_spec (seconds : nat) (w : World) :
  exists w1,
    steps silent w w1
    /\ Os.time_sleep env seconds w = (inr tt, Os.log (Slept seconds) w1).
Proof. apply (after_tick env (Os.sleep_now seconds)). Qed.

Lemma get_clean_ascii_code_spec (filepath : string) (w : World) :
  exists w1,
    steps silent w w1
    /\ ((fs w1 !! filepath = None
         /\ Longa.get_clean_ascii_code env filepath w
            = (inl (FileNotFoundError filepath), w1))
        \/ exists raw code,
            fs w1 !! filepath = Some raw
            /\ Capture.clean_ascii_code raw = Some code
            /\ Forall Text.is_ascii code
            /\ Longa.get_clean_ascii_code env filepath w = (inr code, w1)).
Proof.
  unfold Longa.get_clean_ascii_code.
  destruct (read_bytes_spec filepath w) as (w1 & Hs & [[Hn Hr]|(raw & Hraw & Hr)]);
    exists w1; (split; [exact Hs|]).
  - left. split; [exact Hn|]. now rewrite (bind_raised _ _ _ _ _ Hr).
  - right. exists raw, (Text.charrefs (Text.decode_latin1 raw)).
    rewrite (bind_ok _ _ _ _ _ Hr), clean_ascii_code_charrefs.
    repeat split; [exact Hraw|apply charrefs_ascii].
Qed.

Lemma in_logs {A} (P : string -> list A -> Prop) names logs f_name :
  Forall2 P names logs -> f_name ∈ names ->
  exists evs, P f_name evs /\ forall x, x ∈ evs -> x ∈ concat logs.
Proof.
  induction 1 as [|n evs names logs Hp _ IH]; intros Hin.
  - now apply elem_of_nil in Hin.
  - apply elem_of_cons in Hin as [->|Hin].
    + exists evs. split; [exact Hp|]. intros x Hx. cbn.
      apply elem_of_app. now left.
    + destruct (IH Hin) as (evs' & Hp' & Hsub). exists evs'.
      split; [exact Hp'|]. intros x Hx. cbn. apply elem_of_app. right. auto.
Qed.

(** The cleanup as a whole: it returns, and each of its names is then
    absent, or left as found with the error logged. *)
Lemma cleanup_spec (w : World) :
  exists w',
    Longa.clean_previous_run_artifacts env w = (inr tt, w')
    /\ steps Seen.cleanup_only w w'
    /\ forall f_name,
         f_name ∈ Longa.files_to_clean ->
         fs w' !! f_name = None
         \/ (fs w' !! f_name = fs w !! f_name
             /\ exists e, Seen.cleanup_error f_name e ∈ trace w').
Proof.
  unfold Longa.clean_previous_run_artifacts.
  rewrite bind_run. cbn [Os.print].
  set (w0 := Os.log _ w).
  destruct (cleanup_loop env Longa.files_to_clean w0 w0)
    as (w1 & logs & Hrun & Ht & Hall & Hs); [reflexivity..|].
  rewrite bind_run, Hrun. cbn [Os.print].
  eexists. split; [reflexivity|]. split.
  - etrans; [|etrans; [exact Hs|now apply steps_log]].
    subst w0. now apply steps_log.
  - intros f_name Hin.
    destruct (in_logs _ _ _ _ Hall Hin) as (evs & (_ & _ & Hfs) & Hsub).
    cbn [fs trace Os.log]. destruct Hfs as [Hgone|[Hsame [e He]]]; [now left|].
    right. split; [exact Hsame|]. exists e.
    rewrite Ht. apply elem_of_app. left. apply elem_of_app. right.
    apply Hsub. rewrite He. apply list_elem_of_singleton. reflexivity.
Qed.

Lemma runs_clean_previous_run_artifacts :
  runs Seen.cleanup_only (Longa.clean_previous_run_artifacts env).
Proof.
  intros w. destruct (cleanup_spec w) as (w' & -> & Hs & _). exact Hs.
Qed.

Lemma steps_prefix (ok : event -> bool) (w w' : World) (e : event) :
  steps ok w w' -> e ∈ trace w -> e ∈ trace w'.
Proof.
  intros Hs He. apply steps_trace in Hs as (evs & -> & _).
  apply elem_of_app. now left.
Qed.

(** Lines 55-87, when they return: the source captured is that of the
    orchestrator's file, which is untouched; the successor's file holds
    the successor built around it. *)
Lemma write_successor_spec (w w' : World) (code : pystr) :
  Longa.write_successor env w = (inr code, w') ->
  exists raw,
    fs w !! "longa.py" = Some raw
    /\ Capture.clean_ascii_code raw = Some code
    /\ Forall Text.is_ascii code
    /\ fs w' !! "longa.py" = Some raw
    /\ fs w' !! "longa1.py" = Some (map Text.chr8 (Agents.longa1_code code))
    /\ steps Seen.preparing w w'
    /\ forall f_name,
         f_name ∈ ["longa2.py"; "longamax.py"; "loadedmax.py"] ->
         fs w' !! f_name = None
         \/ (fs w' !! f_name = fs w !! f_name
             /\ exists e, Seen.cleanup_error f_name e ∈ trace w').
Proof.
  unfold Longa.write_successor. intros Hrun.
  destruct (cleanup_spec w) as (wc & Hc & Hsc & Hnames).
  rewrite (bind_ok _ _ _ _ _ Hc) in Hrun.
  destruct (time_sleep_spec 1 wc) as (w1 & Hs1 & Hsl).
  rewrite (bind_ok _ _ _ _ _ Hsl) in Hrun.
  set (w2 := Os.log (Slept 1) w1) in *.
  destruct (get_clean_ascii_code_spec Longa.__file__ w2)
    as (w3 & Hs3 & [[_ Hg]|(raw & code' & Hraw & Hcap & Hascii & Hg)]).
  { rewrite (bind_raised _ _ _ _ _ Hg) in Hrun. discriminate. }
  rewrite (bind_ok _ _ _ _ _ Hg) in Hrun.
  destruct (write_text_spec "longa1.py" (Agents.longa1_code code') w3)
    as (w4 & Hs4 & [Hw|Hw]); [now apply longa1_code_ascii| |].
  { rewrite (bind_raised _ _ _ _ _ Hw) in Hrun. discriminate. }
  rewrite (bind_ok _ _ _ _ _ Hw) in Hrun. cbn in Hrun.
  injection Hrun as <- <-.
  set (w5 := Os.log (Wrote "longa1.py" _) _).
  set (w6 := Os.log (Printed "Step 1 complete: longa1.py created.") w5).
  assert (steps Seen.writing_successor wc w3) as Hp3.
  { etrans; [apply steps_silent, Hs1|].
    etrans; [|apply steps_silent, Hs3]. now apply steps_log. }
  assert (steps Seen.writing_successor w3 w6) as Hp6.
  { etrans; [apply steps_silent, Hs4|].
    etrans; [|now apply (steps_log _ w5 (Printed _))].
    now apply (steps_event _ w4 (Wrote "longa1.py" _)). }
  assert (steps Seen.preparing w wc) as Hp0.
  { eapply steps_mono; [|exact Hsc]. now intros [ | | | | | | ]. }
  assert (steps Seen.preparing wc w6) as Hrest.
  { eapply steps_mono; [|etrans; [exact Hp3|exact Hp6]].
    now intros [ | | | | | | ]. }
  assert (fs w3 !! "longa.py" = fs w !! "longa.py") as Hsame.
  { apply (steps_frame Seen.preparing); [|discriminate|reflexivity..].
    etrans; [exact Hp0|]. eapply steps_mono; [|exact Hp3].
    now intros [ | | | | | | ]. }
  exists raw. split; [now rewrite <- Hsame|]. split; [exact Hcap|].
  split; [exact Hascii|]. split.
  { rewrite (steps_frame _ _ _ "longa.py" Hp6); [exact Hraw|discriminate|..];
      reflexivity. }
  split; [cbn [fs Os.log Os.with_fs]; apply lookup_insert_eq|].
  split; [etrans; [exact Hp0|exact Hrest]|].
  intros f_name Hin.
  assert (f_name ∈ Longa.files_to_clean) as Hin'.
  { unfold Longa.files_to_clean. now apply list_elem_of_further. }
  assert (f_name <> "longa1.py") as Hne.
  { intros ->. repeat (apply elem_of_cons in Hin as [Hin|Hin]; [discriminate|]).
    now apply elem_of_nil in Hin. }
  assert (fs w6 !! f_name = fs wc !! f_name) as Hkeep.
  { apply (steps_frame Seen.writing_successor);
      [etrans; [exact Hp3|exact Hp6]|exact Hne| |reflexivity].
    intros data. cbn. now apply String.eqb_neq. }
  rewrite Hkeep.
  destruct (Hnames f_name Hin') as [Hgone|[Hk [e He]]]; [now left|].
  right. split; [exact Hk|]. exists e. eapply steps_prefix; [exact Hrest|exact He].
Qed.

End Prepare.

(** ** The load of the successor *)

Section Load.
Variable env : Env.

Lemma interp_longa1_code (__file__ : string) (code : pystr) :
  Forall Text.is_ascii code ->
  Generated.interp env __file__ (map Text.chr8 (Agents.longa1_code code))
  = Generated.longa1_main env __file__ code.
Proof.
  intros Hc. unfold Generated.interp.
  rewrite decode_ascii_chr8 by now apply longa1_code_ascii.
  now rewrite recognise_longa1_code.
Qed.

Lemma interp_longamax_code_content (__file__ : string) (code : pystr) :
  Forall Text.is_ascii code ->
  Generated.interp env __file__ (map Text.chr8 (Agents.longamax_code_content code))
  = Generated.longamax_main env __file__ code.
Proof.
  intros Hc. unfold Generated.interp.
  rewrite decode_ascii_chr8 by now apply longamax_code_content_ascii.
  now rewrite recognise_longamax_code_content.
Qed.

Lemma interp_loadedmax_code_content (__file__ : string) :
  Generated.interp env __file__ (map Text.chr8 Agents.loadedmax_code_content)
  = Generated.loadedmax_main env __file__.
Proof.
  unfold Generated.interp.
  rewrite decode_ascii_chr8 by apply loadedmax_code_content_ascii.
  now rewrite recognise_loadedmax_code_content.
Qed.

(** The [try] block by which a script deletes its own file. *)
Lemma self_delete_spec (name done : string) (h : exn -> M unit)
    (stuck : exn -> list event) (w : World) :
  (forall e w0, exists w1,
      h e w0 = (inr tt, w1) /\ trace w1 = trace w0 ++ stuck e /\ fs w1 = fs w0) ->
  exists w' evs,
    try_except (Os.os_remove env name;; Os.print done) (except_OSError h) w
    = (inr tt, w')
    /\ trace w' = trace w ++ evs
    /\ ((evs = [Removed name; Printed done] /\ fs w' !! name = None)
        \/ (exists e,
              is_OSError e = true /\ evs = stuck e
              /\ (fs w' !! name = None \/ fs w' !! name = fs w !! name)
              /\ (name <> "longa1.py" -> fs w' !! name = fs w !! name)))
    /\ (forall f, f <> name -> f <> "longa1.py" -> fs w' !! f = fs w !! f).
Proof.
  intros Hh.
  destruct (os_remove_spec env name w) as (w1 & Hs & Hrm).
  pose proof (silent_trace _ _ Hs) as Ht.
  assert (forall f, f <> "longa1.py" -> fs w1 !! f = fs w !! f) as Hframe
    by (intros f Hf; now apply silent_frame).
  assert (forall e,
             is_OSError e = true ->
             Os.os_remove env name w = (inl e, w1) ->
             exists w' evs,
               try_except (Os.os_remove env name;; Os.print done)
                 (except_OSError h) w = (inr tt, w')
               /\ trace w' = trace w ++ evs
               /\ ((evs = [Removed name; Printed done] /\ fs w' !! name = None)
                   \/ (exists e,
                         is_OSError e = true /\ evs = stuck e
                         /\ (fs w' !! name = None
                             \/ fs w' !! name = fs w !! name)
                         /\ (name <> "longa1.py" ->
                             fs w' !! name = fs w !! name)))
               /\ (forall f, f <> name -> f <> "longa1.py" ->
                   fs w' !! f = fs w !! f)) as Hraised.
  { intros e He Hr. destruct (Hh e w1) as (w2 & Hrun & Ht2 & Hfs2).
    exists w2, (stuck e).
    rewrite (try_raised _ _ _ _ _ (bind_raised _ _ _ _ _ Hr)).
    unfold except_OSError. rewrite He, Hrun, Ht2, Ht, Hfs2.
    split; [reflexivity|]. split; [reflexivity|]. split.
    - right. exists e. split; [exact He|]. split; [reflexivity|]. split.
      + apply (silent_kept _ _ name Hs).
      + apply Hframe.
    - intros f _ Hf. now apply Hframe. }
  destruct Hrm as [[_ Hr]|[[_ Hr]|[_ Hr]]];
    [now apply (Hraised (FileNotFoundError name))
    |now apply (Hraised (PermissionError name))|].
  eexists _, [Removed name; Printed done].
  rewrite (try_ok _ _ _ _ _ (bind_ok _ _ _ _ _ Hr)). cbn.
  split; [reflexivity|]. cbn. rewrite Ht, <- app_assoc.
  split; [reflexivity|]. split.
  - left. split; [reflexivity|]. apply lookup_delete_eq.
  - intros f Hf Hf1. rewrite lookup_delete_ne by congruence. now apply Hframe.
Qed.

(** The successor, run on the source it embeds. *)
Lemma longa1_main_spec (code : pystr) (w : World) :
  Forall Text.is_ascii code ->
  exists w',
    (Generated.longa1_main env "longa1.py" code w
     = (inl (PermissionError "longa.py"), w')
     /\ steps silent w w')
    \/ (Generated.longa1_main env "longa1.py" code w = (inr tt, w')
        /\ (exists evs,
              trace w' = trace w ++ Wrote "longa.py" (map Text.chr8 code) :: evs
              /\ ((evs = [Removed "longa1.py"; Printed Seen.successor_done]
                   /\ fs w' !! "longa1.py" = None)
                  \/ exists e, is_OSError e = true /\ evs = Seen.successor_stuck e))
        /\ fs w' !! "longa.py" = Some (map Text.chr8 code)
        /\ forall f, f <> "longa.py" -> f <> "longa1.py" ->
                     fs w' !! f = fs w !! f).
Proof.
  intros Hc. unfold Generated.longa1_main.
  destruct (write_text_spec env "longa.py" code w Hc) as (w1 & Hs & [Hw|Hw]).
  { exists w1. left. split; [|exact Hs]. now rewrite (bind_raised _ _ _ _ _ Hw). }
  set (w2 := Os.log _ _) in Hw.
  destruct (self_delete_spec "longa1.py" Seen.successor_done
              (fun e => Os.print
                 ("Error during self-destruction of longa1.py (longa1.py): "
                  +:+ str e))
              Seen.successor_stuck w2) as (w3 & evs & Hrun & Ht & Hevs & Hframe).
  { intros e w0. eexists. split; [reflexivity|]. split; reflexivity. }
  exists w3. right. split.
  { rewrite (bind_ok _ _ _ _ _ Hw). exact Hrun. }
  split.
  { exists evs. split.
    - rewrite Ht. subst w2. cbn [trace Os.log Os.with_fs].
      rewrite (silent_trace _ _ Hs), <- app_assoc. reflexivity.
    - destruct Hevs as [[-> Hgone]|(e & He & -> & _)]; [left|right]; eauto. }
  split.
  { rewrite Hframe by discriminate. subst w2. cbn [fs Os.log Os.with_fs].
    apply lookup_insert_eq. }
  intros f Hf Hf1. rewrite Hframe by assumption.
  subst w2. cbn [fs Os.log Os.with_fs].
  rewrite lookup_insert_ne by congruence. now apply silent_frame.
Qed.

(** The loader's cache: written after the module has compiled, unless
    the write cannot be done, and before the module's body runs. *)
Lemma cache_step_spec (source : pybytes) (w : World) :
  exists w' cache,
    (if Generated.compiles source then Os.cache_bytecode env source else mret tt) w
    = (inr tt, w')
    /\ Seen.cached env cache
    /\ trace w' = trace w ++ cache
    /\ (fs w' !! "longa1.py" = None \/ fs w' !! "longa1.py" = fs w !! "longa1.py")
    /\ (forall f, f <> "longa1.py" -> f <> "__pycache__" -> fs w' !! f = fs w !! f).
Proof.
  destruct (Generated.compiles source).
  2:{ exists w, []. rewrite app_nil_r. repeat split; [now left|now right]. }
  unfold Os.cache_bytecode.
  destruct (tick_spec env w) as (w1 & Htick & Hs).
  rewrite (bind_ok _ _ _ _ _ Htick). unfold Os.cache_now.
  destruct (cache_refused env (now w1)).
  - exists w1, []. rewrite app_nil_r. split; [reflexivity|]. split; [now left|].
    split; [apply (silent_trace _ _ Hs)|].
    split; [apply (silent_kept _ _ _ Hs)|].
    intros f Hf _. now apply silent_frame.
  - eexists _, [Wrote "__pycache__" (bytecode env source)].
    split; [reflexivity|]. split; [right; now exists source|].
    cbn [trace fs Os.log Os.with_fs]. split; [now rewrite (silent_trace _ _ Hs)|].
    split.
    + rewrite lookup_insert_ne by discriminate. apply (silent_kept _ _ _ Hs).
    + intros f Hf Hc. rewrite lookup_insert_ne by congruence.
      now apply silent_frame.
Qed.

Lemma compiles_longa1_code (code : pystr) :
  Forall Text.is_ascii code ->
  Generated.compiles (map Text.chr8 (Agents.longa1_code code)) = true.
Proof.
  intros Hc. unfold Generated.compiles.
  rewrite decode_ascii_chr8 by now apply longa1_code_ascii.
  rewrite recognise_longa1_code by exact Hc. apply bool_decide_eq_true. eauto.
Qed.

(** Lines 91-105 on the successor that was just written. *)
Lemma import_longa1_spec (code : pystr) (w : World) :
  Forall Text.is_ascii code ->
  fs w !! "longa1.py" = Some (map Text.chr8 (Agents.longa1_code code)) ->
  exists w',
    (Longa.import_longa1 env w = (inr false, w')
     /\ (exists cache line,
           Seen.cached env cache
           /\ trace w' = trace w ++ [Slept 1] ++ cache ++ [Printed line])
     /\ forall f, f <> "longa1.py" -> f <> "__pycache__" -> fs w' !! f = fs w !! f)
    \/ (Longa.import_longa1 env w = (inr true, w')
        /\ (exists cache evs,
              Seen.cached env cache
              /\ trace w'
                 = trace w ++ [Slept 1] ++ cache
                   ++ [Wrote "longa.py" (map Text.chr8 code)]
                   ++ evs
                   ++ [Printed "Step 2 complete: longa1.py imported successfully."]
              /\ ((evs = [Removed "longa1.py"; Printed Seen.successor_done]
                   /\ fs w' !! "longa1.py" = None)
                  \/ exists e, is_OSError e = true /\ evs = Seen.successor_stuck e))
        /\ fs w' !! "longa.py" = Some (map Text.chr8 code)
        /\ forall f, f <> "longa.py" -> f <> "longa1.py" -> f <> "__pycache__" ->
                     fs w' !! f = fs w !! f).
Proof.
  intros Hc Hfile. unfold Longa.import_longa1.
  destruct (time_sleep_spec env 1 w) as (w1 & Hs1 & Hsl).
  rewrite (bind_ok _ _ _ _ _ Hsl). set (wa := Os.log (Slept 1) w1).
  destruct (os_path_exists_spec env "longa1.py" wa) as (w2 & Hs2 & Hex).
  rewrite (bind_ok _ _ _ _ _ Hex).
  assert (trace w2 = trace w ++ [Slept 1]) as Ht2.
  { rewrite (silent_trace _ _ Hs2). subst wa. cbn [trace Os.log].
    now rewrite (silent_trace _ _ Hs1). }
  assert (forall f, f <> "longa1.py" -> fs w2 !! f = fs w !! f) as Hf2.
  { intros f Hf. rewrite (silent_frame _ _ f Hs2 Hf). subst wa.
    cbn [fs Os.log]. now apply silent_frame. }
  (* a failed load: one more line, nothing else *)
  assert (forall line w3,
             steps silent w2 w3 ->
             trace (Os.log (Printed line) w3)
             = trace w ++ [Slept 1] ++ [] ++ [Printed line]
             /\ forall f, f <> "longa1.py" ->
                 fs (Os.log (Printed line) w3) !! f = fs w !! f) as Hfailed.
  { intros line w3 Hs3. cbn [trace fs Os.log]. split.
    - rewrite (silent_trace _ _ Hs3), Ht2, <- app_assoc. reflexivity.
    - intros f Hf. rewrite (silent_frame _ _ f Hs3 Hf). now apply Hf2. }
  case_bool_decide as Hfound.
  2:{ eexists. left. cbn. split; [reflexivity|].
      destruct (Hfailed "Step 2: longa1.py not found." w2) as [Ht Hf];
        [reflexivity|].
      split; [eexists [], _; split; [now left|exact Ht]|]. intros f H1 _. now apply Hf. }
  unfold Longa.exec_module.
  destruct (read_bytes_spec env "longa1.py" w2) as (w3 & Hs3 & [[_ Hr]|(raw & Hraw & Hr)]).
  { eexists. left.
    rewrite (try_raised _ _ _ _ _ (bind_raised _ _ _ _ _ (bind_raised _ _ _ _ _ Hr))).
    cbn. split; [reflexivity|].
    destruct (Hfailed ("Step 2: Failed to import longa1.py: "
                       +:+ str (FileNotFoundError "longa1.py")) w3 Hs3) as [Ht Hf].
    split; [eexists [], _; split; [now left|exact Ht]|]. intros f H1 _. now apply Hf. }
  assert (raw = map Text.chr8 (Agents.longa1_code code)) as ->.
  { destruct (silent_kept _ _ "longa1.py" Hs3) as [Hk|Hk]; [congruence|].
    destruct (silent_kept _ _ "longa1.py" Hs2) as [Hk2|Hk2];
      [rewrite Hk2 in Hfound; now destruct Hfound|].
    destruct (silent_kept _ _ "longa1.py" Hs1) as [Hk1|Hk1].
    - subst wa. cbn [fs Os.log] in Hk2. rewrite Hk1 in Hk2.
      rewrite Hk2 in Hfound. now destruct Hfound.
    - subst wa. cbn [fs Os.log] in Hk2. congruence. }
  destruct (cache_step_spec (map Text.chr8 (Agents.longa1_code code)) w3)
    as (wc & cache & Hcache & Hcached & Htc & _ & Hfc).
  assert (forall f, f <> "longa1.py" -> f <> "__pycache__" -> fs wc !! f = fs w !! f)
    as Hfc'.
  { intros f Hf Hp. rewrite (Hfc f Hf Hp), (silent_frame _ _ f Hs3 Hf).
    now apply Hf2. }
  assert (trace wc = trace w ++ [Slept 1] ++ cache) as Htc'.
  { now rewrite Htc, (silent_trace _ _ Hs3), Ht2, <- app_assoc. }
  destruct (longa1_main_spec code wc Hc)
    as (w4 & [[Hm Hs4]|(Hm & (evs & Ht4 & Hevs) & Hlonga & Hf4)]).
  - exists (Os.log (Printed ("Step 2: Failed to import longa1.py: "
                             +:+ str (PermissionError "longa.py"))) w4). left.
    assert (Longa.exec_module env "longa1.py" w2
            = (inl (PermissionError "longa.py"), w4)) as Hexec.
    { unfold Longa.exec_module. rewrite (bind_ok _ _ _ _ _ Hr).
      rewrite (bind_ok _ _ _ _ _ Hcache), interp_longa1_code by exact Hc. exact Hm. }
    unfold Longa.exec_module in Hexec.
    rewrite (try_raised _ _ _ _ _ (bind_raised _ _ _ _ _ Hexec)).
    cbn. split; [reflexivity|]. split.
    + eexists cache, _. split; [exact Hcached|].
      rewrite (silent_trace _ _ Hs4), Htc', <- !app_assoc. reflexivity.
    + intros f Hf Hp. rewrite (silent_frame _ _ f Hs4 Hf). now apply Hfc'.
  - eexists. right.
    assert (Longa.exec_module env "longa1.py" w2 = (inr tt, w4)) as Hexec.
    { unfold Longa.exec_module. rewrite (bind_ok _ _ _ _ _ Hr).
      rewrite (bind_ok _ _ _ _ _ Hcache), interp_longa1_code by exact Hc. exact Hm. }
    unfold Longa.exec_module in Hexec.
    rewrite (try_ok _ _ w2
               (Os.log (Printed "Step 2 complete: longa1.py imported successfully.") w4)
               true)
      by (rewrite (bind_ok _ _ _ _ _ Hexec); reflexivity).
    split; [reflexivity|]. cbn [trace fs Os.log]. split.
    + exists cache, evs. split; [exact Hcached|]. split.
      * rewrite Ht4, Htc', <- !app_assoc. reflexivity.
      * exact Hevs.
    + split; [exact Hlonga|].
      intros f Hf Hf1 Hp. rewrite Hf4 by assumption. now apply Hfc'.
Qed.

End Load.

(** ** The branch decision and the success path *)

Section Success.
Variable env : Env.

Lemma self_destruct_spec (done after : string) (w : World) :
  exists w' closing,
    Longa.self_destruct env done after w = (inr tt, w')
    /\ trace w' = trace w ++ closing
    /\ ((closing = [Removed "longa.py"; Printed (Seen.orchestrator_done env done)]
         /\ fs w' !! "longa.py" = None)
        \/ (exists e,
              is_OSError e = true /\ closing = Seen.orchestrator_stuck after e
              /\ fs w' !! "longa.py" = fs w !! "longa.py"))
    /\ (forall f, f <> "longa.py" -> f <> "longa1.py" -> fs w' !! f = fs w !! f).
Proof.
  unfold Longa.self_destruct.
  destruct (self_delete_spec env "longa.py" (Seen.orchestrator_done env done)
              (fun e =>
                 Os.print ("Error during self-destruction of longa.py (" +:+ after
                           +:+ "): " +:+ str e);;
                 Os.print ("longa.py (" +:+ Longa.__file__
                           +:+ ") could not be removed automatically."))
              (Seen.orchestrator_stuck after) w)
    as (w' & closing & Hrun & Ht & Hcl & Hf).
  { intros e w0. eexists. split; [reflexivity|]. cbn [trace fs Os.log].
    rewrite <- app_assoc. split; reflexivity. }
  exists w', closing. split; [exact Hrun|]. split; [exact Ht|]. split; [|exact Hf].
  destruct Hcl as [Hcl|(e & He & Hc & _ & Hk)]; [now left|].
  right. exists e. split; [exact He|]. split; [exact Hc|]. now apply Hk.
Qed.

Lemma closing_seen (done after : string) (w' w : World) (closing : list event) :
  ((closing = [Removed "longa.py"; Printed (Seen.orchestrator_done env done)]
    /\ fs w' !! "longa.py" = None)
   \/ (exists e,
         is_OSError e = true /\ closing = Seen.orchestrator_stuck after e
         /\ fs w' !! "longa.py" = fs w !! "longa.py")) ->
  Seen.deleted_itself "longa.py" (Seen.orchestrator_done env done)
    (Seen.orchestrator_stuck after) closing.
Proof. intros [[-> _]|(e & He & -> & _)]; now constructor. Qed.

(** Lines 110-126. *)
Lemma success_path_spec (w : World) :
  exists w',
    (Longa.success_path env w = (inl (PermissionError "longa2.py"), w')
     /\ steps silent w w')
    \/ (Longa.success_path env w = (inr tt, w')
        /\ (exists closing,
              trace w'
              = trace w
                ++ [Wrote "longa2.py" (map Text.chr8 Agents.longa2_content);
                    Printed "Step 3 complete: longa2.py created."]
                ++ closing
              /\ ((closing
                   = [Removed "longa.py";
                      Printed (Seen.orchestrator_done env
                                 "longa.py has self-destructed (after longa1 imported) from: ")]
                   /\ fs w' !! "longa.py" = None)
                  \/ (exists e,
                        is_OSError e = true
                        /\ closing = Seen.orchestrator_stuck "after longa1 imported" e
                        /\ fs w' !! "longa.py" = fs w !! "longa.py")))
        /\ fs w' !! "longa2.py" = Some (map Text.chr8 Agents.longa2_content)
        /\ forall f, f <> "longa.py" -> f <> "longa1.py" -> f <> "longa2.py" ->
                     fs w' !! f = fs w !! f).
Proof.
  unfold Longa.success_path.
  destruct (write_text_spec env "longa2.py" Agents.longa2_content w
              longa2_content_ascii) as (w1 & Hs & [Hw|Hw]).
  { exists w1. left. split; [|exact Hs]. now rewrite (bind_raised _ _ _ _ _ Hw). }
  set (w2 := Os.log _ _) in Hw.
  set (w3 := Os.log (Printed "Step 3 complete: longa2.py created.") w2).
  destruct (self_destruct_spec
              "longa.py has self-destructed (after longa1 imported) from: "
              "after longa1 imported" w3) as (w4 & closing & Hrun & Ht & Hcl & Hf).
  exists w4. right. split.
  { rewrite (bind_ok _ _ _ _ _ Hw). exact Hrun. }
  assert (fs w3 !! "longa.py" = fs w !! "longa.py") as Hlonga.
  { subst w3 w2. cbn [fs Os.log Os.with_fs].
    rewrite lookup_insert_ne by discriminate. now apply silent_frame. }
  split.
  { exists closing. split.
    - rewrite Ht. subst w3 w2. cbn [trace Os.log Os.with_fs].
      rewrite (silent_trace _ _ Hs), <- !app_assoc. reflexivity.
    - rewrite <- Hlonga. exact Hcl. }
  split.
  { rewrite Hf by discriminate. subst w3 w2. cbn [fs Os.log Os.with_fs].
    apply lookup_insert_eq. }
  intros f Hf0 Hf1 Hf2. rewrite Hf by assumption.
  subst w3 w2. cbn [fs Os.log Os.with_fs].
  rewrite lookup_insert_ne by congruence. now apply silent_frame.
Qed.

End Success.

(** ** A run whose load succeeds *)

Section SuccessRun.
Variable env : Env.

Lemma runs_self_destruct (ok : event -> bool) (done after : string) :
  (forall line, ok (Printed line) = true) ->
  ok (Removed "longa.py") = true ->
  runs ok (Longa.self_destruct env done after).
Proof.
  intros Hp Hr. unfold Longa.self_destruct. apply runs_try_except.
  - apply runs_bind; [now apply runs_os_remove|intros _; now apply runs_print].
  - apply runs_except_OSError. intros e.
    apply runs_bind; [now apply runs_print|intros _; now apply runs_print].
Qed.

Lemma runs_branch_true : runs Seen.succeeding (Longa.branch env true).
Proof.
  unfold Longa.branch, Longa.success_path.
  apply runs_bind; [now apply runs_time_sleep|intros _].
  apply runs_bind; [now apply runs_write_text|intros _].
  apply runs_bind; [now apply runs_print|intros _].
  now apply runs_self_destruct.
Qed.

(** The run up to the branch decision, and the whole run. *)
Lemma until_branch_inv (w0 : World) (code : pystr) (imported : bool) :
  fst (Longa.until_branch env w0) = inr (code, imported) ->
  exists wa,
    Longa.write_successor env w0 = (inr code, wa)
    /\ Longa.import_longa1 env wa
       = (inr imported, snd (Longa.until_branch env w0))
    /\ Longa.main env w0
       = Longa.branch env imported (snd (Longa.until_branch env w0)).
Proof.
  unfold Longa.until_branch, Longa.main. rewrite !bind_run.
  destruct (Longa.write_successor env w0) as [[e|code'] wa]; [discriminate|].
  rewrite !bind_run.
  destruct (Longa.import_longa1 env wa) as [[e|imported'] w1] eqn:Himp;
    [discriminate|].
  cbn. intros [= -> ->]. now exists wa.
Qed.

(** The branch taken after a load that succeeded. *)
Lemma branch_true_spec (w : World) :
  exists r w' evs,
    Longa.branch env true w = (r, w')
    /\ trace w' = trace w ++ Slept 1 :: evs
    /\ ((r = inl (PermissionError "longa2.py") /\ evs = []
         /\ fs w' !! "longa.py" = fs w !! "longa.py")
        \/ (r = inr tt
            /\ fs w' !! "longa2.py" = Some (map Text.chr8 Agents.longa2_content)
            /\ exists closing,
                 evs = [Wrote "longa2.py" (map Text.chr8 Agents.longa2_content);
                        Printed "Step 3 complete: longa2.py created."]
                       ++ closing
                 /\ ((closing
                      = [Removed "longa.py";
                         Printed (Seen.orchestrator_done env
                                    "longa.py has self-destructed (after longa1 imported) from: ")]
                      /\ fs w' !! "longa.py" = None)
                     \/ (exists e,
                           is_OSError e = true
                           /\ closing
                              = Seen.orchestrator_stuck "after longa1 imported" e
                           /\ fs w' !! "longa.py" = fs w !! "longa.py"))))
    /\ forall f, f <> "longa.py" -> f <> "longa1.py" -> f <> "longa2.py" ->
                 fs w' !! f = fs w !! f.
Proof.
  unfold Longa.branch.
  destruct (time_sleep_spec env 1 w) as (w1 & Hs & Hsl).
  rewrite (bind_ok _ _ _ _ _ Hsl).
  set (wa := Os.log (Slept 1) w1).
  assert (forall f, f <> "longa1.py" -> fs wa !! f = fs w !! f) as Hframe.
  { intros f Hf. subst wa. cbn [fs Os.log]. now apply silent_frame. }
  assert (trace wa = trace w ++ [Slept 1]) as Hta.
  { subst wa. cbn [trace Os.log]. now rewrite (silent_trace _ _ Hs). }
  destruct (success_path_spec env wa)
    as (w' & [[Hrun Hsil]|(Hrun & (closing & Ht & Hcl) & Hmark & Hf)]).
  - exists (inl (PermissionError "longa2.py")), w', [].
    split; [exact Hrun|]. split.
    { now rewrite (silent_trace _ _ Hsil), Hta. }
    split.
    { left. split; [reflexivity|]. split; [reflexivity|].
      rewrite (silent_frame _ _ "longa.py" Hsil) by discriminate.
      now apply Hframe. }
    intros f _ Hf1 _. rewrite (silent_frame _ _ f Hsil) by assumption.
    now apply Hframe.
  - exists (inr tt), w', ([Wrote "longa2.py" (map Text.chr8 Agents.longa2_content);
                           Printed "Step 3 complete: longa2.py created."]
                          ++ closing).
    split; [exact Hrun|]. split.
    { rewrite Ht, Hta, <- app_assoc. reflexivity. }
    split.
    { right. split; [reflexivity|]. split; [exact Hmark|].
      exists closing. split; [reflexivity|].
      rewrite <- (Hframe "longa.py") by discriminate. exact Hcl. }
    intros f Hf0 Hf1 Hf2. rewrite Hf by assumption. now apply Hframe.
Qed.

(** What a run has done when its load has succeeded. *)
Lemma loaded_spec (w0 : World) (code : pystr) :
  fst (Longa.until_branch env w0) = inr (code, true) ->
  let w1 := snd (Longa.until_branch env w0) in
  (exists raw,
      fs w0 !! "longa.py" = Some raw /\ Capture.clean_ascii_code raw = Some code)
  /\ fs w1 !! "longa.py" = Some (map Text.chr8 code)
  /\ (fs w1 !! "longa1.py" = None
      \/ exists e,
          is_OSError e = true
          /\ Forall (fun x => x ∈ trace w1) (Seen.successor_stuck e))
  /\ (exists evs,
        trace w1 = trace w0 ++ evs
        /\ Forall (fun e => Seen.of_failure_path e = false) evs
        /\ Forall (fun e => Seen.of_success_path e = false) evs)
  /\ (forall f_name,
        f_name ∈ ["longa2.py"; "longamax.py"; "loadedmax.py"] ->
        fs w1 !! f_name = None
        \/ (fs w1 !! f_name = fs w0 !! f_name
            /\ exists e, Seen.cleanup_error f_name e ∈ trace w1))
  /\ Longa.main env w0 = Longa.branch env true w1.
Proof.
  intros H w1. destruct (until_branch_inv _ _ _ H) as (wa & Hws & Himp & Hmain).
  fold w1 in Himp, Hmain.
  destruct (write_successor_spec env _ _ _ Hws)
    as (raw & Hraw & Hcap & Hascii & Hkept & Hsucc & Hprep & Hcl).
  destruct (import_longa1_spec env code wa Hascii Hsucc)
    as (w' & [(Hrun & _)
             |(Hrun & (cache & evs & Hcached & Ht & Hevs) & Hlonga & Hframe)]);
    rewrite Himp in Hrun; [discriminate|].
  injection Hrun as <-.
  split; [now exists raw|]. split; [exact Hlonga|].
  split.
  { destruct Hevs as [[_ Hgone]|(e & He & ->)]; [now left|].
    right. exists e. split; [exact He|]. rewrite Ht.
    repeat constructor. rewrite !elem_of_app. do 4 right. left.
    constructor. }
  split.
  { apply steps_trace in Hprep as (evs0 & Ht0 & Hok).
    exists (evs0 ++ [Slept 1] ++ cache
            ++ [Wrote "longa.py" (map Text.chr8 code)] ++ evs
            ++ [Printed "Step 2 complete: longa1.py imported successfully."]).
    split; [now rewrite Ht, Ht0, <- !app_assoc|].
    assert (Forall (fun e => Seen.of_failure_path e = false
                             /\ Seen.of_success_path e = false) evs0) as Hok0.
    { eapply Forall_impl; [exact Hok|]. intros [] Hx;
        try discriminate Hx; try (split; reflexivity).
      cbn in Hx. apply String.eqb_eq in Hx as ->. split; reflexivity. }
    assert (Forall (fun e => Seen.of_failure_path e = false
                             /\ Seen.of_success_path e = false) evs) as Hok1.
    { destruct Hevs as [[-> _]|(e & _ & ->)]; repeat constructor. }
    assert (Forall (fun e => Seen.of_failure_path e = false
                             /\ Seen.of_success_path e = false) cache) as Hokc.
    { destruct Hcached as [-> | [source ->]]; repeat constructor. }
    split; (apply Forall_app_2; [eapply Forall_impl; [exact Hok0|]; now intros ? []|]);
      (apply Forall_app_2; [repeat constructor|]);
      (apply Forall_app_2; [eapply Forall_impl; [exact Hokc|]; now intros ? []|]);
      (apply Forall_app_2; [repeat constructor|]);
      (apply Forall_app_2; [eapply Forall_impl; [exact Hok1|]; now intros ? []|]);
      repeat constructor. }
  split; [|exact Hmain].
  intros f_name Hin.
  assert (f_name <> "longa.py" /\ f_name <> "longa1.py"
          /\ f_name <> "__pycache__") as (Hn0 & Hn1 & Hnc).
  { repeat split; intros ->; apply list_elem_of_In in Hin; cbn in Hin;
      intuition discriminate. }
  rewrite (Hframe f_name Hn0 Hn1 Hnc).
  destruct (Hcl f_name Hin) as [Hnone|(Hsame & e & He)]; [now left|].
  right. split; [exact Hsame|].
  exists e. rewrite Ht. apply elem_of_app. now left.
Qed.

End SuccessRun.






(** C10. In a run whose load succeeds no recovery script is written and
    no process is started, from the start of the run to its end; each of
    [longamax.py] and [loadedmax.py] is absent when the run ends, or is
    the file the run found, whose deletion the cleanup could not do and
    has logged. *)
Theorem recovery_files_never_written_on_success
    (env : Env) (w0 : World) (code : pystr) :
  fst (Longa.until_branch env w0) = inr (code, true) ->
  let w2 := snd (Longa.main env w0) in
  (exists evs,
      trace w2 = trace w0 ++ evs
      /\ Forall (fun e => Seen.of_failure_path e = false) evs)
  /\ Forall
       (fun f_name =>
          fs w2 !! f_name = None
          \/ (fs w2 !! f_name = fs w0 !! f_name
              /\ exists e, Seen.cleanup_error f_name e ∈ trace w2))
       ["longamax.py"; "loadedmax.py"].
Proof.
  intros H w2.
  destruct (loaded_spec env w0 code H)
    as (_ & _ & _ & (evs1 & Ht1 & Hok1 & _) & Hcl & Hmain).
  set (w1 := snd (Longa.until_branch env w0)) in *.
  pose proof (runs_branch_true env w1) as Hsteps.
  destruct (branch_true_spec env w1) as (r & w' & evs & Hrun & Ht & _ & Hframe).
  rewrite Hrun in Hsteps. cbn [snd] in Hsteps.
  assert (w2 = w') as -> by (unfold w2; now rewrite Hmain, Hrun).
  split.
  - apply steps_trace in Hsteps as (evs2 & Ht2 & Hok2).
    exists (evs1 ++ evs2). split; [now rewrite Ht2, Ht1, <- app_assoc|].
    apply Forall_app_2; [exact Hok1|].
    eapply Forall_impl; [exact Hok2|]. intros [] Hx; try discriminate Hx;
      try reflexivity.
    cbn in Hx. now apply String.eqb_eq in Hx as ->.
  - assert (forall f_name,
               f_name ∈ ["longamax.py"; "loadedmax.py"] ->
               fs w' !! f_name = None
               \/ (fs w' !! f_name = fs w0 !! f_name
                   /\ exists e, Seen.cleanup_error f_name e ∈ trace w'))
      as Hall.
    { intros f_name Hin.
      assert (f_name ∈ ["longa2.py"; "longamax.py"; "loadedmax.py"]) as Hin3
        by now apply list_elem_of_further.
      assert (f_name <> "longa.py" /\ f_name <> "longa1.py"
              /\ f_name <> "longa2.py") as (Hn0 & Hn1 & Hn2).
      { repeat split; intros ->; apply list_elem_of_In in Hin; cbn in Hin;
          intuition discriminate. }
      rewrite (Hframe f_name Hn0 Hn1 Hn2).
      destruct (Hcl f_name Hin3) as [Hnone|(Hsame & e & He)]; [now left|].
      right. split; [exact Hsame|]. exists e.
      now apply (steps_prefix Seen.succeeding w1 w'). }
    apply Forall_forall. exact Hall.
Qed.

Lemma recovery_files_never_written_on_success_witness :
  let env := Scenario.locked "longamax.py" in
  let w0 := Longa.boot (Scenario.stale "longamax.py") [] in
  fst (Longa.until_branch env w0) = inr (Scenario.code, true)
  /\ (let w2 := snd (Longa.main env w0) in
      (exists evs,
          trace w2 = trace w0 ++ evs
          /\ Forall (fun e => Seen.of_failure_path e = false) evs)
      /\ Forall
           (fun f_name =>
              fs w2 !! f_name = None
              \/ (fs w2 !! f_name = fs w0 !! f_name
                  /\ exists e, Seen.cleanup_error f_name e ∈ trace w2))
           ["longamax.py"; "loadedmax.py"]).
Proof.
  split; [vm_compute; reflexivity|].
  apply (recovery_files_never_written_on_success (Scenario.locked "longamax.py")
           (Longa.boot (Scenario.stale "longamax.py") []) Scenario.code).
  vm_compute; reflexivity.
Defined.

(** A directory holding a [longamax.py] that cannot be removed: the
    cleanup logs the refusal and goes on, the load succeeds, the run ends
    normally, and [longamax.py] is still there. *)
Lemma stale_recovery_file_survives :
  let env := Scenario.locked "longamax.py" in
  let w0 := Longa.boot (Scenario.stale "longamax.py") [] in
  fst (Longa.until_branch env w0) = inr (Scenario.code, true)
  /\ fst (Longa.main env w0) = inr tt
  /\ fs (snd (Longa.main env w0)) !! "longamax.py"
     = Some (list_byte_of_string "# left over")
  /\ Seen.cleanup_error "longamax.py" (PermissionError "longamax.py")
     ∈ trace (snd (Longa.main env w0)).
Proof.
  vm_compute. repeat split; try reflexivity.
  do 3 apply list_elem_of_further. constructor.
Qed.
(** ** The failure branch *)

Section FailureRun.
Variable env : Env.

Lemma print_run (line : string) (w : World) :
  Os.print line w = (inr tt, Os.log (Printed line) w).
Proof. reflexivity. Qed.

Lemma try_bind_ok {A B} (m : M A) (k : A -> M B) (h : exn -> option (M B))
    (w w1 : World) (a : A) :
  m w = (inr a, w1) -> try_except (m ≫= k) h w = try_except (k a) h w1.
Proof. intros H. unfold try_except. now rewrite (bind_ok _ _ _ _ _ H). Qed.

Lemma steps_bind (ok : event -> bool) {A B} (m : M A) (k : A -> M B)
    (w : World) :
  steps ok w (snd (m w)) ->
  (forall a w1, m w = (inr a, w1) -> steps ok w1 (snd (k a w1))) ->
  steps ok w (snd ((m ≫= k) w)).
Proof.
  intros Hm Hk. rewrite bind_run.
  destruct (m w) as [[e|a] w1]; cbn in *; [exact Hm|].
  etrans; [exact Hm|]. now apply Hk.
Qed.

(** The three clauses of a supervised run catch everything. *)
Lemma try_except_run (ok : event -> bool) (script what : string)
    (body : M unit) (w : World) :
  (forall line, ok (Printed line) = true) ->
  steps ok w (snd (body w)) ->
  exists w',
    try_except body (Longa.except_run script what) w = (inr tt, w')
    /\ steps ok w w'.
Proof.
  intros Hp Hb. unfold try_except.
  destruct (body w) as [[e|[]] w1]; cbn [snd] in Hb.
  - destruct e; cbn; (eexists; split; [reflexivity|]);
      (etrans; [exact Hb|]); now apply steps_log.
  - now exists w1.
Qed.

Lemma runs_except_run (ok : event -> bool) (script what : string) :
  (forall line, ok (Printed line) = true) ->
  forall e h, Longa.except_run script what e = Some h -> runs ok h.
Proof. intros Hp [] h [= <-]; now apply runs_print. Qed.

(** *** The scripts, whatever they are started on *)

Lemma runs_readline (ok : event -> bool) : runs ok Loadmax.readline.
Proof.
  intros w. unfold Loadmax.readline.
  destruct (stdin w) as [|l rest] eqn:E; [reflexivity|]. cbn.
  apply steps_atom. replace rest with (tail (stdin w)) by now rewrite E.
  constructor.
Qed.

Lemma runs_select_loop (ok : event -> bool) (pending : list (option Z)) :
  (forall line, ok (Printed line) = true) ->
  runs ok (Loadmax.select_loop pending).
Proof.
  intros Hp.
  assert (runs ok (Loadmax.input "Enter your choice (1-4): ")) as Hin.
  { apply runs_bind; [now apply runs_print|intros _; apply runs_readline]. }
  induction pending as [|l later IH]; cbn [Loadmax.select_loop].
  - apply runs_bind; [exact Hin|intros _; apply runs_raise].
  - apply runs_bind; [exact Hin|intros [choice|]].
    + case_bool_decide; [apply runs_ret|].
      apply runs_bind; [now apply runs_print|intros _; exact IH].
    + apply runs_bind; [now apply runs_print|intros _; exact IH].
Qed.

Lemma prefix_append (p s : string) : String.prefix p (p +:+ s) = true.
Proof.
  induction p as [|c p IH]; [now destruct s|]. simpl.
  destruct (Ascii.ascii_dec c c) as [_|Hc]; [exact IH|now destruct Hc].
Qed.

Lemma runs_loadmax_main (ok : event -> bool) :
  (forall line, ok (Printed line) = true) ->
  (forall name data,
      String.prefix "longastop" name = true -> ok (Wrote name data) = true) ->
  runs ok (Loadmax.main env).
Proof.
  intros Hp Hw. unfold Loadmax.main, Loadmax.select_number.
  apply runs_bind.
  { apply runs_bind; [apply runs_print, Hp|intros _].
    apply runs_bind; [apply runs_for_each; intros ?; apply runs_print, Hp|intros _].
    apply runs_bind; [intros w; reflexivity|intros pending].
    now apply runs_select_loop. }
  intros selected_num. apply runs_bind; [apply runs_print, Hp|intros _].
  apply runs_try_except.
  - apply runs_bind; [|intros _; apply runs_print, Hp].
    apply runs_write_text. intros data. apply Hw, prefix_append.
  - apply runs_except_OSError. intros e. apply runs_print, Hp.
Qed.

Lemma runs_self_delete (ok : event -> bool) (name done : string)
    (h : exn -> M unit) :
  (forall line, ok (Printed line) = true) ->
  ok (Removed name) = true ->
  (forall e, runs ok (h e)) ->
  runs ok
    (try_except (Os.os_remove env name;; Os.print done) (except_OSError h)).
Proof.
  intros Hp Hr Hh. apply runs_try_except.
  - apply runs_bind; [now apply runs_os_remove|intros _; now apply runs_print].
  - now apply runs_except_OSError.
Qed.

Lemma runs_loadedmax_main (ok : event -> bool) (__file__ : string) :
  (forall line, ok (Printed line) = true) ->
  (forall name data,
      String.prefix "longastop" name = true -> ok (Wrote name data) = true) ->
  ok (Removed __file__) = true ->
  (forall argv, ok (ChildStarted argv) = true) ->
  (forall argv rc, ok (ChildExited argv rc) = true) ->
  runs ok (Generated.loadedmax_main env __file__).
Proof.
  intros Hp Hw Hr Hs He. unfold Generated.loadedmax_main.
  apply runs_bind; [now apply runs_print|intros _].
  apply runs_bind; [apply runs_os_path_exists|intros found].
  apply runs_bind.
  { destruct found; [|now apply runs_print].
    apply runs_try_except.
    - apply runs_bind; [now apply runs_print|intros _].
      apply runs_bind; [|intros _; now apply runs_print].
      apply runs_subprocess_run; [apply Hs|apply He|].
      apply runs_python. intros _ _. now apply runs_loadmax_main.
    - apply runs_except_Exception. intros e. now apply runs_print. }
  intros _. apply runs_bind; [now apply runs_print|intros _].
  apply runs_self_delete; [exact Hp|exact Hr|].
  intros e. apply runs_bind; [now apply runs_print|intros _; now apply runs_print].
Qed.

Lemma runs_longa1_main (ok : event -> bool) (__file__ : string) (code : pystr) :
  (forall line, ok (Printed line) = true) ->
  (forall data, ok (Wrote "longa.py" data) = true) ->
  ok (Removed __file__) = true ->
  runs ok (Generated.longa1_main env __file__ code).
Proof.
  intros Hp Hw Hr. unfold Generated.longa1_main.
  apply runs_bind; [now apply runs_write_text|intros _].
  apply runs_self_delete; [exact Hp|exact Hr|].
  intros e. now apply runs_print.
Qed.

Lemma runs_longamax_main (ok : event -> bool) (__file__ : string)
    (code : pystr) :
  (forall line, ok (Printed line) = true) ->
  (forall seconds, ok (Slept seconds) = true) ->
  (forall data, ok (Wrote "longa.py" data) = true) ->
  ok (Removed __file__) = true ->
  (forall argv, ok (Detached argv) = true) ->
  runs ok (Generated.longamax_main env __file__ code).
Proof.
  intros Hp Hsl Hw Hr Hd. unfold Generated.longamax_main.
  apply runs_bind; [now apply runs_print|intros _].
  apply runs_bind.
  { apply runs_for_each. intros i.
    apply runs_bind; [now apply runs_print|intros _; now apply runs_time_sleep]. }
  intros _. apply runs_bind; [now apply runs_write_text|intros _].
  apply runs_bind; [now apply runs_print|intros _].
  apply runs_bind.
  { apply runs_self_delete; [exact Hp|exact Hr|]. intros e. now apply runs_print. }
  intros _. apply runs_bind; [now apply runs_print|intros _].
  apply runs_try_except.
  - apply runs_bind; [now apply runs_subprocess_Popen|intros _; now apply runs_print].
  - apply runs_except_Exception. intros e. now apply runs_print.
Qed.

(** No script writes the marker. *)
Lemma runs_interp (__file__ : string) (source : pybytes) :
  runs (fun e => negb (Seen.of_success_path e))
    (Generated.interp env __file__ source).
Proof.
  unfold Generated.interp.
  destruct (Text.decode_ascii source) as [text|]; [|apply runs_raise].
  destruct (Agents.recognise text) as [[code| |code|]|]; cbn [Generated.run_agent].
  - now apply runs_longa1_main.
  - now apply runs_print.
  - now apply runs_longamax_main.
  - apply runs_loadedmax_main; try reflexivity.
    intros name data Hpre. cbn [Seen.of_success_path].
    destruct (String.eqb_spec name "longa2.py") as [->|_]; [|reflexivity].
    discriminate Hpre.
  - apply runs_raise.
Qed.

Lemma runs_run_python (script : string) :
  runs (fun e => negb (Seen.of_success_path e)) (Longa.run_python env script).
Proof.
  unfold Longa.run_python. apply runs_subprocess_run; try reflexivity.
  apply runs_python. intros f source. apply runs_interp.
Qed.

Lemma runs_failure_path :
  runs (fun e => negb (Seen.of_success_path e)) (Longa.failure_path env).
Proof.
  unfold Longa.failure_path, Longa.recovery_A, Longa.recovery_B.
  apply runs_bind.
  { apply runs_bind; [now apply runs_print|intros _].
    apply runs_bind.
    { unfold Longa.get_clean_ascii_code.
      apply runs_bind; [apply runs_read_bytes|intros raw].
      destruct (Capture.clean_ascii_code raw); [apply runs_ret|apply runs_raise]. }
    intros code. apply runs_bind; [now apply runs_write_text|intros _].
    apply runs_bind; [now apply runs_print|intros _].
    apply runs_bind; [now apply runs_print|intros _].
    apply runs_try_except; [|now apply runs_except_run].
    apply runs_bind; [apply runs_run_python|intros _; now apply runs_print]. }
  intros _. apply runs_bind.
  { apply runs_bind; [now apply runs_print|intros _].
    apply runs_bind; [|intros _; now apply runs_print].
    apply runs_try_except; [|now apply runs_except_run].
    apply runs_bind; [now apply runs_write_text|intros _].
    apply runs_bind; [now apply runs_print|intros _].
    apply runs_bind; [now apply runs_print|intros _].
    apply runs_bind; [apply runs_run_python|intros _; now apply runs_print]. }
  intros _. now apply runs_self_destruct.
Qed.

(** *** Recovery-B, lines 200-252 *)

(** A script whose text is known, run as a child process. *)
Lemma python_known (ok : event -> bool) (script : string) (text : pystr)
    (m : M unit) (w : World) :
  script <> "longa1.py" ->
  fs w !! script = Some (map Text.chr8 text) ->
  Generated.interp env script (map Text.chr8 text) = m ->
  runs ok m ->
  steps ok w (snd (Os.python env (Generated.interp env) script w)).
Proof.
  intros Hn Hfs Hi Hm. unfold Os.python.
  destruct (read_bytes_spec env script w) as (w1 & Hs & [[Hnone _]|(raw & Hraw & Hr)]).
  { rewrite (silent_frame _ _ script Hs Hn), Hfs in Hnone. discriminate. }
  rewrite (silent_frame _ _ script Hs Hn), Hfs in Hraw. injection Hraw as <-.
  rewrite Hr, Hi. specialize (Hm w1).
  destruct (m w1) as [[e|[]] w2]; cbn [snd] in *;
    (etrans; [apply steps_silent; exact Hs|exact Hm]).
Qed.

Lemma steps_run_now (ok : event -> bool) (child : M N) (argv : list string)
    (w : World) :
  ok (ChildStarted argv) = true ->
  (forall rc, ok (ChildExited argv rc) = true) ->
  steps ok (Os.log (ChildStarted argv) w)
    (snd (child (Os.log (ChildStarted argv) w))) ->
  steps ok w (snd (Os.run_now env child argv w)).
Proof.
  intros Hs He Hc. unfold Os.run_now.
  destruct (launch_fails env (now w)); [reflexivity|].
  destruct (child (Os.log (ChildStarted argv) w)) as [r w1]. cbn [snd] in *.
  etrans; [now apply (steps_log ok w (ChildStarted argv))|].
  etrans; [exact Hc|]. now apply steps_log.
Qed.

Lemma recovery_B_spec (w : World) :
  exists w' evs,
    Longa.recovery_B env w = (inr tt, w')
    /\ trace w'
       = trace w
         ++ [Printed "
--- NEW SECTION (longa1_imported FALSE): Creating and Running loadedmax.py ---"]
         ++ evs ++ [Printed "--- NEW SECTION END ---"]
    /\ Forall (fun e => Seen.recovery_B_only e = true) evs.
Proof.
  unfold Longa.recovery_B. rewrite (bind_ok _ _ _ _ _ (print_run _ w)).
  set (w1 := Os.log _ w).
  set (body := (Os.write_text env "loadedmax.py" Agents.loadedmax_code_content;; _)).
  destruct (try_except_run Seen.recovery_B_only "loadedmax.py"
              "creation/execution" body w1) as (w2 & Hrun & Hsteps);
    [reflexivity| |].
  { subst body.
    destruct (write_text_spec env "loadedmax.py" Agents.loadedmax_code_content w1
                loadedmax_code_content_ascii) as (wa & Hs & [Hw|Hw]).
    { rewrite (bind_raised _ _ _ _ _ Hw). now apply steps_silent. }
    rewrite (bind_ok _ _ _ _ _ Hw).
    set (wb := Os.log _ _).
    assert (steps Seen.recovery_B_only w1 wb) as Hb.
    { etrans; [apply steps_silent; exact Hs|].
      now apply (steps_event Seen.recovery_B_only wa
                   (Wrote "loadedmax.py" (map Text.chr8 Agents.loadedmax_code_content))). }
    etrans; [exact Hb|].
    rewrite (bind_ok _ _ _ _ _ (print_run _ wb)).
    etrans; [now apply (steps_log Seen.recovery_B_only wb (Printed "loadedmax.py created."))|].
    set (wc := Os.log _ wb).
    rewrite (bind_ok _ _ _ _ _ (print_run _ wc)).
    etrans; [now apply (steps_log Seen.recovery_B_only wc
                          (Printed "Attempting to run loadedmax.py..."))|].
    set (wd := Os.log _ wc).
    assert (fs wd !! "loadedmax.py"
            = Some (map Text.chr8 Agents.loadedmax_code_content)) as Hfs.
    { subst wd wc wb. cbn [fs Os.log Os.with_fs]. apply lookup_insert_eq. }
    apply steps_bind; [|intros _ we _; now apply steps_log].
    unfold Longa.run_python, Os.subprocess_run.
    destruct (after_tick env
                (Os.run_now env
                   (Os.python env (Generated.interp env) "loadedmax.py")
                   ["python"; "loadedmax.py"]) wd) as (we & Hse & ->).
    etrans; [apply steps_silent; exact Hse|].
    apply steps_run_now; [reflexivity|reflexivity|].
    apply (python_known _ _ Agents.loadedmax_code_content
             (Generated.loadedmax_main env "loadedmax.py")); [discriminate| |
      apply interp_loadedmax_code_content|].
    - cbn [fs Os.log]. now rewrite (silent_frame _ _ "loadedmax.py" Hse).
    - apply runs_loadedmax_main; try reflexivity.
      intros name data Hpre. cbn [Seen.recovery_B_only]. rewrite Hpre.
      apply orb_true_r. }
  rewrite (bind_ok _ _ _ _ _ Hrun). cbn [Os.print].
  apply steps_trace in Hsteps as (evs & Ht & Hok).
  exists (Os.log (Printed "--- NEW SECTION END ---") w2), evs.
  split; [reflexivity|]. split; [|exact Hok].
  cbn [trace Os.log]. rewrite Ht. subst w1. cbn [trace Os.log].
  now rewrite <- !app_assoc.
Qed.

(** *** The whole branch *)

Lemma recovery_A_spec (w : World) :
  exists r w' evs,
    Longa.recovery_A env w = (r, w')
    /\ trace w'
       = trace w
         ++ Printed "Skipping longa2.py creation -- longa1.py import failed."
            :: evs
    /\ (((r = inl (FileNotFoundError "longa.py")
          \/ r = inl (PermissionError "longamax.py"))
         /\ evs = [])
        \/ r = inr tt).
Proof.
  unfold Longa.recovery_A. rewrite (bind_ok _ _ _ _ _ (print_run _ w)).
  set (w1 := Os.log _ w).
  destruct (get_clean_ascii_code_spec env "longa.py" w1)
    as (w2 & Hs2 & [[_ Hc]|(raw & code & _ & _ & Hascii & Hc)]).
  { exists (inl (FileNotFoundError "longa.py")), w2, [].
    split; [now rewrite (bind_raised _ _ _ _ _ Hc)|].
    split; [now rewrite (silent_trace _ _ Hs2)|]. left. auto. }
  rewrite (bind_ok _ _ _ _ _ Hc).
  destruct (write_text_spec env "longamax.py" (Agents.longamax_code_content code)
              w2 (longamax_code_content_ascii code Hascii))
    as (w3 & Hs3 & [Hw|Hw]).
  { exists (inl (PermissionError "longamax.py")), w3, [].
    split; [now rewrite (bind_raised _ _ _ _ _ Hw)|].
    split; [now rewrite (silent_trace _ _ Hs3), (silent_trace _ _ Hs2)|].
    left. auto. }
  rewrite (bind_ok _ _ _ _ _ Hw).
  set (w4 := Os.log _ _).
  rewrite (bind_ok _ _ _ _ _ (print_run _ w4)).
  set (w5 := Os.log _ w4).
  rewrite (bind_ok _ _ _ _ _ (print_run _ w5)).
  set (w6 := Os.log _ w5).
  set (body := (Longa.run_python env "longamax.py";; _)).
  destruct (try_except_run (fun _ => true) "longamax.py" "execution" body w6)
    as (w7 & Hrun & Hsteps); [reflexivity| |].
  { eapply steps_mono; [|apply (runs_bind (fun e => negb (Seen.of_success_path e)))].
    - reflexivity.
    - apply runs_run_python.
    - intros _. now apply runs_print. }
  apply steps_trace in Hsteps as (evs & Ht & _).
  eexists (inr tt), w7, _. split; [exact Hrun|]. split; [|now right].
  rewrite Ht. subst w6 w5 w4 w1. cbn [trace Os.log Os.with_fs].
  rewrite (silent_trace _ _ Hs3), (silent_trace _ _ Hs2). cbn [trace Os.log].
  rewrite <- !app_assoc. reflexivity.
Qed.

Lemma failure_path_spec (w : World) :
  exists r w' evs,
    Longa.failure_path env w = (r, w')
    /\ trace w'
       = trace w
         ++ Printed "Skipping longa2.py creation -- longa1.py import failed."
            :: evs
    /\ (((r = inl (FileNotFoundError "longa.py")
          \/ r = inl (PermissionError "longamax.py"))
         /\ evs = [])
        \/ (r = inr tt
            /\ exists recoveries closing,
                 evs = recoveries ++ [Printed "--- NEW SECTION END ---"] ++ closing
                 /\ Seen.failure_closing env closing)).
Proof.
  unfold Longa.failure_path.
  destruct (recovery_A_spec w) as (r & w1 & evsA & HA & HtA & [[Hr ->]| ->]).
  { exists r, w1, []. split; [|split; [exact HtA|now left]].
    destruct Hr as [-> | ->]; now rewrite (bind_raised _ _ _ _ _ HA). }
  rewrite (bind_ok _ _ _ _ _ HA).
  destruct (recovery_B_spec w1) as (w2 & evsB & HB & HtB & _).
  rewrite (bind_ok _ _ _ _ _ HB).
  destruct (self_destruct_spec env
              "longa.py has self-destructed after longamax.py and loadedmax.py completed from: "
              "after longamax/loadedmax" w2) as (w3 & closing & Hrun & Ht & Hcl & _).
  exists (inr tt), w3,
    ((evsA
      ++ Printed "
--- NEW SECTION (longa1_imported FALSE): Creating and Running loadedmax.py ---"
         :: evsB)
     ++ [Printed "--- NEW SECTION END ---"] ++ closing).
  split; [exact Hrun|]. split.
  { rewrite Ht, HtB, HtA, <- !app_assoc. reflexivity. }
  right. split; [reflexivity|].
  eexists _, closing. split; [reflexivity|].
  eapply closing_seen with (w := w2). exact Hcl.
Qed.

End FailureRun.
(** C1. The branch decision enters exactly one path, chosen by
    [longa1_imported], after a pause of one second; nothing of the other
    path happens.  The success path reaches its closing self-deletion
    unless the write of the marker raises, and then it has done nothing;
    the failure path reaches its closing self-deletion unless the capture
    of the orchestrator's file or the write of [longamax.py] raises, and
    then it has printed its first line only.  In these cases the
    exception ends the run and no path has completed. *)
Theorem branch_enters_one_path (env : Env) (longa1_imported : bool) (w : World) :
  exists r w' evs,
    Longa.branch env longa1_imported w = (r, w')
    /\ trace w' = trace w ++ Slept 1 :: evs
    /\ (if longa1_imported then
          Forall (fun e => Seen.of_failure_path e = false) evs
          /\ ((r = inr tt
               /\ exists closing,
                    evs = [Wrote "longa2.py" (map Text.chr8 Agents.longa2_content);
                           Printed "Step 3 complete: longa2.py created."]
                          ++ closing
                    /\ Seen.success_closing env closing)
              \/ (r = inl (PermissionError "longa2.py") /\ evs = []))
        else
          Forall (fun e => Seen.of_success_path e = false) evs
          /\ ((r = inr tt
               /\ exists recoveries closing,
                    evs = Printed "Skipping longa2.py creation -- longa1.py import failed."
                          :: recoveries ++ [Printed "--- NEW SECTION END ---"]
                          ++ closing
                    /\ Seen.failure_closing env closing)
              \/ ((r = inl (FileNotFoundError "longa.py")
                   \/ r = inl (PermissionError "longamax.py"))
                  /\ evs = [Printed "Skipping longa2.py creation -- longa1.py import failed."]))).
Proof.
  destruct longa1_imported.
  - destruct (branch_true_spec env w) as (r & w' & evs & Hrun & Ht & Hcases & _).
    exists r, w', evs. split; [exact Hrun|]. split; [exact Ht|].
    destruct Hcases as [(-> & -> & _)|(-> & _ & closing & -> & Hcl)].
    + split; [constructor|]. right. auto.
    + split.
      * destruct Hcl as [[-> _]|(e & _ & -> & _)]; repeat constructor.
      * left. split; [reflexivity|]. exists closing. split; [reflexivity|].
        eapply closing_seen with (w := w). exact Hcl.
  - unfold Longa.branch.
    destruct (time_sleep_spec env 1 w) as (w1 & Hs & Hsl).
    rewrite (bind_ok _ _ _ _ _ Hsl).
    set (wa := Os.log (Slept 1) w1).
    pose proof (runs_failure_path env wa) as Hsteps.
    destruct (failure_path_spec env wa) as (r & w' & evs & Hrun & Ht & Hcases).
    rewrite Hrun in Hsteps. cbn [snd] in Hsteps.
    apply steps_trace in Hsteps as (evs' & Ht' & Hok).
    rewrite Ht in Ht'. apply app_inv_head in Ht'. subst evs'.
    assert (Forall (fun e => Seen.of_success_path e = false)
              (Printed "Skipping longa2.py creation -- longa1.py import failed."
               :: evs)) as Hok'.
    { eapply Forall_impl; [exact Hok|]. intros e He. cbn in He.
      now destruct (Seen.of_success_path e). }
    eexists r, w', _. split; [exact Hrun|]. split.
    { rewrite Ht. subst wa. cbn [trace Os.log].
      rewrite (silent_trace _ _ Hs), <- app_assoc. reflexivity. }
    split; [exact Hok'|].
    destruct Hcases as [[Hr ->]|(-> & recoveries & closing & -> & Hcl)].
    + right. auto.
    + left. split; [reflexivity|]. now exists recoveries, closing.
Qed.

(** A directory holding a [longa2.py] that can be neither removed nor
    opened for writing: the cleanup logs the refusal, the load succeeds,
    the success path is entered and raises at its first statement.  The
    run ends on that exception with nothing of either path done: its last
    event is the pause before the branch, and the orchestrator's file is
    still there. *)
Lemma neither_path_completes :
  let env := Scenario.locked "longa2.py" in
  let w0 := Longa.boot (Scenario.stale "longa2.py") [] in
  fst (Longa.until_branch env w0) = inr (Scenario.code, true)
  /\ fst (Longa.main env w0) = inl (PermissionError "longa2.py")
  /\ trace (snd (Longa.main env w0))
     = trace (snd (Longa.until_branch env w0)) ++ [Slept 1]
  /\ fs (snd (Longa.main env w0)) !! "longa.py"
     = Some (map Text.chr8 Scenario.code).
Proof. vm_compute. repeat split; reflexivity. Qed.
(** ** Recovery-A where nothing it needs is refused *)

Section Granted.
Variable env : Env.
Hypothesis python_starts : forall t, launch_fails env t = false.
Hypothesis longamax_writable : forall t, write_refused env t "longamax.py" = false.
Hypothesis longa_writable : forall t, write_refused env t "longa.py" = false.

Lemma write_text_granted (name : string) (text : pystr) (w : World) :
  (forall t, write_refused env t name = false) ->
  Forall Text.is_ascii text ->
  exists w1,
    steps silent w w1
    /\ Os.write_text env name text w
       = (inr tt, Os.log (Wrote name (map Text.chr8 text))
                    (Os.with_fs (<[name := map Text.chr8 text]> (fs w1)) w1)).
Proof.
  intros Hg Ha. unfold Os.write_text.
  destruct (after_tick env (Os.write_now env name text) w) as (w1 & Hs & ->).
  exists w1. split; [exact Hs|]. unfold Os.write_now.
  now rewrite Hg, encode_utf8_ascii.
Qed.

Lemma subprocess_Popen_granted (argv : list string) (w : World) :
  exists w1,
    steps silent w w1
    /\ Os.subprocess_Popen env argv w = (inr tt, Os.log (Detached argv) w1).
Proof.
  unfold Os.subprocess_Popen.
  destruct (after_tick env (Os.popen_now env argv) w) as (w1 & Hs & ->).
  exists w1. split; [exact Hs|]. unfold Os.popen_now.
  now rewrite python_starts.
Qed.

(** A supervised run of a child that ends with status 0. *)
Lemma subprocess_run_granted (child : M N) (argv : list string) (w : World) :
  exists w1,
    steps silent w w1
    /\ forall w2,
         child (Os.log (ChildStarted argv) w1) = (inr 0, w2) ->
         Os.subprocess_run env child argv w
         = (inr tt, Os.log (ChildExited argv 0) w2).
Proof.
  unfold Os.subprocess_run.
  destruct (after_tick env (Os.run_now env child argv) w) as (w1 & Hs & ->).
  exists w1. split; [exact Hs|]. intros w2 Hc. unfold Os.run_now.
  now rewrite python_starts, Hc.
Qed.

(** A script whose text is known and which ends normally. *)
Lemma python_returns (script : string) (text : pystr) (w : World) :
  script <> "longa1.py" ->
  fs w !! script = Some (map Text.chr8 text) ->
  exists w1,
    steps silent w w1
    /\ forall w2,
         Generated.interp env script (map Text.chr8 text) w1 = (inr tt, w2) ->
         Os.python env (Generated.interp env) script w = (inr 0, w2).
Proof.
  intros Hn Hfs. unfold Os.python.
  destruct (read_bytes_spec env script w) as (w1 & Hs & [[Hnone _]|(raw & Hraw & Hr)]).
  { rewrite (silent_frame _ _ script Hs Hn), Hfs in Hnone. discriminate. }
  rewrite (silent_frame _ _ script Hs Hn), Hfs in Hraw. injection Hraw as <-.
  exists w1. split; [exact Hs|]. intros w2 Hi. now rewrite Hr, Hi.
Qed.

(** The loop of lines 8-10 of the script. *)
Lemma countdown_spec (w : World) :
  exists w',
    for_each [3; 2; 1]
      (fun i =>
         Os.print ("Deleting in " +:+ str_N i +:+ " seconds...");;
         Os.time_sleep env 1) w
    = (inr tt, w')
    /\ trace w' = trace w ++ Seen.countdown.
Proof.
  set (body := fun i : N =>
                 Os.print ("Deleting in " +:+ str_N i +:+ " seconds...");;
                 Os.time_sleep env 1).
  assert (forall i w0, exists w1,
             body i w0 = (inr tt, w1)
             /\ trace w1
                = trace w0
                  ++ [Printed ("Deleting in " +:+ str_N i +:+ " seconds...");
                      Slept 1]) as Hb.
  { intros i w0. unfold body.
    rewrite (bind_ok _ _ _ _ _ (print_run _ w0)).
    destruct (time_sleep_spec env 1 (Os.log (Printed ("Deleting in " +:+ str_N i +:+ " seconds...")) w0))
      as (w1 & Hs & ->).
    eexists. split; [reflexivity|]. cbn [trace Os.log].
    rewrite (silent_trace _ _ Hs). cbn [trace Os.log].
    now rewrite <- app_assoc. }
  destruct (Hb 3 w) as (w1 & H1 & T1).
  destruct (Hb 2 w1) as (w2 & H2 & T2).
  destruct (Hb 1 w2) as (w3 & H3 & T3).
  exists w3. split.
  - cbn [for_each]. unfold Py.bind. now rewrite H1, H2, H3.
  - rewrite T3, T2, T1, <- !app_assoc. reflexivity.
Qed.

(** Recovery-A, from its first line to its last. *)
Lemma longamax_main_granted (code : pystr) (w : World) :
  Forall Text.is_ascii code ->
  exists w' gone,
    Generated.longamax_main env "longamax.py" code w = (inr tt, w')
    /\ trace w' = trace w ++ Seen.recovery_A_events code gone
    /\ Seen.deleted_itself "longamax.py" Seen.longamax_done
         Seen.longamax_stuck gone.
Proof.
  intros Hc. unfold Generated.longamax_main.
  rewrite (bind_ok _ _ _ _ _ (print_run _ w)).
  set (w1 := Os.log _ w).
  destruct (countdown_spec w1) as (w2 & Hcd & Ht2).
  rewrite (bind_ok _ _ _ _ _ Hcd).
  destruct (write_text_granted "longa.py" code w2 longa_writable Hc)
    as (w3 & Hs3 & Hwr).
  rewrite (bind_ok _ _ _ _ _ Hwr).
  set (w4 := Os.log _ _).
  rewrite (bind_ok _ _ _ _ _ (print_run _ w4)).
  set (w5 := Os.log _ w4).
  destruct (self_delete_spec env "longamax.py" Seen.longamax_done
              (fun e =>
                 Os.print
                   ("Error during self-destruction of longamax.py (longamax.py): "
                    +:+ str e))
              Seen.longamax_stuck w5) as (w6 & gone & Hrun & Ht6 & Hgone & _).
  { intros e w0. eexists. split; [reflexivity|]. split; reflexivity. }
  change ("longamax.py self-destruction complete: " +:+ "longamax.py" +:+ " removed.")
    with Seen.longamax_done.
  change (fun e : exn =>
            Os.print
              ("Error during self-destruction of longamax.py (" +:+ "longamax.py"
               +:+ "): " +:+ str e))
    with (fun e : exn =>
            Os.print
              ("Error during self-destruction of longamax.py (longamax.py): "
               +:+ str e)).
  rewrite (bind_ok _ _ _ _ _ Hrun).
  rewrite (bind_ok _ _ _ _ _ (print_run _ w6)).
  set (w7 := Os.log _ w6).
  destruct (subprocess_Popen_granted ["python"; "longa.py"] w7)
    as (w8 & Hs8 & Hp).
  rewrite (try_ok _ _ w7
             (Os.log (Printed "longa.py launched successfully from longamax.py.")
                (Os.log (Detached ["python"; "longa.py"]) w8)) tt)
    by (rewrite (bind_ok _ _ _ _ _ Hp); reflexivity).
  eexists _, gone. split; [reflexivity|]. split.
  - cbn [trace Os.log]. rewrite (silent_trace _ _ Hs8). subst w7.
    cbn [trace Os.log]. rewrite Ht6. subst w5 w4. cbn [trace Os.log Os.with_fs].
    rewrite (silent_trace _ _ Hs3), Ht2. subst w1. cbn [trace Os.log].
    unfold Seen.recovery_A_events. rewrite <- !app_assoc. reflexivity.
  - destruct Hgone as [[-> _]|(e & He & -> & _)]; now constructor.
Qed.

(** Lines 129-197. *)
Lemma recovery_A_granted (raw : pybytes) (code : pystr) (w : World) :
  fs w !! "longa.py" = Some raw ->
  Capture.clean_ascii_code raw = Some code ->
  exists w' gone,
    Longa.recovery_A env w = (inr tt, w')
    /\ trace w'
       = trace w
         ++ [Printed "Skipping longa2.py creation -- longa1.py import failed.";
             Wrote "longamax.py"
               (map Text.chr8 (Agents.longamax_code_content code));
             Printed "longamax.py created because longa1.py import failed.";
             Printed "Attempting to run longamax.py...";
             ChildStarted ["python"; "longamax.py"]]
         ++ Seen.recovery_A_events code gone
         ++ [ChildExited ["python"; "longamax.py"] 0;
             Printed "longamax.py executed successfully."]
    /\ Seen.deleted_itself "longamax.py" Seen.longamax_done
         Seen.longamax_stuck gone.
Proof.
  intros Hraw Hcap. pose proof (clean_ascii_code_ascii _ _ Hcap) as Hascii.
  unfold Longa.recovery_A. rewrite (bind_ok _ _ _ _ _ (print_run _ w)).
  set (w1 := Os.log _ w).
  destruct (get_clean_ascii_code_spec env "longa.py" w1)
    as (w2 & Hs2 & [[Hnone _]|(raw' & code' & Hraw' & Hcap' & _ & Hc)]).
  { rewrite (silent_frame _ _ "longa.py" Hs2) in Hnone by discriminate.
    subst w1. cbn [fs Os.log] in Hnone. congruence. }
  assert (code' = code) as ->.
  { rewrite (silent_frame _ _ "longa.py" Hs2) in Hraw' by discriminate.
    subst w1. cbn [fs Os.log] in Hraw'. congruence. }
  rewrite (bind_ok _ _ _ _ _ Hc).
  destruct (write_text_granted "longamax.py" (Agents.longamax_code_content code)
              w2 longamax_writable (longamax_code_content_ascii code Hascii))
    as (w3 & Hs3 & Hw).
  rewrite (bind_ok _ _ _ _ _ Hw).
  set (w4 := Os.log _ _).
  rewrite (bind_ok _ _ _ _ _ (print_run _ w4)).
  set (w5 := Os.log _ w4).
  rewrite (bind_ok _ _ _ _ _ (print_run _ w5)).
  set (w6 := Os.log _ w5).
  unfold Longa.run_python.
  destruct (subprocess_run_granted
              (Os.python env (Generated.interp env) "longamax.py")
              ["python"; "longamax.py"] w6) as (w7 & Hs7 & Hsub).
  set (w8 := Os.log (ChildStarted ["python"; "longamax.py"]) w7) in Hsub.
  assert (fs w8 !! "longamax.py"
          = Some (map Text.chr8 (Agents.longamax_code_content code))) as Hfs.
  { subst w8. cbn [fs Os.log].
    rewrite (silent_frame _ _ "longamax.py" Hs7) by discriminate.
    subst w6 w5 w4. cbn [fs Os.log Os.with_fs]. apply lookup_insert_eq. }
  destruct (python_returns "longamax.py" (Agents.longamax_code_content code) w8)
    as (w9 & Hs9 & Hpy); [discriminate|exact Hfs|].
  destruct (longamax_main_granted code w9 Hascii) as (w10 & gone & Hm & Ht10 & Hgone).
  rewrite interp_longamax_code_content in Hpy by exact Hascii.
  specialize (Hpy w10 Hm). specialize (Hsub w10 Hpy).
  rewrite (try_ok _ _ w6
             (Os.log (Printed "longamax.py executed successfully.")
                (Os.log (ChildExited ["python"; "longamax.py"] 0) w10)) tt)
    by (rewrite (bind_ok _ _ _ _ _ Hsub); reflexivity).
  eexists _, gone. split; [reflexivity|]. split; [|exact Hgone].
  cbn [trace Os.log]. rewrite Ht10, (silent_trace _ _ Hs9). subst w8.
  cbn [trace Os.log]. rewrite (silent_trace _ _ Hs7). subst w6 w5 w4.
  cbn [trace Os.log Os.with_fs].
  rewrite (silent_trace _ _ Hs3), (silent_trace _ _ Hs2). subst w1.
  cbn [trace Os.log]. rewrite <- !app_assoc. reflexivity.
Qed.

End Granted.

Section FailedLoad.
Variable env : Env.

(** When the load has failed the orchestrator's file is as the run found
    it. *)
Lemma load_failed_spec (w0 : World) (code : pystr) :
  fst (Longa.until_branch env w0) = inr (code, false) ->
  exists raw,
    fs (snd (Longa.until_branch env w0)) !! "longa.py" = Some raw
    /\ Capture.clean_ascii_code raw = Some code
    /\ Longa.main env w0
       = Longa.branch env false (snd (Longa.until_branch env w0)).
Proof.
  intros H. destruct (until_branch_inv env _ _ _ H) as (wa & Hws & Himp & Hmain).
  destruct (write_successor_spec env _ _ _ Hws)
    as (raw & _ & Hcap & Hascii & Hkept & Hsucc & _).
  destruct (import_longa1_spec env code wa Hascii Hsucc)
    as (w' & [(Hrun & _ & Hframe)|(Hrun & _)]);
    rewrite Himp in Hrun; [|discriminate].
  injection Hrun as <-. exists raw.
  split; [|split; [exact Hcap|exact Hmain]].
  rewrite Hframe by discriminate. exact Hkept.
Qed.

Lemma spawns_app (evs evs' : list event) :
  Seen.spawns (evs ++ evs') = (Seen.spawns evs + Seen.spawns evs')%nat.
Proof.
  induction evs as [|e evs IH]; [reflexivity|].
  destruct e; cbn [app Seen.spawns]; rewrite IH; reflexivity.
Qed.

Lemma spawns_none (ok : event -> bool) (evs : list event) :
  (forall argv, ok (Detached argv) = false) ->
  Forall (fun e => ok e = true) evs -> Seen.spawns evs = 0%nat.
Proof.
  intros Hd. induction 1 as [|e evs He _ IH]; [reflexivity|].
  destruct e; cbn [Seen.spawns]; try exact IH. now rewrite Hd in He.
Qed.

Lemma spawns_deleted_itself (name done : string) (stuck : exn -> list event)
    (evs : list event) :
  (forall e, Seen.spawns (stuck e) = 0%nat) ->
  Seen.deleted_itself name done stuck evs -> Seen.spawns evs = 0%nat.
Proof. intros Hs [|e _]; [reflexivity|apply Hs]. Qed.

End FailedLoad.


(** * Further properties *)

(** ** Code Capture, octet by octet *)

Section CaptureShape.
Import Text.

Lemma charrefs_app (s t : pystr) : charrefs (s ++ t) = charrefs s ++ charrefs t.
Proof. unfold charrefs. apply flat_map_app. Qed.

(** The reference of an octet past ASCII has six characters. *)
Lemma charref_of_byte (b : byte) :
  length (if Byte.to_N b <? 128 then [Byte.to_N b] else xmlcharref (Byte.to_N b))
  = if 128 <=? Byte.to_N b then 6%nat else 1%nat.
Proof. destruct b; reflexivity. Qed.

Lemma charrefs_length (raw : pybytes) :
  length (charrefs (decode_latin1 raw))
  = (length raw
     + 5 * length (List.filter (fun b => (128 <=? Byte.to_N b)%N) raw))%nat.
Proof.
  induction raw as [|b raw IH]; [reflexivity|].
  change (decode_latin1 (b :: raw)) with (Byte.to_N b :: decode_latin1 raw).
  change (charrefs (Byte.to_N b :: decode_latin1 raw))
    with ((if Byte.to_N b <? 128 then [Byte.to_N b] else xmlcharref (Byte.to_N b))
          ++ charrefs (decode_latin1 raw)).
  rewrite length_app, charref_of_byte, IH. cbn [List.filter].
  destruct (128 <=? Byte.to_N b); cbn [length]; lia.
Qed.

End CaptureShape.

(** X1. Decoding as latin-1 gives code points below 256 only, so the text
    holds neither an em dash (U+2014) nor an en dash (U+2013): the two
    replacements of line 23 leave every input as it is. *)
Theorem dash_replacement_never_fires (raw_bytes : pybytes) :
  Forall (fun c => c < 256) (Text.decode_latin1 raw_bytes)
  /\ Capture.dash_normalised (Text.decode_latin1 raw_bytes)
     = Text.decode_latin1 raw_bytes.
Proof.
  split; [|apply dash_normalised_latin1].
  unfold Text.decode_latin1. apply Forall_map, Forall_forall.
  intros b _. apply to_N_lt_256.
Qed.

(** X2. The captured text has one character for each ASCII octet of the
    file and six for each other octet: its length is the length of the
    file plus five times the number of octets from 128 on.  It is never
    shorter than the file, and as long exactly when the file is ASCII. *)
Theorem capture_length (raw_bytes : pybytes) :
  exists code,
    Capture.clean_ascii_code raw_bytes = Some code
    /\ length code
       = (length raw_bytes
          + 5 * length (List.filter (fun b => (128 <=? Byte.to_N b)%N) raw_bytes))%nat
    /\ (length raw_bytes <= length code)%nat
    /\ (length code = length raw_bytes <-> Forall Text.ascii_byte raw_bytes).
Proof.
  exists (Text.charrefs (Text.decode_latin1 raw_bytes)).
  split; [apply clean_ascii_code_charrefs|].
  pose proof (charrefs_length raw_bytes) as Hlen.
  split; [exact Hlen|]. split; [lia|].
  rewrite Hlen. split.
  - intros H.
    assert (List.filter (fun b => (128 <=? Byte.to_N b)%N) raw_bytes = []) as Hnone.
    { destruct (List.filter _ raw_bytes); [reflexivity|cbn [length] in H; lia]. }
    apply Forall_forall. intros b Hb. unfold Text.ascii_byte.
    destruct (N.ltb_spec (Byte.to_N b) 128) as [Hlt|Hge]; [exact Hlt|].
    exfalso. apply list_elem_of_In in Hb.
    assert (In b (List.filter (fun b => (128 <=? Byte.to_N b)%N) raw_bytes)) as Hin.
    { apply filter_In. split; [exact Hb|]. now apply N.leb_le. }
    rewrite Hnone in Hin. exact Hin.
  - intros Hall. clear Hlen.
    assert (List.filter (fun b => (128 <=? Byte.to_N b)%N) raw_bytes = []) as ->.
    { induction Hall as [|b raw Hb _ IH]; [reflexivity|]. cbn [List.filter].
      unfold Text.ascii_byte in Hb.
      destruct (N.leb_spec 128 (Byte.to_N b)); [lia|exact IH]. }
    cbn [length]. lia.
Qed.

(** X3. Code Capture works octet by octet: the capture of two byte
    sequences put end to end is the capture of the first followed by the
    capture of the second, and the capture of the empty file is the empty
    text. *)
Theorem capture_concatenation (first second : pybytes) :
  exists code1 code2,
    Capture.clean_ascii_code first = Some code1
    /\ Capture.clean_ascii_code second = Some code2
    /\ Capture.clean_ascii_code (first ++ second) = Some (code1 ++ code2)
    /\ Capture.clean_ascii_code [] = Some [].
Proof.
  exists (Text.charrefs (Text.decode_latin1 first)),
    (Text.charrefs (Text.decode_latin1 second)).
  rewrite !clean_ascii_code_charrefs. unfold Text.decode_latin1.
  rewrite map_app, charrefs_app. auto.
Qed.

(** ** The cleanup, and what can end a run *)

Section Permitted.
Variable env : Env.

(** [os.remove] where the environment does not refuse it. *)
Lemma os_remove_granted (name : string) (w : World) :
  (forall t, remove_refused env t name = false) ->
  exists w1,
    steps silent w w1
    /\ ((fs w1 !! name = None
         /\ Os.os_remove env name w = (inl (FileNotFoundError name), w1))
        \/ (is_Some (fs w1 !! name)
            /\ Os.os_remove env name w
               = (inr tt, Os.log (Removed name)
                            (Os.with_fs (delete name (fs w1)) w1)))).
Proof.
  intros Hg. unfold Os.os_remove.
  destruct (after_tick env (Os.remove_now env name) w) as (w1 & Hs & ->).
  exists w1. split; [exact Hs|]. unfold Os.remove_now.
  destruct (fs w1 !! name) as [data|] eqn:E; [|now left].
  right. rewrite Hg. eauto.
Qed.

Lemma clean_one_granted (f_name : string) (w : World) :
  (forall t, remove_refused env t f_name = false) ->
  exists w',
    Longa.clean_one env f_name w = (inr tt, w') /\ fs w' !! f_name = None.
Proof.
  intros Hg. unfold Longa.clean_one.
  destruct (os_path_exists_spec env f_name w) as (w1 & Hs1 & Hex).
  rewrite (bind_ok _ _ _ _ _ Hex).
  case_bool_decide as Hfound.
  - destruct (os_remove_granted f_name w1 Hg) as (w2 & Hs2 & [[Hgone Hrm]|[_ Hrm]]).
    + rewrite (try_raised _ _ _ _ _ (bind_raised _ _ _ _ _ Hrm)). cbn.
      eexists. split; [reflexivity|]. exact Hgone.
    + rewrite (try_ok _ _ _ _ _ (bind_ok _ _ _ _ _ Hrm)).
      eexists. split; [reflexivity|]. cbn. apply lookup_delete_eq.
  - eexists. split; [reflexivity|]. cbn.
    destruct (fs w1 !! f_name) eqn:E; [|reflexivity]. destruct Hfound. eauto.
Qed.

Lemma cleanup_loop_granted (names : list string) (w : World) :
  names ⊆ Longa.files_to_clean ->
  (forall t name, remove_refused env t name = false) ->
  exists w',
    for_each names (Longa.clean_one env) w = (inr tt, w')
    /\ steps Seen.cleanup_only w w'
    /\ forall f_name, f_name ∈ names -> fs w' !! f_name = None.
Proof.
  intros Hsub Hg. revert w.
  induction names as [|f_name names IH]; intros w.
  - exists w. split; [reflexivity|]. split; [reflexivity|].
    intros f Hf. now apply elem_of_nil in Hf.
  - destruct (clean_one_granted f_name w (fun t => Hg t f_name)) as (w1 & Hrun & Hgone).
    assert (steps Seen.cleanup_only w w1) as Hw1.
    { assert (f_name ∈ Longa.files_to_clean) as Hin by (apply Hsub; left).
      pose proof (runs_clean_one env f_name Hin w) as Hr. now rewrite Hrun in Hr. }
    destruct (IH (fun x Hx => Hsub x (list_elem_of_further _ _ _ Hx)) w1)
      as (w' & Hrest & Hw' & Hall).
    exists w'. cbn [for_each]. unfold bind. rewrite Hrun, Hrest.
    split; [reflexivity|]. split; [etrans; eassumption|].
    intros f Hf. apply elem_of_cons in Hf as [->|Hf]; [|now apply Hall].
    now apply (steps_absent Seen.cleanup_only w1 w').
Qed.

End Permitted.

(** X4. The cleanup creates and changes nothing: after it every entry of
    the directory is as it was or is gone, and an entry whose name is not
    one of the four it cleans (the orchestrator's own file among them) is
    exactly as it was. *)
Theorem cleanup_touches_only_its_names (env : Env) (w : World) (f_name : string) :
  let w' := snd (Longa.clean_previous_run_artifacts env w) in
  (fs w' !! f_name = None \/ fs w' !! f_name = fs w !! f_name)
  /\ (f_name ∉ Longa.files_to_clean -> fs w' !! f_name = fs w !! f_name)
  /\ fs w' !! "longa.py" = fs w !! "longa.py".
Proof.
  intros w'. destruct (cleanup_spec env w) as (w1 & Hrun & Hsteps & _).
  assert (w' = w1) as -> by (unfold w'; now rewrite Hrun).
  assert (forall name,
             name ∉ Longa.files_to_clean -> fs w1 !! name = fs w !! name) as Hout.
  { intros name Hn. apply (steps_frame Seen.cleanup_only w w1 name Hsteps).
    - intros ->. apply Hn. left.
    - reflexivity.
    - cbn. now apply bool_decide_eq_false. }
  split; [now apply (steps_kept Seen.cleanup_only w w1)|].
  split; [apply Hout|]. apply Hout.
  intros Hin. apply list_elem_of_In in Hin. cbn in Hin.
  intuition discriminate.
Qed.

(** X5. Where no deletion is refused, none of the four names is left when
    the cleanup has returned. *)
Theorem cleanup_removes_when_permitted (env : Env) (w : World) :
  (forall t name, remove_refused env t name = false) ->
  fst (Longa.clean_previous_run_artifacts env w) = inr tt
  /\ Forall
       (fun f_name =>
          fs (snd (Longa.clean_previous_run_artifacts env w)) !! f_name = None)
       ["longa1.py"; "longa2.py"; "longamax.py"; "loadedmax.py"].
Proof.
  intros Hg. unfold Longa.clean_previous_run_artifacts.
  rewrite bind_run. cbn [Os.print].
  set (w0 := Os.log _ w).
  destruct (cleanup_loop_granted env Longa.files_to_clean w0)
    as (w1 & Hrun & _ & Hall); [reflexivity|exact Hg|].
  rewrite bind_run, Hrun. cbn [fst snd fs Os.log].
  split; [reflexivity|]. apply Forall_forall. exact Hall.
Qed.

Lemma cleanup_removes_when_permitted_witness :
  fst (Longa.clean_previous_run_artifacts Scenario.quiet
         (Longa.boot (Scenario.stale "longamax.py") []))
  = inr tt
  /\ Forall
       (fun f_name =>
          fs (snd (Longa.clean_previous_run_artifacts Scenario.quiet
                     (Longa.boot (Scenario.stale "longamax.py") [])))
          !! f_name = None)
       ["longa1.py"; "longa2.py"; "longamax.py"; "loadedmax.py"].
Proof.
  apply (cleanup_removes_when_permitted Scenario.quiet
           (Longa.boot (Scenario.stale "longamax.py") [])).
  intros t name. reflexivity.
Defined.

(** ** A run that nothing disturbs, and a run that is watched *)

Section Forward.
Variable env : Env.

Lemma cleanup_granted (w : World) :
  (forall t name, remove_refused env t name = false) ->
  exists w',
    Longa.clean_previous_run_artifacts env w = (inr tt, w')
    /\ forall f_name, f_name ∈ Longa.files_to_clean -> fs w' !! f_name = None.
Proof.
  intros Hg. unfold Longa.clean_previous_run_artifacts.
  rewrite (bind_ok _ _ _ _ _ (print_run _ w)).
  set (w0 := Os.log _ w).
  destruct (cleanup_loop_granted env Longa.files_to_clean w0)
    as (w1 & Hrun & _ & Hall); [reflexivity|exact Hg|].
  rewrite (bind_ok _ _ _ _ _ Hrun).
  eexists. split; [reflexivity|]. exact Hall.
Qed.

(** The run up to the load, where the orchestrator's file is there and
    the successor's can be written. *)
Lemma write_successor_forward (raw : pybytes) (w : World) :
  fs w !! "longa.py" = Some raw ->
  (forall t, write_refused env t "longa1.py" = false) ->
  exists code wa,
    Longa.write_successor env w = (inr code, wa)
    /\ ((forall t name, remove_refused env t name = false) ->
        forall f_name,
          f_name ∈ ["longa2.py"; "longamax.py"; "loadedmax.py"] ->
          fs wa !! f_name = None).
Proof.
  intros Hraw Hw. unfold Longa.write_successor.
  destruct (cleanup_spec env w) as (w1 & Hclean & Hsteps & _).
  rewrite (bind_ok _ _ _ _ _ Hclean).
  destruct (time_sleep_spec env 1 w1) as (w2 & Hs2 & Hsl).
  rewrite (bind_ok _ _ _ _ _ Hsl).
  destruct (get_clean_ascii_code_spec env "longa.py" (Os.log (Slept 1) w2))
    as (w3 & Hs3 & Hcap).
  assert (fs w3 !! "longa.py" = Some raw) as Hraw3.
  { rewrite (silent_frame _ _ "longa.py" Hs3) by discriminate. cbn [fs Os.log].
    rewrite (silent_frame _ _ "longa.py" Hs2) by discriminate.
    rewrite <- Hraw.
    apply (steps_frame Seen.cleanup_only w w1 "longa.py" Hsteps);
      [discriminate|reflexivity|reflexivity]. }
  destruct Hcap as [[Hnone _]|(raw' & code & _ & _ & Hascii & Hc)].
  { rewrite Hraw3 in Hnone. discriminate. }
  rewrite (bind_ok _ _ _ _ _ Hc).
  destruct (write_text_granted env "longa1.py" (Agents.longa1_code code) w3 Hw
              (longa1_code_ascii code Hascii)) as (w4 & Hs4 & Hwr).
  rewrite (bind_ok _ _ _ _ _ Hwr).
  eexists _, _. split; [reflexivity|].
  intros Hg f_name Hf. cbn [fs Os.log Os.with_fs].
  destruct (cleanup_granted w Hg) as (w1' & Hclean' & Hall).
  rewrite Hclean in Hclean'. injection Hclean' as <-.
  rewrite lookup_insert_ne.
  2:{ intros <-. apply list_elem_of_In in Hf. cbn in Hf. intuition discriminate. }
  apply (silent_absent _ _ f_name Hs4), (silent_absent _ _ f_name Hs3).
  cbn [fs Os.log]. apply (silent_absent _ _ f_name Hs2), Hall.
  now apply list_elem_of_further.
Qed.

(** The success branch, where nothing it needs is refused. *)
Lemma branch_true_granted (w : World) :
  is_Some (fs w !! "longa.py") ->
  (forall t, write_refused env t "longa2.py" = false) ->
  (forall t, remove_refused env t "longa.py" = false) ->
  exists w',
    Longa.branch env true w = (inr tt, w') /\ fs w' !! "longa.py" = None.
Proof.
  intros Hthere Hw Hr. unfold Longa.branch.
  destruct (time_sleep_spec env 1 w) as (w1 & Hs1 & Hsl).
  rewrite (bind_ok _ _ _ _ _ Hsl). unfold Longa.success_path.
  destruct (write_text_granted env "longa2.py" Agents.longa2_content
              (Os.log (Slept 1) w1) Hw longa2_content_ascii) as (w2 & Hs2 & Hwr).
  rewrite (bind_ok _ _ _ _ _ Hwr).
  set (w3 := Os.log _ _).
  rewrite (bind_ok _ _ _ _ _ (print_run _ w3)).
  set (w4 := Os.log _ w3). unfold Longa.self_destruct.
  destruct (os_remove_granted env "longa.py" w4 Hr)
    as (w5 & Hs5 & [[Hgone _]|[_ Hrm]]).
  { exfalso. rewrite (silent_frame _ _ "longa.py" Hs5) in Hgone by discriminate.
    subst w4 w3. cbn [fs Os.log Os.with_fs] in Hgone.
    rewrite lookup_insert_ne in Hgone by discriminate.
    rewrite (silent_frame _ _ "longa.py" Hs2) in Hgone by discriminate.
    cbn [fs Os.log] in Hgone.
    rewrite (silent_frame _ _ "longa.py" Hs1) in Hgone by discriminate.
    rewrite Hgone in Hthere. now destruct Hthere. }
  rewrite (try_ok _ _ _ _ _ (bind_ok _ _ _ _ _ Hrm)).
  eexists. split; [reflexivity|]. cbn [fs Os.log Os.with_fs].
  apply lookup_delete_eq.
Qed.

End Forward.

Section Undisturbed.
Variable env : Env.
Hypothesis no_watcher : forall t, watcher_polls env t = false.

Lemma tick_quiet (w : World) :
  Os.tick env w = (inr tt, Os.advance (Os.advance w)).
Proof. unfold Os.tick. cbv zeta. now rewrite no_watcher. Qed.

Lemma after_tick_quiet {A} (m : M A) (w : World) :
  (Os.tick env;; m) w = m (Os.advance (Os.advance w)).
Proof. now rewrite (bind_ok _ _ _ _ _ (tick_quiet w)). Qed.

Lemma time_sleep_quiet (seconds : nat) (w : World) :
  Os.time_sleep env seconds w
  = (inr tt, Os.log (Slept seconds) (Os.advance (Os.advance w))).
Proof. unfold Os.time_sleep. now rewrite after_tick_quiet. Qed.

Lemma os_path_exists_quiet (name : string) (w : World) :
  Os.os_path_exists env name w
  = (inr (bool_decide (is_Some (fs w !! name))), Os.advance (Os.advance w)).
Proof. unfold Os.os_path_exists. now rewrite after_tick_quiet. Qed.

Lemma read_bytes_quiet (name : string) (data : pybytes) (w : World) :
  fs w !! name = Some data ->
  Os.read_bytes env name w = (inr data, Os.advance (Os.advance w)).
Proof.
  intros H. unfold Os.read_bytes. rewrite after_tick_quiet.
  unfold Os.read_now. cbn [fs Os.advance]. now rewrite H.
Qed.

Lemma write_text_quiet (name : string) (text : pystr) (w : World) :
  (forall t, write_refused env t name = false) ->
  Forall Text.is_ascii text ->
  Os.write_text env name text w
  = (inr tt,
     Os.log (Wrote name (map Text.chr8 text))
       (Os.with_fs (<[name := map Text.chr8 text]> (fs w))
          (Os.advance (Os.advance w)))).
Proof.
  intros Hg Ha. unfold Os.write_text. rewrite after_tick_quiet.
  unfold Os.write_now. now rewrite Hg, encode_utf8_ascii.
Qed.

Lemma os_remove_quiet (name : string) (w : World) :
  (forall t, remove_refused env t name = false) ->
  is_Some (fs w !! name) ->
  Os.os_remove env name w
  = (inr tt,
     Os.log (Removed name)
       (Os.with_fs (delete name (fs w)) (Os.advance (Os.advance w)))).
Proof.
  intros Hg [data H]. unfold Os.os_remove. rewrite after_tick_quiet.
  unfold Os.remove_now. cbn [fs Os.advance]. now rewrite H, Hg.
Qed.

Lemma cache_bytecode_quiet (source : pybytes) (w : World) :
  exists wc cache,
    Os.cache_bytecode env source w = (inr tt, wc)
    /\ trace wc = trace w ++ cache
    /\ ((cache = [] /\ fs wc = fs w)
        \/ (cache = [Wrote "__pycache__" (bytecode env source)]
            /\ fs wc = <["__pycache__" := bytecode env source]> (fs w))).
Proof.
  unfold Os.cache_bytecode. rewrite after_tick_quiet. unfold Os.cache_now.
  destruct (cache_refused env _).
  - eexists _, []. split; [reflexivity|]. cbn [trace fs Os.advance].
    rewrite app_nil_r. split; [reflexivity|]. now left.
  - eexists _, _. split; [reflexivity|]. split; [reflexivity|]. now right.
Qed.

Lemma exec_longa1_quiet (code : pystr) (w : World) :
  Forall Text.is_ascii code ->
  fs w !! "longa1.py" = Some (map Text.chr8 (Agents.longa1_code code)) ->
  (forall t, write_refused env t "longa.py" = false) ->
  (forall t, remove_refused env t "longa1.py" = false) ->
  let source := map Text.chr8 (Agents.longa1_code code) in
  exists w' cache m,
    Longa.exec_module env "longa1.py" w = (inr tt, w')
    /\ ((cache = [] /\ m = fs w)
        \/ (cache = [Wrote "__pycache__" (bytecode env source)]
            /\ m = <["__pycache__" := bytecode env source]> (fs w)))
    /\ fs w' = delete "longa1.py" (<["longa.py" := map Text.chr8 code]> m)
    /\ trace w'
       = trace w ++ cache
         ++ [Wrote "longa.py" (map Text.chr8 code);
             Removed "longa1.py"; Printed Seen.successor_done].
Proof.
  intros Hascii Hfs Hw Hr source. unfold Longa.exec_module.
  rewrite (bind_ok _ _ _ _ _ (read_bytes_quiet _ _ w Hfs)).
  rewrite (compiles_longa1_code code Hascii).
  destruct (cache_bytecode_quiet source (Os.advance (Os.advance w)))
    as (wc & cache & Hcache & Htc & Hcases).
  rewrite (bind_ok _ _ _ _ _ Hcache).
  rewrite (interp_longa1_code env _ code Hascii). unfold Generated.longa1_main.
  rewrite (bind_ok _ _ _ _ _ (write_text_quiet "longa.py" code _ Hw Hascii)).
  set (w1 := Os.log _ _).
  assert (fs wc !! "longa1.py" = Some source) as Hfsc.
  { destruct Hcases as [[_ ->]|[_ ->]]; [exact Hfs|].
    rewrite lookup_insert_ne by discriminate. exact Hfs. }
  assert (is_Some (fs w1 !! "longa1.py")) as Hthere.
  { subst w1. cbn [fs Os.log Os.with_fs Os.advance].
    rewrite lookup_insert_ne by discriminate. rewrite Hfsc. eauto. }
  rewrite (try_ok _ _ _ _ _
             (bind_ok _ _ _ _ _ (os_remove_quiet "longa1.py" w1 Hr Hthere))).
  eexists _, cache, (fs wc). split; [reflexivity|].
  split; [destruct Hcases as [[-> ->]|[-> ->]]; [now left|now right]|].
  split; [reflexivity|].
  subst w1. cbn [trace Os.log Os.with_fs Os.advance]. rewrite Htc.
  cbn [trace Os.advance]. now rewrite <- !app_assoc.
Qed.

Lemma import_longa1_quiet (code : pystr) (w : World) :
  Forall Text.is_ascii code ->
  fs w !! "longa1.py" = Some (map Text.chr8 (Agents.longa1_code code)) ->
  (forall t, write_refused env t "longa.py" = false) ->
  (forall t, remove_refused env t "longa1.py" = false) ->
  let source := map Text.chr8 (Agents.longa1_code code) in
  exists w' cache m,
    Longa.import_longa1 env w = (inr true, w')
    /\ ((cache = [] /\ m = fs w)
        \/ (cache = [Wrote "__pycache__" (bytecode env source)]
            /\ m = <["__pycache__" := bytecode env source]> (fs w)))
    /\ fs w' = delete "longa1.py" (<["longa.py" := map Text.chr8 code]> m)
    /\ trace w'
       = trace w ++ [Slept 1] ++ cache
         ++ [Wrote "longa.py" (map Text.chr8 code);
             Removed "longa1.py"; Printed Seen.successor_done;
             Printed "Step 2 complete: longa1.py imported successfully."].
Proof.
  intros Hascii Hfs Hw Hr source. unfold Longa.import_longa1.
  rewrite (bind_ok _ _ _ _ _ (time_sleep_quiet 1 w)).
  set (w1 := Os.log _ _).
  rewrite (bind_ok _ _ _ _ _ (os_path_exists_quiet "longa1.py" w1)).
  assert (fs w1 !! "longa1.py"
          = Some (map Text.chr8 (Agents.longa1_code code))) as Hfs1 by exact Hfs.
  case_bool_decide as Hfound; [|destruct Hfound; rewrite Hfs1; eauto].
  destruct (exec_longa1_quiet code (Os.advance (Os.advance w1)) Hascii Hfs1 Hw Hr)
    as (w2 & cache & m & Hex & Hcases & Hfs2 & Ht2).
  rewrite (try_ok _ _ _ _ _ (bind_ok _ _ _ _ _ Hex)).
  eexists _, cache, m. split; [reflexivity|]. split; [exact Hcases|].
  split; [exact Hfs2|].
  cbn [trace Os.log]. rewrite Ht2. subst w1. cbn [trace Os.log Os.advance].
  now rewrite <- !app_assoc.
Qed.

End Undisturbed.

(** X7. A run that nothing disturbs regenerates the orchestrator and
    leaves the marker alone behind.  Where no watcher runs and no write
    and no deletion is refused, a run started in a directory that holds
    the orchestrator's file captures it, loads the successor with
    success, finds at the branch decision its own file rewritten with the
    captured text, and ends normally; at the end the orchestrator's file
    and the successor's are gone, the marker holds its two lines, the two
    recovery scripts are absent, the loader's cache holds the bytecode
    of the successor unless it could not be written, and every other
    entry is as the run found it. *)
Theorem undisturbed_run_leaves_the_marker
    (env : Env) (w0 : World) (raw : pybytes) :
  (forall t, watcher_polls env t = false) ->
  (forall t name, remove_refused env t name = false) ->
  (forall t name, write_refused env t name = false) ->
  fs w0 !! "longa.py" = Some raw ->
  exists code,
    Capture.clean_ascii_code raw = Some code
    /\ fst (Longa.until_branch env w0) = inr (code, true)
    /\ fs (snd (Longa.until_branch env w0)) !! "longa.py"
       = Some (map Text.chr8 code)
    /\ fst (Longa.main env w0) = inr tt
    /\ fs (snd (Longa.main env w0)) !! "longa.py" = None
    /\ fs (snd (Longa.main env w0)) !! "longa1.py" = None
    /\ fs (snd (Longa.main env w0)) !! "longa2.py"
       = Some (map Text.chr8 Agents.longa2_content)
    /\ fs (snd (Longa.main env w0)) !! "longamax.py" = None
    /\ fs (snd (Longa.main env w0)) !! "loadedmax.py" = None
    /\ (fs (snd (Longa.main env w0)) !! "__pycache__"
        = Some (bytecode env (map Text.chr8 (Agents.longa1_code code)))
        \/ fs (snd (Longa.main env w0)) !! "__pycache__"
           = fs w0 !! "__pycache__")
    /\ forall f_name,
         f_name ∉ Seen.own_names ->
         f_name <> "__pycache__" ->
         fs (snd (Longa.main env w0)) !! f_name = fs w0 !! f_name.
Proof.
  intros Hquiet Hrm Hwr Hraw.
  destruct (write_successor_forward env raw w0 Hraw (fun t => Hwr t "longa1.py"))
    as (code & wa & Hws & Hclear).
  specialize (Hclear Hrm).
  destruct (write_successor_spec env w0 wa code Hws)
    as (raw' & Hraw' & Hcode & Hascii & _ & Hsucc & Hprep & _).
  rewrite Hraw in Hraw'. injection Hraw' as <-.
  destruct (import_longa1_quiet env Hquiet code wa Hascii Hsucc
              (fun t => Hwr t "longa.py") (fun t => Hrm t "longa1.py"))
    as (w1 & cache & m & Himp & Hcache & Hfs1 & _).
  assert (Longa.until_branch env w0 = (inr (code, true), w1)) as Huntil.
  { unfold Longa.until_branch.
    now rewrite (bind_ok _ _ _ _ _ Hws), (bind_ok _ _ _ _ _ Himp). }
  assert (fs w1 !! "longa.py" = Some (map Text.chr8 code)) as Hlonga.
  { rewrite Hfs1, lookup_delete_ne by discriminate. apply lookup_insert_eq. }
  destruct (branch_true_granted env w1) as (w2 & Hbr & Hgone);
    [rewrite Hlonga; eauto|intros t; apply Hwr|intros t; apply Hrm|].
  assert (Longa.main env w0 = (inr tt, w2)) as Hmain.
  { unfold Longa.main.
    now rewrite (bind_ok _ _ _ _ _ Hws), (bind_ok _ _ _ _ _ Himp). }
  pose proof (runs_branch_true env w1) as Hsteps.
  destruct (branch_true_spec env w1) as (r & w2' & evs & Hrun & _ & Hcases & Hframe).
  rewrite Hbr in Hrun. injection Hrun as <- <-.
  rewrite Hbr in Hsteps. cbn [snd] in Hsteps.
  assert (forall f, f ≠ "longa.py" -> f ≠ "longa1.py" -> f ≠ "__pycache__" ->
                    fs w1 !! f = fs wa !! f) as Hload.
  { intros f H1 H2 H3. rewrite Hfs1, lookup_delete_ne, lookup_insert_ne by auto.
    destruct Hcache as [[_ ->]|[_ ->]]; [reflexivity|].
    now rewrite lookup_insert_ne by auto. }
  assert (forall f, f ≠ "longa1.py" -> f ∉ Longa.files_to_clean ->
                    fs wa !! f = fs w0 !! f) as Hbefore.
  { intros f H2 Hf. apply (steps_frame Seen.preparing w0 wa f Hprep H2).
    - intros data. cbn. now apply String.eqb_neq.
    - cbn. now apply bool_decide_eq_false. }
  exists code. rewrite Huntil, Hmain. cbn [fst snd].
  split; [exact Hcode|]. split; [reflexivity|]. split; [exact Hlonga|].
  split; [reflexivity|]. split; [exact Hgone|].
  split.
  { apply (steps_absent Seen.succeeding w1 w2 "longa1.py" Hsteps); [reflexivity|].
    rewrite Hfs1. apply lookup_delete_eq. }
  split.
  { destruct Hcases as [[Hr _]|(_ & Hmarker & _)]; [discriminate Hr|exact Hmarker]. }
  split.
  { rewrite Hframe, Hload by discriminate. apply Hclear.
    apply list_elem_of_further. left. }
  split.
  { rewrite Hframe, Hload by discriminate. apply Hclear.
    do 2 apply list_elem_of_further. left. }
  split.
  { rewrite Hframe, Hfs1, lookup_delete_ne, lookup_insert_ne by discriminate.
    destruct Hcache as [[_ ->]|[_ ->]].
    - right. apply Hbefore; [discriminate|].
      intros Hin. apply list_elem_of_In in Hin. cbn in Hin.
      intuition discriminate.
    - left. apply lookup_insert_eq. }
  intros f Hf Hc.
  assert (f ≠ "longa.py" /\ f ≠ "longa1.py" /\ f ≠ "longa2.py"
          /\ f ≠ "longamax.py" /\ f ≠ "loadedmax.py") as (H1 & H2 & H3 & H4 & H5).
  { repeat split; intros ->; apply Hf; unfold Seen.own_names;
      repeat (first [left|apply list_elem_of_further]). }
  rewrite Hframe, Hload by assumption.
  apply Hbefore; [exact H2|]. intros Hin.
  apply list_elem_of_In in Hin. cbn in Hin. intuition congruence.
Qed.

Lemma undisturbed_run_leaves_the_marker_witness :
  exists code,
    Capture.clean_ascii_code Scenario.source = Some code
    /\ fst (Longa.until_branch Scenario.quiet (Longa.boot Scenario.fresh []))
       = inr (code, true)
    /\ fs (snd (Longa.until_branch Scenario.quiet (Longa.boot Scenario.fresh [])))
       !! "longa.py"
       = Some (map Text.chr8 code)
    /\ fst (Longa.main Scenario.quiet (Longa.boot Scenario.fresh [])) = inr tt
    /\ fs (snd (Longa.main Scenario.quiet (Longa.boot Scenario.fresh [])))
       !! "longa.py" = None
    /\ fs (snd (Longa.main Scenario.quiet (Longa.boot Scenario.fresh [])))
       !! "longa1.py" = None
    /\ fs (snd (Longa.main Scenario.quiet (Longa.boot Scenario.fresh [])))
       !! "longa2.py"
       = Some (map Text.chr8 Agents.longa2_content)
    /\ fs (snd (Longa.main Scenario.quiet (Longa.boot Scenario.fresh [])))
       !! "longamax.py" = None
    /\ fs (snd (Longa.main Scenario.quiet (Longa.boot Scenario.fresh [])))
       !! "loadedmax.py" = None
    /\ (fs (snd (Longa.main Scenario.quiet (Longa.boot Scenario.fresh [])))
        !! "__pycache__"
        = Some (bytecode Scenario.quiet
                  (map Text.chr8 (Agents.longa1_code code)))
        \/ fs (snd (Longa.main Scenario.quiet (Longa.boot Scenario.fresh [])))
           !! "__pycache__"
           = fs (Longa.boot Scenario.fresh []) !! "__pycache__")
    /\ forall f_name,
         f_name ∉ Seen.own_names ->
         f_name <> "__pycache__" ->
         fs (snd (Longa.main Scenario.quiet (Longa.boot Scenario.fresh [])))
         !! f_name
         = fs (Longa.boot Scenario.fresh []) !! f_name.
Proof.
  apply (undisturbed_run_leaves_the_marker Scenario.quiet
           (Longa.boot Scenario.fresh []) Scenario.source).
  - intros t. reflexivity.
  - intros t name. reflexivity.
  - intros t name. reflexivity.
  - vm_compute. reflexivity.
Defined.

Section Watched.
Variable env : Env.
Hypothesis polls : forall t, watcher_polls env t = true.
Hypothesis removable : forall t, remove_refused env t "longa1.py" = false.

(** A turn of the watcher that is allowed to delete. *)
Lemma delete1_poll_granted (w : World) :
  fs (snd (Os.delete1_poll env w)) = delete "longa1.py" (fs w).
Proof.
  unfold Os.delete1_poll. rewrite bind_run. unfold Os.exists_now.
  case_bool_decide as Hfound.
  - destruct Hfound as [data Hdata].
    assert (Os.remove_now env "longa1.py" w
            = (inr tt, Os.log (Removed "longa1.py")
                         (Os.with_fs (delete "longa1.py" (fs w)) w))) as Hrm.
    { unfold Os.remove_now. now rewrite Hdata, removable. }
    now rewrite (try_ok _ _ _ _ _ (bind_ok _ _ _ _ _ Hrm)).
  - cbn [snd fs Os.print Os.log]. symmetry. apply delete_id.
    destruct (fs w !! "longa1.py") eqn:E; [|reflexivity].
    destruct Hfound. eauto.
Qed.

Lemma tick_watched (w : World) :
  Os.tick env w
  = (inr tt,
     Os.advance (Os.with_fs (delete "longa1.py" (fs w)) (Os.advance w))).
Proof.
  unfold Os.tick. cbv zeta. now rewrite polls, delete1_poll_granted.
Qed.

Lemma import_longa1_watched (w : World) :
  exists w',
    Longa.import_longa1 env w = (inr false, w')
    /\ trace w' = trace w ++ [Slept 1; Printed "Step 2: longa1.py not found."]
    /\ fs w' = delete "longa1.py" (fs w).
Proof.
  unfold Longa.import_longa1, Os.time_sleep, Os.os_path_exists.
  rewrite (bind_ok _ _ _ _ _ (bind_ok _ _ _ _ _ (tick_watched w))).
  set (w1 := Os.log _ _).
  rewrite (bind_ok _ _ _ _ _ (bind_ok _ _ _ _ _ (tick_watched w1))).
  unfold Os.exists_now. cbn [fs Os.advance Os.with_fs].
  case_bool_decide as Hfound.
  { exfalso. rewrite lookup_delete_eq in Hfound. now destruct Hfound. }
  eexists. split; [reflexivity|]. subst w1.
  cbn [fs trace Os.log Os.advance Os.with_fs]. split.
  - now rewrite <- app_assoc.
  - apply delete_id, lookup_delete_eq.
Qed.

End Watched.

Section Contained.
Variable env : Env.

Lemma runs_recovery_B : runs Seen.recovery_B_only (Longa.recovery_B env).
Proof.
  unfold Longa.recovery_B.
  apply runs_bind; [now apply runs_print|intros _].
  apply runs_bind; [|intros _; now apply runs_print].
  apply runs_try_except; [|now apply runs_except_run].
  intros w1.
  destruct (write_text_spec env "loadedmax.py" Agents.loadedmax_code_content w1
              loadedmax_code_content_ascii) as (wa & Hs & [Hw|Hw]).
  { rewrite (bind_raised _ _ _ _ _ Hw). now apply steps_silent. }
  rewrite (bind_ok _ _ _ _ _ Hw).
  set (wb := Os.log _ _).
  assert (steps Seen.recovery_B_only w1 wb) as Hb.
  { etrans; [apply steps_silent; exact Hs|].
    now apply (steps_event Seen.recovery_B_only wa
                 (Wrote "loadedmax.py" (map Text.chr8 Agents.loadedmax_code_content))). }
  etrans; [exact Hb|].
  rewrite (bind_ok _ _ _ _ _ (print_run _ wb)).
  etrans; [now apply (steps_log Seen.recovery_B_only wb (Printed "loadedmax.py created."))|].
  set (wc := Os.log _ wb).
  rewrite (bind_ok _ _ _ _ _ (print_run _ wc)).
  etrans; [now apply (steps_log Seen.recovery_B_only wc
                        (Printed "Attempting to run loadedmax.py..."))|].
  set (wd := Os.log _ wc).
  assert (fs wd !! "loadedmax.py"
          = Some (map Text.chr8 Agents.loadedmax_code_content)) as Hfs.
  { subst wd wc wb. cbn [fs Os.log Os.with_fs]. apply lookup_insert_eq. }
  apply steps_bind; [|intros _ we _; now apply steps_log].
  unfold Longa.run_python, Os.subprocess_run.
  destruct (after_tick env
              (Os.run_now env
                 (Os.python env (Generated.interp env) "loadedmax.py")
                 ["python"; "loadedmax.py"]) wd) as (we & Hse & ->).
  etrans; [apply steps_silent; exact Hse|].
  apply steps_run_now; [reflexivity|reflexivity|].
  apply (python_known _ _ _ Agents.loadedmax_code_content
           (Generated.loadedmax_main env "loadedmax.py")); [discriminate| |
    apply interp_loadedmax_code_content|].
  - cbn [fs Os.log]. now rewrite (silent_frame _ _ "loadedmax.py" Hse).
  - apply runs_loadedmax_main; try reflexivity.
    intros name data Hpre. cbn [Seen.recovery_B_only]. rewrite Hpre.
    apply orb_true_r.
Qed.

(** *** The whole run *)

Lemma own_name (name : string) :
  name ∈ Seen.own_names -> bool_decide (name ∈ Seen.own_names) = true.
Proof. apply bool_decide_eq_true_2. Qed.

Lemma runs_interp_own (__file__ : string) (source : pybytes) :
  __file__ ∈ Seen.own_names ->
  runs Seen.of_run (Generated.interp env __file__ source).
Proof.
  intros Hown. unfold Generated.interp.
  destruct (Text.decode_ascii source) as [text|]; [|apply runs_raise].
  destruct (Agents.recognise text) as [[code| |code|]|]; cbn [Generated.run_agent].
  - apply runs_longa1_main; [reflexivity|reflexivity|now apply own_name].
  - now apply runs_print.
  - apply runs_longamax_main;
      [reflexivity|reflexivity|reflexivity|now apply own_name|reflexivity].
  - apply runs_loadedmax_main;
      [reflexivity| |now apply own_name|reflexivity|reflexivity].
    intros name data Hpre. cbn [Seen.of_run]. now rewrite Hpre, orb_true_r.
  - apply runs_raise.
Qed.

Lemma runs_run_python_own (script : string) :
  script ∈ Seen.own_names -> runs Seen.of_run (Longa.run_python env script).
Proof.
  intros Hown. unfold Longa.run_python.
  apply runs_subprocess_run; [reflexivity|reflexivity|].
  intros w. unfold Os.python.
  pose proof (runs_read_bytes env Seen.of_run script w) as Hr.
  destruct (Os.read_bytes env script w) as [[e|source] w1]; cbn in *; [exact Hr|].
  pose proof (runs_interp_own script source Hown w1) as Hi.
  destruct (Generated.interp env script source w1) as [[e|a] w2]; cbn in *;
    (etrans; [exact Hr|exact Hi]).
Qed.

Lemma runs_get_clean_ascii_code (ok : event -> bool) (filepath : string) :
  runs ok (Longa.get_clean_ascii_code env filepath).
Proof.
  unfold Longa.get_clean_ascii_code.
  apply runs_bind; [apply runs_read_bytes|intros raw].
  destruct (Capture.clean_ascii_code raw); [apply runs_ret|apply runs_raise].
Qed.

Lemma runs_main : runs Seen.of_run (Longa.main env).
Proof.
  assert (forall done after, runs Seen.of_run (Longa.self_destruct env done after))
    as Hclose by (intros; now apply runs_self_destruct).
  unfold Longa.main. apply runs_bind; [|intros _; apply runs_bind].
  - unfold Longa.write_successor. apply runs_bind.
    { intros w. eapply steps_mono; [|apply runs_clean_previous_run_artifacts].
      intros [line|n|name data|name|argv|argv rc|argv]; cbn; try reflexivity;
        try discriminate.
      intros Hin. apply bool_decide_eq_true_1 in Hin. apply own_name.
      now apply list_elem_of_further. }
    intros _. apply runs_bind; [now apply runs_time_sleep|intros _].
    apply runs_bind; [apply runs_get_clean_ascii_code|intros code].
    apply runs_bind; [now apply runs_write_text|intros _].
    apply runs_bind; [now apply runs_print|intros _; apply runs_ret].
  - unfold Longa.import_longa1.
    apply runs_bind; [now apply runs_time_sleep|intros _].
    apply runs_bind; [apply runs_os_path_exists|intros found].
    destruct found.
    + apply runs_try_except.
      * apply runs_bind.
        { unfold Longa.exec_module.
          apply runs_bind; [apply runs_read_bytes|intros source].
          apply runs_bind.
          { destruct (Generated.compiles source);
              [now apply runs_cache_bytecode|apply runs_ret]. }
          intros _. apply runs_interp_own. unfold Seen.own_names.
          apply list_elem_of_further. left. }
        intros _. apply runs_bind; [now apply runs_print|intros _; apply runs_ret].
      * apply runs_except_Exception. intros e.
        apply runs_bind; [now apply runs_print|intros _; apply runs_ret].
    + apply runs_bind; [now apply runs_print|intros _; apply runs_ret].
  - intros longa1_imported. unfold Longa.branch.
    apply runs_bind; [now apply runs_time_sleep|intros _].
    destruct longa1_imported.
    + unfold Longa.success_path.
      apply runs_bind; [now apply runs_write_text|intros _].
      apply runs_bind; [now apply runs_print|intros _; apply Hclose].
    + unfold Longa.failure_path, Longa.recovery_A, Longa.recovery_B.
      apply runs_bind.
      { apply runs_bind; [now apply runs_print|intros _].
        apply runs_bind; [apply runs_get_clean_ascii_code|intros code].
        apply runs_bind; [now apply runs_write_text|intros _].
        apply runs_bind; [now apply runs_print|intros _].
        apply runs_bind; [now apply runs_print|intros _].
        apply runs_try_except; [|now apply runs_except_run].
        apply runs_bind; [|intros _; now apply runs_print].
        apply runs_run_python_own. unfold Seen.own_names.
        do 3 apply list_elem_of_further. left. }
      intros _. apply runs_bind; [|intros _; apply Hclose].
      apply runs_bind; [now apply runs_print|intros _].
      apply runs_bind; [|intros _; now apply runs_print].
      apply runs_try_except; [|now apply runs_except_run].
      apply runs_bind; [now apply runs_write_text|intros _].
      apply runs_bind; [now apply runs_print|intros _].
      apply runs_bind; [now apply runs_print|intros _].
      apply runs_bind; [|intros _; now apply runs_print].
      apply runs_run_python_own. unfold Seen.own_names.
      do 4 apply list_elem_of_further. left.
Qed.

End Contained.

(** X8. While the watcher of [delete1.py] takes every turn and may delete
    the successor's file, the load never succeeds: a run started in a
    directory that holds the orchestrator's file, and allowed to write
    the successor, reaches the branch decision with [longa1_imported]
    false, having printed that [longa1.py] was not found right after the
    pause; the successor's file is gone and the orchestrator's file is
    the one the run found, so the run goes on with the failure path. *)
Theorem watcher_defeats_the_load (env : Env) (w0 : World) (raw : pybytes) :
  (forall t, watcher_polls env t = true) ->
  (forall t, remove_refused env t "longa1.py" = false) ->
  (forall t, write_refused env t "longa1.py" = false) ->
  fs w0 !! "longa.py" = Some raw ->
  exists code,
    Capture.clean_ascii_code raw = Some code
    /\ fst (Longa.until_branch env w0) = inr (code, false)
    /\ trace (snd (Longa.until_branch env w0))
       = trace (snd (Longa.write_successor env w0))
         ++ [Slept 1; Printed "Step 2: longa1.py not found."]
    /\ fs (snd (Longa.until_branch env w0)) !! "longa1.py" = None
    /\ fs (snd (Longa.until_branch env w0)) !! "longa.py" = Some raw
    /\ Longa.main env w0
       = Longa.branch env false (snd (Longa.until_branch env w0)).
Proof.
  intros Hpolls Hrm Hwr Hraw.
  destruct (write_successor_forward env raw w0 Hraw Hwr) as (code & wa & Hws & _).
  destruct (write_successor_spec env w0 wa code Hws)
    as (raw' & Hraw' & Hcode & _ & Hlonga & _).
  rewrite Hraw in Hraw'. injection Hraw' as <-.
  destruct (import_longa1_watched env Hpolls Hrm wa) as (w1 & Himp & Ht & Hfs).
  assert (Longa.until_branch env w0 = (inr (code, false), w1)) as Huntil.
  { unfold Longa.until_branch.
    now rewrite (bind_ok _ _ _ _ _ Hws), (bind_ok _ _ _ _ _ Himp). }
  exists code. rewrite Huntil, Hws. cbn [fst snd].
  split; [exact Hcode|]. split; [reflexivity|]. split; [exact Ht|].
  split; [rewrite Hfs; apply lookup_delete_eq|].
  split; [rewrite Hfs, lookup_delete_ne by discriminate; exact Hlonga|].
  unfold Longa.main.
  now rewrite (bind_ok _ _ _ _ _ Hws), (bind_ok _ _ _ _ _ Himp).
Qed.

Lemma watcher_defeats_the_load_witness :
  exists code,
    Capture.clean_ascii_code Scenario.source = Some code
    /\ fst (Longa.until_branch Scenario.watched (Longa.boot Scenario.fresh []))
       = inr (code, false)
    /\ trace (snd (Longa.until_branch Scenario.watched
                     (Longa.boot Scenario.fresh [])))
       = trace (snd (Longa.write_successor Scenario.watched
                       (Longa.boot Scenario.fresh [])))
         ++ [Slept 1; Printed "Step 2: longa1.py not found."]
    /\ fs (snd (Longa.until_branch Scenario.watched
                  (Longa.boot Scenario.fresh []))) !! "longa1.py" = None
    /\ fs (snd (Longa.until_branch Scenario.watched
                  (Longa.boot Scenario.fresh []))) !! "longa.py"
       = Some Scenario.source
    /\ Longa.main Scenario.watched (Longa.boot Scenario.fresh [])
       = Longa.branch Scenario.watched false
           (snd (Longa.until_branch Scenario.watched
                   (Longa.boot Scenario.fresh []))).
Proof.
  apply (watcher_defeats_the_load Scenario.watched
           (Longa.boot Scenario.fresh []) Scenario.source).
  - intros t. reflexivity.
  - intros t. reflexivity.
  - intros t. reflexivity.
  - vm_compute. reflexivity.
Defined.

(** X9. Recovery-B is contained.  The section of lines 200-252 never
    raises into the orchestrator, whatever is refused and whatever the
    selector does; it starts no detached process; and of the directory it
    touches [loadedmax.py] and a [longastop] file of the selector only
    (the successor's file is the watcher's to delete): the orchestrator's
    file and every other entry are as before. *)
Theorem recovery_B_is_contained (env : Env) (w : World) :
  fst (Longa.recovery_B env w) = inr tt
  /\ (forall f_name,
         f_name ≠ "loadedmax.py" -> f_name ≠ "longa1.py" ->
         String.prefix "longastop" f_name = false ->
         fs (snd (Longa.recovery_B env w)) !! f_name = fs w !! f_name)
  /\ fs (snd (Longa.recovery_B env w)) !! "longa.py" = fs w !! "longa.py"
  /\ exists evs,
       trace (snd (Longa.recovery_B env w)) = trace w ++ evs
       /\ Forall (fun e => Seen.recovery_B_only e = true) evs
       /\ Seen.spawns evs = 0%nat.
Proof.
  pose proof (runs_recovery_B env w) as Hsteps.
  destruct (recovery_B_spec env w) as (w' & evsB & Hrun & _ & _).
  rewrite Hrun in *. cbn [fst snd] in *.
  assert (forall f_name,
             f_name ≠ "loadedmax.py" -> f_name ≠ "longa1.py" ->
             String.prefix "longastop" f_name = false ->
             fs w' !! f_name = fs w !! f_name) as Hframe.
  { intros f H1 H2 H3.
    apply (steps_frame Seen.recovery_B_only w w' f Hsteps H2).
    - intros data. cbn. rewrite H3, orb_false_r. now apply String.eqb_neq.
    - cbn. now apply String.eqb_neq. }
  split; [reflexivity|]. split; [exact Hframe|].
  split; [now apply Hframe|].
  apply steps_trace in Hsteps as (evs & Ht & Hok).
  exists evs. split; [exact Ht|]. split; [exact Hok|].
  now apply (spawns_none Seen.recovery_B_only).
Qed.

(** X10. A run works on its own files.  Whatever the environment does and
    whichever branch is taken, a run, with the scripts it loads and the
    processes it waits for, writes and removes no entry of the directory
    other than its five names ([longa.py] and the four scripts it
    generates), a [longastop] file of the selector and the cache of the
    module loader, [__pycache__]: every other entry is at the end what it
    was at the start. *)
Theorem run_touches_only_its_own_files (env : Env) (w : World) (f_name : string) :
  f_name ∉ Seen.own_names ->
  String.prefix "longastop" f_name = false ->
  f_name <> "__pycache__" ->
  fs (snd (Longa.main env w)) !! f_name = fs w !! f_name.
Proof.
  intros Hout Hpre Hcache.
  assert (bool_decide (f_name ∈ Seen.own_names) = false) as Hno
      by now apply bool_decide_eq_false.
  apply (steps_frame Seen.of_run w _ f_name (runs_main env w)).
  - intros ->. apply Hout. unfold Seen.own_names.
    apply list_elem_of_further. left.
  - intros data. cbn [Seen.of_run]. rewrite Hno, Hpre.
    now apply String.eqb_neq.
  - exact Hno.
Qed.

Lemma run_touches_only_its_own_files_witness :
  fs (snd (Longa.main Scenario.watched
             (Longa.boot (Scenario.stale "notes.txt") [Some 3%Z])))
  !! "notes.txt"
  = fs (Longa.boot (Scenario.stale "notes.txt") [Some 3%Z]) !! "notes.txt".
Proof.
  apply (run_touches_only_its_own_files Scenario.watched
           (Longa.boot (Scenario.stale "notes.txt") [Some 3%Z]) "notes.txt").
  - intros Hin. apply list_elem_of_In in Hin. cbn in Hin.
    intuition discriminate.
  - reflexivity.
  - discriminate.
Defined.

(** ** The selector and Recovery-B *)

Section Selector.
Variable env : Env.

Lemma input_line (prompt : string) (line : option Z) (rest : list (option Z))
    (w : World) :
  stdin w = line :: rest ->
  Loadmax.input prompt w
  = (inr line, mkWorld (fs w) (trace w ++ [Printed prompt]) (now w) rest).
Proof.
  intros H. unfold Loadmax.input.
  rewrite (bind_ok _ _ _ _ _ (print_run _ w)). unfold Loadmax.readline.
  cbn [stdin Os.log]. now rewrite H.
Qed.

Lemma input_eof (prompt : string) (w : World) :
  stdin w = [] ->
  Loadmax.input prompt w = (inl EOFError, Os.log (Printed prompt) w).
Proof.
  intros H. unfold Loadmax.input.
  rewrite (bind_ok _ _ _ _ _ (print_run _ w)). unfold Loadmax.readline.
  cbn [stdin Os.log]. now rewrite H.
Qed.

(** A refused line costs one more turn of the loop. *)
Lemma select_loop_again (line : option Z) (later : list (option Z)) (w : World) :
  Seen.refused_line line = true ->
  stdin w = line :: later ->
  exists w1,
    Loadmax.select_loop (line :: later) w = Loadmax.select_loop later w1
    /\ stdin w1 = later /\ fs w1 = fs w
    /\ trace w1 = trace w ++ Seen.asked_again line.
Proof.
  intros Hl Hin. cbn [Loadmax.select_loop].
  rewrite (bind_ok _ _ _ _ _ (input_line _ line later w Hin)).
  destruct line as [choice|]; cbn in Hl.
  - apply negb_true_iff in Hl. rewrite Hl.
    eexists. split; [rewrite (bind_ok _ _ _ _ _ (print_run _ _)); reflexivity|].
    cbn [stdin fs trace Os.log]. now rewrite <- app_assoc.
  - eexists. split; [rewrite (bind_ok _ _ _ _ _ (print_run _ _)); reflexivity|].
    cbn [stdin fs trace Os.log]. now rewrite <- app_assoc.
Qed.

Lemma select_loop_accepts (n : Z) (rest bad : list (option Z)) :
  n ∈ Loadmax.options ->
  Forall (fun line => Seen.refused_line line = true) bad ->
  forall w,
    stdin w = bad ++ Some n :: rest ->
    exists w',
      Loadmax.select_loop (bad ++ Some n :: rest) w = (inr n, w')
      /\ stdin w' = rest /\ fs w' = fs w
      /\ trace w' = trace w ++ flat_map Seen.asked_again bad ++ [Seen.prompt].
Proof.
  intros Hn Hbad. induction Hbad as [|line bad Hl _ IH]; intros w Hin.
  - cbn [app Loadmax.select_loop] in *.
    rewrite (bind_ok _ _ _ _ _ (input_line _ _ _ w Hin)).
    rewrite bool_decide_eq_true_2 by exact Hn.
    eexists. split; [reflexivity|]. auto.
  - cbn [app] in *.
    destruct (select_loop_again line _ w Hl Hin) as (w1 & -> & Hin1 & Hfs1 & Ht1).
    destruct (IH w1 Hin1) as (w' & Hrun & Hrest & Hfs & Ht).
    exists w'. split; [exact Hrun|]. split; [exact Hrest|].
    split; [congruence|].
    rewrite Ht, Ht1. cbn [flat_map]. now rewrite <- !app_assoc.
Qed.

Lemma select_loop_eof (bad : list (option Z)) :
  Forall (fun line => Seen.refused_line line = true) bad ->
  forall w,
    stdin w = bad ->
    exists w',
      Loadmax.select_loop bad w = (inl EOFError, w')
      /\ fs w' = fs w
      /\ trace w' = trace w ++ flat_map Seen.asked_again bad ++ [Seen.prompt].
Proof.
  intros Hbad. induction Hbad as [|line bad Hl _ IH]; intros w Hin.
  - cbn [Loadmax.select_loop].
    rewrite (bind_raised _ _ _ _ _ (input_eof _ w Hin)).
    eexists. split; [reflexivity|]. auto.
  - destruct (select_loop_again line _ w Hl Hin) as (w1 & -> & Hin1 & Hfs1 & Ht1).
    destruct (IH w1 Hin1) as (w' & Hrun & Hfs & Ht).
    exists w'. split; [exact Hrun|]. split; [congruence|].
    rewrite Ht, Ht1. cbn [flat_map]. now rewrite <- !app_assoc.
Qed.

(** Whatever is typed, the loop ends on an option or at the end of the
    input. *)
Lemma select_loop_cases (pending : list (option Z)) (w : World) :
  exists r w',
    Loadmax.select_loop pending w = (r, w')
    /\ fs w' = fs w
    /\ (r = inl EOFError \/ exists n, r = inr n /\ n ∈ Loadmax.options).
Proof.
  revert w. induction pending as [|l later IH]; intros w; cbn [Loadmax.select_loop].
  - destruct (stdin w) as [|line rest] eqn:Hin.
    + rewrite (bind_raised _ _ _ _ _ (input_eof _ w Hin)).
      eexists _, _. split; [reflexivity|]. auto.
    + rewrite (bind_ok _ _ _ _ _ (input_line _ _ _ w Hin)).
      eexists _, _. split; [reflexivity|]. auto.
  - destruct (stdin w) as [|line rest] eqn:Hin.
    { rewrite (bind_raised _ _ _ _ _ (input_eof _ w Hin)).
      eexists _, _. split; [reflexivity|]. auto. }
    rewrite (bind_ok _ _ _ _ _ (input_line _ _ _ w Hin)).
    destruct line as [choice|].
    + case_bool_decide as Hopt.
      { eexists _, _. split; [reflexivity|]. split; [reflexivity|]. eauto. }
      rewrite (bind_ok _ _ _ _ _ (print_run _ _)).
      destruct (IH (Os.log
                      (Printed "Invalid selection. Please choose a number between 1 and 4.")
                      (mkWorld (fs w)
                         (trace w ++ [Printed "Enter your choice (1-4): "])
                         (now w) rest)))
        as (r & w' & Hrun & Hfs & Hr).
      exists r, w'. auto.
    + rewrite (bind_ok _ _ _ _ _ (print_run _ _)).
      destruct (IH (Os.log (Printed "Please enter a valid number.")
                      (mkWorld (fs w)
                         (trace w ++ [Printed "Enter your choice (1-4): "])
                         (now w) rest)))
        as (r & w' & Hrun & Hfs & Hr).
      exists r, w'. auto.
Qed.

(** [select_number] is the loop, after the menu. *)
Lemma select_number_run (w : World) :
  exists w1,
    Loadmax.select_number w = Loadmax.select_loop (stdin w) w1
    /\ stdin w1 = stdin w /\ fs w1 = fs w
    /\ trace w1 = trace w ++ Seen.menu.
Proof.
  unfold Loadmax.select_number.
  eexists. split; [reflexivity|].
  cbn [stdin fs trace Os.log]. split; [reflexivity|]. split; [reflexivity|].
  unfold Seen.menu. cbn [map Loadmax.options]. now rewrite <- !app_assoc.
Qed.

Lemma option_cases (n : Z) :
  n ∈ Loadmax.options -> n = 1%Z \/ n = 2%Z \/ n = 3%Z \/ n = 4%Z.
Proof.
  intros Hn. apply list_elem_of_In in Hn. cbn in Hn. intuition.
Qed.

Lemma longastop_text_ascii (n : Z) :
  n ∈ Loadmax.options -> Forall Text.is_ascii (Text.codes (Seen.longastop_text n)).
Proof.
  intros Hn.
  destruct (option_cases n Hn) as [-> |[-> |[-> | ->]]];
    apply ascii_check; vm_compute; reflexivity.
Qed.

(** The part of [loadmax.py] after the selection. *)
Lemma loadmax_main_run (w : World) :
  Loadmax.main env w
  = (selected_num ← Loadmax.select_number;
     Os.print ("You selected: " +:+ Loadmax.str_Z selected_num);;
     try_except
       (Os.write_text env (Seen.longastop selected_num)
          (Text.codes (Seen.longastop_text selected_num));;
        Os.print ("Successfully created file: " +:+ Seen.longastop selected_num))
       (except_OSError
          (fun e =>
             Os.print ("Error creating file " +:+ Seen.longastop selected_num
                       +:+ ": " +:+ str e)))) w.
Proof. reflexivity. Qed.

Lemma runs_try_everything (ok : event -> bool) (body : M unit)
    (h : exn -> M unit) (w : World) :
  runs ok body ->
  (forall e w1, exists w2, h e w1 = (inr tt, w2) /\ steps ok w1 w2) ->
  exists w',
    try_except body (except_Exception h) w = (inr tt, w') /\ steps ok w w'.
Proof.
  intros Hb Hh. unfold try_except. specialize (Hb w).
  destruct (body w) as [[e|[]] w1]; cbn [snd] in Hb.
  - cbn. destruct (Hh e w1) as (w2 & -> & Hs). exists w2.
    split; [reflexivity|]. etrans; eassumption.
  - now exists w1.
Qed.

(** [loadedmax.py], from its first line to its last. *)
Lemma loadedmax_main_spec (w : World) :
  exists w' evs gone,
    Generated.loadedmax_main env "loadedmax.py" w = (inr tt, w')
    /\ trace w'
       = trace w
         ++ [Printed "loadedmax.py started."] ++ evs
         ++ [Printed "loadedmax.py finished. Initiating self-destruct."]
         ++ gone
    /\ Forall (fun e => Seen.recovery_B_only e = true) evs
    /\ Seen.deleted_itself "loadedmax.py" Seen.loadedmax_done
         Seen.loadedmax_stuck gone
    /\ (fs w !! "loadmax.py" = None ->
        evs = [Printed
                 "loadmax.py not found. Skipping its execution from loadedmax.py."]).
Proof.
  unfold Generated.loadedmax_main.
  rewrite (bind_ok _ _ _ _ _ (print_run _ w)).
  set (w1 := Os.log _ w).
  destruct (os_path_exists_spec env "loadmax.py" w1) as (w2 & Hs2 & Hex).
  rewrite (bind_ok _ _ _ _ _ Hex).
  assert (fs w2 !! "loadmax.py" = fs w !! "loadmax.py") as Hsame
      by now rewrite (silent_frame _ _ "loadmax.py" Hs2).
  set (mid := if bool_decide (is_Some (fs w2 !! "loadmax.py")) then _ else _).
  assert (exists w3 evs,
             mid w2 = (inr tt, w3)
             /\ trace w3 = trace w2 ++ evs
             /\ Forall (fun e => Seen.recovery_B_only e = true) evs
             /\ (fs w !! "loadmax.py" = None ->
                 evs = [Printed
                          "loadmax.py not found. Skipping its execution from loadedmax.py."]))
    as (w3 & evs & Hmid & Ht3 & Hok & Hskip).
  { subst mid. case_bool_decide as Hfound.
    - destruct (runs_try_everything Seen.recovery_B_only
                  (Os.print "Attempting to run loadmax.py from loadedmax.py as a subprocess...";;
                   Os.subprocess_run env
                     (Os.python env (fun _ _ => Loadmax.main env) "loadmax.py")
                     ["python"; "loadmax.py"];;
                   Os.print "loadmax.py executed successfully by loadedmax.py.")
                  (fun e =>
                     Os.print ("Error running loadmax.py from loadedmax.py: " +:+ str e))
                  w2) as (w3 & Hrun & Hsteps).
      + apply runs_bind; [now apply runs_print|intros _].
        apply runs_bind; [|intros _; now apply runs_print].
        apply runs_subprocess_run; [reflexivity|reflexivity|].
        apply runs_python. intros _ _. apply runs_loadmax_main; [reflexivity|].
        intros name data Hpre. cbn [Seen.recovery_B_only]. rewrite Hpre.
        apply orb_true_r.
      + intros e wa. eexists. split; [reflexivity|]. now apply steps_log.
      + apply steps_trace in Hsteps as (evs & Ht & Hok).
        exists w3, evs. split; [exact Hrun|]. split; [exact Ht|].
        split; [exact Hok|]. intros Hnone. rewrite Hsame, Hnone in Hfound.
        now destruct Hfound.
    - eexists _, _. split; [reflexivity|]. split; [reflexivity|].
      split; [repeat constructor|]. reflexivity. }
  rewrite (bind_ok _ _ _ _ _ Hmid).
  rewrite (bind_ok _ _ _ _ _ (print_run _ w3)).
  set (w4 := Os.log _ w3).
  destruct (self_delete_spec env "loadedmax.py" Seen.loadedmax_done
              (fun e =>
                 Os.print ("Error during self-destruction of loadedmax.py: " +:+ str e);;
                 Os.print "The loadedmax.py script could not be removed automatically.")
              Seen.loadedmax_stuck w4)
    as (w5 & gone & Hrun & Ht5 & Hgone & _).
  { intros e wa. eexists. split; [reflexivity|].
    cbn [trace fs Os.log]. split; [now rewrite <- app_assoc|reflexivity]. }
  exists w5, evs, gone. split; [exact Hrun|].
  split.
  { rewrite Ht5. subst w4. cbn [trace Os.log]. rewrite Ht3.
    rewrite (silent_trace _ _ Hs2). subst w1. cbn [trace Os.log].
    now rewrite <- !app_assoc. }
  split; [exact Hok|]. split; [|exact Hskip].
  destruct Hgone as [[-> _]|(e & He & -> & _)]; [constructor|now constructor].
Qed.

End Selector.

(** X11. The selector takes the first line it can accept.  When the lines
    typed begin with lines it refuses (not a number, or a number that is
    not an option) followed by an option [n], [select_number] returns
    [n]: it has shown the menu, asked again after each refused line with
    the complaint that fits it, consumed the lines up to [n] and no
    further, and has not touched the directory. *)
Theorem select_number_takes_first_option
    (w : World) (bad rest : list (option Z)) (n : Z) :
  stdin w = bad ++ Some n :: rest ->
  Forall (fun line => Seen.refused_line line = true) bad ->
  n ∈ Loadmax.options ->
  exists w',
    Loadmax.select_number w = (inr n, w')
    /\ stdin w' = rest
    /\ fs w' = fs w
    /\ trace w'
       = trace w ++ Seen.menu ++ flat_map Seen.asked_again bad ++ [Seen.prompt].
Proof.
  intros Hin Hbad Hn.
  destruct (select_number_run w) as (w1 & -> & Hin1 & Hfs1 & Ht1).
  rewrite Hin. rewrite Hin in Hin1.
  destruct (select_loop_accepts n rest bad Hn Hbad w1 Hin1)
    as (w' & Hrun & Hrest & Hfs & Ht).
  exists w'. split; [exact Hrun|]. split; [exact Hrest|].
  split; [congruence|]. rewrite Ht, Ht1. now rewrite <- !app_assoc.
Qed.

Lemma select_number_takes_first_option_witness :
  exists w',
    Loadmax.select_number (Longa.boot Scenario.fresh [None; Some 7%Z; Some 3%Z; Some 1%Z])
    = (inr 3%Z, w')
    /\ stdin w' = [Some 1%Z]
    /\ fs w' = fs (Longa.boot Scenario.fresh [None; Some 7%Z; Some 3%Z; Some 1%Z])
    /\ trace w'
       = trace (Longa.boot Scenario.fresh [None; Some 7%Z; Some 3%Z; Some 1%Z])
         ++ Seen.menu ++ flat_map Seen.asked_again [None; Some 7%Z] ++ [Seen.prompt].
Proof.
  apply (select_number_takes_first_option
           (Longa.boot Scenario.fresh [None; Some 7%Z; Some 3%Z; Some 1%Z])
           [None; Some 7%Z] [Some 1%Z] 3%Z).
  - reflexivity.
  - repeat constructor.
  - vm_compute. do 2 apply list_elem_of_further. left.
Defined.

(** X12. The selector returns nothing but an option, and only the end of
    the input stops it.  Whatever is typed, [select_number] returns one
    of 1, 2, 3 and 4 or raises [EOFError], and leaves the directory as it
    was; when every line typed is refused it raises [EOFError] after
    asking once more than there are lines. *)
Theorem select_number_option_or_eof (w : World) :
  (fst (Loadmax.select_number w) = inl EOFError
   \/ exists n,
       fst (Loadmax.select_number w) = inr n /\ n ∈ [1; 2; 3; 4]%Z)
  /\ fs (snd (Loadmax.select_number w)) = fs w
  /\ (Forall (fun line => Seen.refused_line line = true) (stdin w) ->
      fst (Loadmax.select_number w) = inl EOFError
      /\ trace (snd (Loadmax.select_number w))
         = trace w ++ Seen.menu ++ flat_map Seen.asked_again (stdin w)
           ++ [Seen.prompt]).
Proof.
  destruct (select_number_run w) as (w1 & Hrun & Hin1 & Hfs1 & Ht1).
  rewrite Hrun.
  destruct (select_loop_cases (stdin w) w1) as (r & w' & Hloop & Hfs & Hr).
  split; [rewrite Hloop; exact Hr|].
  split; [rewrite Hloop; cbn [snd]; congruence|].
  intros Hbad.
  destruct (select_loop_eof (stdin w) Hbad w1 Hin1) as (w'' & Heof & _ & Ht).
  rewrite Heof. split; [reflexivity|]. cbn [snd].
  rewrite Ht, Ht1. now rewrite <- !app_assoc.
Qed.

(** X13. [loadmax.py] creates the file of the choice.  When the first
    line the selector accepts is [n] and the file [longastop<n>.py] may
    be written, the script ends normally and the file holds its two
    comment lines; the name is one of the four that [longacheck.py] looks
    for; no other entry of the directory is touched (the successor's file
    is the watcher's to delete). *)
Theorem loadmax_creates_the_chosen_file
    (env : Env) (w : World) (bad rest : list (option Z)) (n : Z) :
  stdin w = bad ++ Some n :: rest ->
  Forall (fun line => Seen.refused_line line = true) bad ->
  n ∈ Loadmax.options ->
  (forall t, write_refused env t (Seen.longastop n) = false) ->
  exists w',
    Loadmax.main env w = (inr tt, w')
    /\ fs w' !! Seen.longastop n
       = Some (list_byte_of_string (Seen.longastop_text n))
    /\ Seen.longastop n
       ∈ ["longastop1.py"; "longastop2.py"; "longastop3.py"; "longastop4.py"]
    /\ (forall f_name,
           f_name ≠ Seen.longastop n -> f_name ≠ "longa1.py" ->
           fs w' !! f_name = fs w !! f_name)
    /\ exists evs,
         trace w'
         = trace w ++ evs
           ++ [Printed ("You selected: " +:+ Loadmax.str_Z n);
               Wrote (Seen.longastop n) (list_byte_of_string (Seen.longastop_text n));
               Printed ("Successfully created file: " +:+ Seen.longastop n)].
Proof.
  intros Hin Hbad Hn Hw. rewrite loadmax_main_run.
  destruct (select_number_run w) as (w1 & Hsel & Hin1 & Hfs1 & Ht1).
  rewrite Hin in Hin1.
  destruct (select_loop_accepts n rest bad Hn Hbad w1 Hin1)
    as (w2 & Hloop & _ & Hfs2 & Ht2).
  rewrite Hin in Hsel. rewrite Hloop in Hsel.
  rewrite (bind_ok _ _ _ _ _ Hsel).
  rewrite (bind_ok _ _ _ _ _ (print_run _ w2)).
  set (w3 := Os.log _ w2).
  destruct (write_text_granted env (Seen.longastop n)
              (Text.codes (Seen.longastop_text n)) w3 Hw
              (longastop_text_ascii n Hn)) as (w4 & Hs4 & Hwr).
  unfold Text.codes in Hwr at 2 3. rewrite map_chr8_to_N in Hwr.
  rewrite (try_ok _ _ _ _ _ (bind_ok _ _ _ _ _ Hwr)).
  eexists. split; [reflexivity|]. cbn [fs trace Os.log Os.with_fs].
  split; [apply lookup_insert_eq|].
  split.
  { destruct (option_cases n Hn) as [-> |[-> |[-> | ->]]]; vm_compute;
      repeat (first [left|apply list_elem_of_further]). }
  split.
  { intros f H1 H2. rewrite lookup_insert_ne by congruence.
    rewrite (silent_frame _ _ f Hs4 H2). subst w3. cbn [fs Os.log]. congruence. }
  exists (Seen.menu ++ flat_map Seen.asked_again bad ++ [Seen.prompt]).
  rewrite (silent_trace _ _ Hs4). subst w3. cbn [trace Os.log].
  rewrite Ht2, Ht1. now rewrite <- !app_assoc.
Qed.

Lemma loadmax_creates_the_chosen_file_witness :
  exists w',
    Loadmax.main Scenario.watched (Longa.boot Scenario.fresh [Some 9%Z; Some 2%Z])
    = (inr tt, w')
    /\ fs w' !! Seen.longastop 2
       = Some (list_byte_of_string (Seen.longastop_text 2))
    /\ Seen.longastop 2
       ∈ ["longastop1.py"; "longastop2.py"; "longastop3.py"; "longastop4.py"]
    /\ (forall f_name,
           f_name ≠ Seen.longastop 2 -> f_name ≠ "longa1.py" ->
           fs w' !! f_name
           = fs (Longa.boot Scenario.fresh [Some 9%Z; Some 2%Z]) !! f_name)
    /\ exists evs,
         trace w'
         = trace (Longa.boot Scenario.fresh [Some 9%Z; Some 2%Z]) ++ evs
           ++ [Printed ("You selected: " +:+ Loadmax.str_Z 2);
               Wrote (Seen.longastop 2) (list_byte_of_string (Seen.longastop_text 2));
               Printed ("Successfully created file: " +:+ Seen.longastop 2)].
Proof.
  apply (loadmax_creates_the_chosen_file Scenario.watched
           (Longa.boot Scenario.fresh [Some 9%Z; Some 2%Z])
           [Some 9%Z] [] 2%Z).
  - reflexivity.
  - repeat constructor.
  - vm_compute. apply list_elem_of_further. left.
  - intros t. reflexivity.
Defined.

(** X14. [loadmax.py] ends normally unless its input ends.  A refused
    write of the chosen file is caught and reported; the only exception
    that leaves the script is the [EOFError] of a selector that has run
    out of input, and then nothing has been written. *)
Theorem loadmax_stops_only_at_eof (env : Env) (w : World) :
  fst (Loadmax.main env w) = inr tt
  \/ (fst (Loadmax.main env w) = inl EOFError
      /\ fs (snd (Loadmax.main env w)) = fs w).
Proof.
  rewrite loadmax_main_run.
  destruct (select_number_run w) as (w1 & Hsel & _ & Hfs1 & _).
  destruct (select_loop_cases (stdin w) w1) as (r & w2 & Hloop & Hfs2 & Hr).
  rewrite Hloop in Hsel.
  destruct Hr as [-> |(n & -> & Hn)].
  { right. rewrite (bind_raised _ _ _ _ _ Hsel). cbn [fst snd].
    split; [reflexivity|congruence]. }
  left. rewrite (bind_ok _ _ _ _ _ Hsel).
  rewrite (bind_ok _ _ _ _ _ (print_run _ w2)).
  set (w3 := Os.log _ w2).
  destruct (write_text_spec env (Seen.longastop n)
              (Text.codes (Seen.longastop_text n)) w3
              (longastop_text_ascii n Hn)) as (w4 & _ & [Hwr|Hwr]).
  - now rewrite (try_raised _ _ _ _ _ (bind_raised _ _ _ _ _ Hwr)).
  - now rewrite (try_ok _ _ _ _ _ (bind_ok _ _ _ _ _ Hwr)).
Qed.

(** X15. [loadedmax.py] always comes to its end.  Whatever the selector
    it starts does (its input may end, [python] may not start, the file
    [loadmax.py] may be missing), the script raises nothing: it prints
    that it has finished and then removes its own file, or reports that
    it could not.  Between its first and that line it only prints,
    supervises the selector and lets it write a [longastop] file; when
    [loadmax.py] is not there it prints that it skips it, and nothing
    else. *)
Theorem loadedmax_always_finishes (env : Env) (w : World) :
  exists w' evs gone,
    Generated.loadedmax_main env "loadedmax.py" w = (inr tt, w')
    /\ trace w'
       = trace w
         ++ [Printed "loadedmax.py started."] ++ evs
         ++ [Printed "loadedmax.py finished. Initiating self-destruct."]
         ++ gone
    /\ Forall (fun e => Seen.recovery_B_only e = true) evs
    /\ Seen.deleted_itself "loadedmax.py" Seen.loadedmax_done
         Seen.loadedmax_stuck gone
    /\ (fs w !! "loadmax.py" = None ->
        evs = [Printed
                 "loadmax.py not found. Skipping its execution from loadedmax.py."]).
Proof. apply loadedmax_main_spec. Qed.

(** ** Recovery-B where nothing it needs is refused *)

Section GrantedB.
Variable env : Env.
Hypothesis python_starts : forall t, launch_fails env t = false.
Hypothesis loadedmax_writable :
  forall t, write_refused env t "loadedmax.py" = false.

(** Lines 200-252. *)
Lemma recovery_B_granted (w : World) :
  exists w' evsB goneB,
    Longa.recovery_B env w = (inr tt, w')
    /\ trace w'
       = trace w
         ++ [Printed "
--- NEW SECTION (longa1_imported FALSE): Creating and Running loadedmax.py ---";
             Wrote "loadedmax.py" (map Text.chr8 Agents.loadedmax_code_content);
             Printed "loadedmax.py created.";
             Printed "Attempting to run loadedmax.py...";
             ChildStarted ["python"; "loadedmax.py"];
             Printed "loadedmax.py started."]
         ++ evsB
         ++ [Printed "loadedmax.py finished. Initiating self-destruct."]
         ++ goneB
         ++ [ChildExited ["python"; "loadedmax.py"] 0;
             Printed "loadedmax.py executed successfully.";
             Printed "--- NEW SECTION END ---"]
    /\ Forall (fun e => Seen.recovery_B_only e = true) evsB
    /\ Seen.deleted_itself "loadedmax.py" Seen.loadedmax_done
         Seen.loadedmax_stuck goneB.
Proof.
  unfold Longa.recovery_B. rewrite (bind_ok _ _ _ _ _ (print_run _ w)).
  set (w1 := Os.log _ w).
  destruct (write_text_granted env "loadedmax.py" Agents.loadedmax_code_content
              w1 loadedmax_writable loadedmax_code_content_ascii)
    as (w2 & Hs2 & Hw).
  set (w3 := Os.log _ _) in Hw.
  set (w5 := Os.log (Printed "Attempting to run loadedmax.py...")
               (Os.log (Printed "loadedmax.py created.") w3)).
  destruct (subprocess_run_granted env python_starts
              (Os.python env (Generated.interp env) "loadedmax.py")
              ["python"; "loadedmax.py"] w5) as (w6 & Hs6 & Hsub).
  set (w7 := Os.log (ChildStarted ["python"; "loadedmax.py"]) w6) in Hsub.
  assert (fs w7 !! "loadedmax.py"
          = Some (map Text.chr8 Agents.loadedmax_code_content)) as Hfs.
  { subst w7. cbn [fs Os.log].
    rewrite (silent_frame _ _ "loadedmax.py" Hs6) by discriminate.
    subst w5 w3. cbn [fs Os.log Os.with_fs]. apply lookup_insert_eq. }
  destruct (python_returns env "loadedmax.py" Agents.loadedmax_code_content w7)
    as (w8 & Hs8 & Hpy); [discriminate|exact Hfs|].
  rewrite interp_loadedmax_code_content in Hpy.
  destruct (loadedmax_main_spec env w8)
    as (w9 & evsB & goneB & Hm & Ht9 & Hok & Hgone & _).
  specialize (Hpy w9 Hm). specialize (Hsub w9 Hpy).
  assert (try_except
            (Os.write_text env "loadedmax.py" Agents.loadedmax_code_content;;
             Os.print ("loadedmax.py" +:+ " created.");;
             Os.print ("Attempting to run " +:+ "loadedmax.py" +:+ "...");;
             Longa.run_python env "loadedmax.py";;
             Os.print ("loadedmax.py" +:+ " executed successfully."))
            (Longa.except_run "loadedmax.py" "creation/execution") w1
          = (inr tt,
             Os.log (Printed "loadedmax.py executed successfully.")
               (Os.log (ChildExited ["python"; "loadedmax.py"] 0) w9))) as Htry.
  { apply try_ok.
    rewrite (bind_ok _ _ _ _ _ Hw).
    rewrite (bind_ok _ _ _ _ _ (print_run _ w3)).
    rewrite (bind_ok _ _ _ _ _ (print_run _ _)). fold w5.
    unfold Longa.run_python.
    now rewrite (bind_ok _ _ _ _ _ Hsub). }
  rewrite (bind_ok _ _ _ _ _ Htry).
  eexists _, evsB, goneB. split; [reflexivity|].
  split; [|split; [exact Hok|exact Hgone]].
  cbn [trace Os.print Os.log]. rewrite Ht9, (silent_trace _ _ Hs8). subst w7.
  cbn [trace Os.log]. rewrite (silent_trace _ _ Hs6). subst w5 w3.
  cbn [trace Os.log Os.with_fs]. rewrite (silent_trace _ _ Hs2). subst w1.
  cbn [trace Os.log]. rewrite <- !app_assoc. reflexivity.
Qed.

End GrantedB.




(** ** The sequences of [longatrain.py] *)

Section Sequences.
Import Longatrain.
Local Open Scope nat_scope.

(** The window that starts at [i]. *)
Lemma slice_window (data : list pyfloat) (i look_back : nat) :
  Longatrain.slice data i (i + look_back) = take look_back (drop i data).
Proof. unfold Longatrain.slice. f_equal. lia. Qed.

Lemma windows_seq (data : list pyfloat) (look_back n : nat) :
  forall s X y,
    s + n + look_back <= length data ->
    Longatrain.windows data look_back (seq s n) X y
    = Some (X ++ map (fun i => take look_back (drop i data)) (seq s n),
            y ++ take n (drop (s + look_back) data)).
Proof.
  induction n as [|n IH]; intros s X y Hlen; cbn [seq Longatrain.windows map].
  - now rewrite take_0, !app_nil_r.
  - destruct (lookup_lt_is_Some_2 data (s + look_back)) as [target Ht]; [lia|].
    rewrite Ht. cbn [mbind option_bind]. rewrite slice_window.
    rewrite IH by lia. rewrite (drop_S _ _ _ Ht). cbn [take].
    now rewrite <- !app_assoc.
Qed.

Lemma create_sequences_eq (data : list pyfloat) (look_back : nat) :
  Longatrain.create_sequences data look_back
  = Some (map (fun i => take look_back (drop i data))
            (seq 0 (length data - look_back)),
          drop look_back data).
Proof.
  unfold Longatrain.create_sequences. case_bool_decide as Hshort.
  - replace (length data - look_back) with 0 by lia.
    now rewrite drop_ge by lia.
  - rewrite windows_seq by lia. cbn [app Nat.add].
    now rewrite take_ge by (rewrite length_drop; lia).
Qed.

Lemma window_lookup (data : list pyfloat) (look_back i : nat) :
  i < length data - look_back ->
  map (fun i => take look_back (drop i data)) (seq 0 (length data - look_back))
  !! i
  = Some (take look_back (drop i data)).
Proof.
  intros Hi. rewrite list_lookup_fmap, lookup_seq_lt by exact Hi. reflexivity.
Qed.

End Sequences.

(** X16. [create_sequences] never runs past the end of the data, and its
    result is the sliding window.  For every list of floats and every
    look-back it returns (no [IndexError]); the targets are the data without its first
    [look_back] values, there is one row for each target, row [i] is the
    [look_back] values from position [i] on, and all rows have the length
    [look_back], so the rows form a rectangular array; both results are
    empty exactly when the data has no more than [look_back] values. *)
Theorem create_sequences_is_the_sliding_window
    (data : list Longatrain.pyfloat) (look_back : nat) :
  exists X y,
    Longatrain.create_sequences data look_back = Some (X, y)
    /\ y = drop look_back data
    /\ length X = length y
    /\ length y = (length data - look_back)%nat
    /\ (forall i,
           (i < length y)%nat -> X !! i = Some (take look_back (drop i data)))
    /\ Forall (fun feature_set => length feature_set = look_back) X
    /\ (X = [] /\ y = [] <-> (length data <= look_back)%nat).
Proof.
  eexists _, _. split; [apply create_sequences_eq|].
  split; [reflexivity|].
  rewrite length_map, length_seq, length_drop.
  split; [reflexivity|]. split; [reflexivity|].
  split; [apply window_lookup|].
  split.
  - apply Forall_forall. intros row Hrow.
    apply list_elem_of_fmap in Hrow as (i & -> & Hi).
    apply elem_of_seq in Hi. rewrite length_take, length_drop. lia.
  - split.
    + intros [_ Hy]. apply (f_equal length) in Hy.
      rewrite length_drop in Hy. cbn in Hy. lia.
    + intros Hshort. replace (length data - look_back)%nat with 0%nat by lia.
      split; [reflexivity|]. apply drop_ge. lia.
Qed.

(** X17. On a list of floats, each row and its target are a run of
    [look_back + 1] consecutive values of the data, and the next row is
    that run without its first value: the windows slide by one. *)
Theorem create_sequences_rows_slide
    (data : list Longatrain.pyfloat) (look_back : nat)
    (X : list (list Longatrain.pyfloat)) (y : list Longatrain.pyfloat)
    (i : nat) (feature_set : list Longatrain.pyfloat)
    (target : Longatrain.pyfloat) :
  Longatrain.create_sequences data look_back = Some (X, y) ->
  X !! i = Some feature_set ->
  y !! i = Some target ->
  feature_set ++ [target] = take (S look_back) (drop i data)
  /\ data !! (i + look_back)%nat = Some target
  /\ forall next,
       X !! S i = Some next -> next = drop 1 (feature_set ++ [target]).
Proof.
  rewrite create_sequences_eq. intros [= <- <-] Hrow Ht.
  assert (i < length data - look_back)%nat as Hi.
  { apply lookup_lt_Some in Hrow. now rewrite length_map, length_seq in Hrow. }
  rewrite window_lookup in Hrow by exact Hi. injection Hrow as <-.
  rewrite lookup_drop in Ht.
  assert (data !! (i + look_back)%nat = Some target) as Ht'
      by (rewrite <- Ht; f_equal; lia).
  assert (take look_back (drop i data) ++ [target]
          = take (S look_back) (drop i data)) as Hrun.
  { symmetry. apply take_S_r. rewrite lookup_drop. exact Ht'. }
  split; [exact Hrun|]. split; [exact Ht'|].
  intros next Hnext.
  assert (S i < length data - look_back)%nat as Hi'.
  { apply lookup_lt_Some in Hnext. now rewrite length_map, length_seq in Hnext. }
  rewrite window_lookup in Hnext by exact Hi'. injection Hnext as <-.
  rewrite Hrun. change (S look_back) with (1 + look_back)%nat.
  rewrite <- take_drop_commute, drop_drop.
  now replace (i + 1)%nat with (S i) by lia.
Qed.

Lemma create_sequences_rows_slide_witness :
  [1; 2; 3; 4; 5]%float ++ [6%float]
  = take 6 (drop 0 [1; 2; 3; 4; 5; 6; 7]%float)
  /\ [1; 2; 3; 4; 5; 6; 7]%float !! (0 + 5)%nat = Some 6%float
  /\ forall next,
       [[1; 2; 3; 4; 5]; [2; 3; 4; 5; 6]]%float !! 1%nat = Some next ->
       next = drop 1 ([1; 2; 3; 4; 5]%float ++ [6%float]).
Proof.
  apply (create_sequences_rows_slide [1; 2; 3; 4; 5; 6; 7]%float 5
           [[1; 2; 3; 4; 5]; [2; 3; 4; 5; 6]]%float [6; 7]%float 0
           [1; 2; 3; 4; 5]%float 6%float).
  - vm_compute. reflexivity.
  - reflexivity.
  - reflexivity.
Defined.

(** ** What a refusal does to the cascade *)

Section Refused.
Variable env : Env.

Lemma write_text_refused (name : string) (text : pystr) (w : World) :
  (forall t, write_refused env t name = true) ->
  exists w1,
    steps silent w w1
    /\ Os.write_text env name text w = (inl (PermissionError name), w1).
Proof.
  intros Hr. unfold Os.write_text.
  destruct (after_tick env (Os.write_now env name text) w) as (w1 & Hs & ->).
  exists w1. split; [exact Hs|]. unfold Os.write_now. now rewrite Hr.
Qed.

(** A supervised run whose child is started, whatever its exit status. *)
Lemma subprocess_run_started (child : M N) (argv : list string) (w : World) :
  (forall t, launch_fails env t = false) ->
  exists w1,
    steps silent w w1
    /\ forall r w2,
         child (Os.log (ChildStarted argv) w1) = (r, w2) ->
         Os.subprocess_run env child argv w
         = (if Os.returncode r =? 0 then inr tt
            else inl (CalledProcessError argv (Os.returncode r)),
            Os.log (ChildExited argv (Os.returncode r)) w2).
Proof.
  intros Hl. unfold Os.subprocess_run.
  destruct (after_tick env (Os.run_now env child argv) w) as (w1 & Hs & ->).
  exists w1. split; [exact Hs|]. intros r w2 Hc.
  unfold Os.run_now. now rewrite Hl, Hc.
Qed.

Lemma subprocess_run_no_python (child : M N) (argv : list string) (w : World) :
  (forall t, launch_fails env t = true) ->
  exists w1,
    steps silent w w1
    /\ Os.subprocess_run env child argv w = (inl (FileNotFoundError "python"), w1).
Proof.
  intros Hl. unfold Os.subprocess_run.
  destruct (after_tick env (Os.run_now env child argv) w) as (w1 & Hs & ->).
  exists w1. split; [exact Hs|]. unfold Os.run_now. now rewrite Hl.
Qed.

(** The interpreter on a script whose text is known. *)
Lemma python_read (script : string) (text : pystr) (w : World) :
  script <> "longa1.py" ->
  fs w !! script = Some (map Text.chr8 text) ->
  exists w1,
    steps silent w w1
    /\ Os.python env (Generated.interp env) script w
       = match Generated.interp env script (map Text.chr8 text) w1 with
         | (inr _, w2) => (inr 0, w2)
         | (inl e, w2) => (inl e, w2)
         end.
Proof.
  intros Hn Hfs. unfold Os.python.
  destruct (read_bytes_spec env script w) as (w1 & Hs & [[Hnone _]|(raw & Hraw & Hr)]).
  { rewrite (silent_frame _ _ script Hs Hn), Hfs in Hnone. discriminate. }
  rewrite (silent_frame _ _ script Hs Hn), Hfs in Hraw. injection Hraw as <-.
  exists w1. split; [exact Hs|]. now rewrite Hr.
Qed.

(** The successor where the orchestrator's file cannot be written. *)
Lemma import_longa1_blocked (code : pystr) (w : World) :
  (forall t, write_refused env t "longa.py" = true) ->
  Forall Text.is_ascii code ->
  fs w !! "longa1.py" = Some (map Text.chr8 (Agents.longa1_code code)) ->
  exists w' cache line,
    Longa.import_longa1 env w = (inr false, w')
    /\ trace w' = trace w ++ [Slept 1] ++ cache ++ [Printed line]
    /\ (forall f, f ≠ "longa1.py" -> f ≠ "__pycache__" -> fs w' !! f = fs w !! f)
    /\ (fs w' !! "longa1.py" = None
        \/ (fs w' !! "longa1.py" = fs w !! "longa1.py"
            /\ line = "Step 2: Failed to import longa1.py: [Errno 13] Permission denied: 'longa.py'")).
Proof.
  intros Hr Hascii Hfs. unfold Longa.import_longa1.
  destruct (time_sleep_spec env 1 w) as (w1 & Hs1 & Hsl).
  rewrite (bind_ok _ _ _ _ _ Hsl).
  destruct (os_path_exists_spec env "longa1.py" (Os.log (Slept 1) w1))
    as (w2 & Hs2 & Hex).
  rewrite (bind_ok _ _ _ _ _ Hex).
  assert (trace w2 = trace w ++ [Slept 1]) as Ht2.
  { rewrite (silent_trace _ _ Hs2). cbn [trace Os.log].
    now rewrite (silent_trace _ _ Hs1). }
  assert (forall f, f ≠ "longa1.py" -> fs w2 !! f = fs w !! f) as Hf2.
  { intros f Hn. rewrite (silent_frame _ _ f Hs2 Hn). cbn [fs Os.log].
    apply (silent_frame _ _ f Hs1 Hn). }
  assert (fs w2 !! "longa1.py" = None
          \/ fs w2 !! "longa1.py" = fs w !! "longa1.py") as Hk2.
  { destruct (silent_kept _ _ "longa1.py" Hs2) as [H|H]; [now left|].
    rewrite H. cbn [fs Os.log]. apply (silent_kept _ _ "longa1.py" Hs1). }
  case_bool_decide as Hfound.
  2:{ eexists _, [], _. split; [reflexivity|]. cbn [trace fs Os.log].
      split; [now rewrite Ht2, <- app_assoc|].
      split; [intros f Hn _; now apply Hf2|]. left.
      destruct (fs w2 !! "longa1.py") eqn:E; [|reflexivity].
      destruct Hfound. eauto. }
  destruct (read_bytes_spec env "longa1.py" w2)
    as (w3 & Hs3 & [[Hnone Hrd]|(source & Hsource & Hrd)]).
  { assert (Longa.exec_module env "longa1.py" w2
            = (inl (FileNotFoundError "longa1.py"), w3)) as Hexec.
    { unfold Longa.exec_module. now rewrite (bind_raised _ _ _ _ _ Hrd). }
    rewrite (try_raised _ _ _ _ _ (bind_raised _ _ _ _ _ Hexec)).
    eexists _, [], _. split; [reflexivity|]. cbn [trace fs Os.log].
    rewrite (silent_trace _ _ Hs3).
    split; [now rewrite Ht2, <- app_assoc|].
    split; [|now left].
    intros f Hn _. rewrite (silent_frame _ _ f Hs3 Hn). now apply Hf2. }
  assert (source = map Text.chr8 (Agents.longa1_code code)) as ->.
  { destruct (silent_kept _ _ "longa1.py" Hs3) as [H|H]; [congruence|].
    destruct Hk2 as [H2|H2]; congruence. }
  destruct (cache_step_spec env (map Text.chr8 (Agents.longa1_code code)) w3)
    as (wc & cache & Hcache & _ & Htc & Hkc & Hfc).
  destruct (write_text_refused "longa.py" code wc Hr) as (w4 & Hs4 & Hwr).
  assert (Longa.exec_module env "longa1.py" w2
          = (inl (PermissionError "longa.py"), w4)) as Hexec.
  { unfold Longa.exec_module. rewrite (bind_ok _ _ _ _ _ Hrd).
    rewrite (bind_ok _ _ _ _ _ Hcache).
    rewrite (interp_longa1_code env _ code Hascii). unfold Generated.longa1_main.
    now rewrite (bind_raised _ _ _ _ _ Hwr). }
  rewrite (try_raised _ _ _ _ _ (bind_raised _ _ _ _ _ Hexec)).
  eexists _, cache, _. split; [reflexivity|]. cbn [trace fs Os.log].
  rewrite (silent_trace _ _ Hs4), Htc, (silent_trace _ _ Hs3).
  split; [now rewrite Ht2, <- !app_assoc|].
  split.
  { intros f Hn Hc. rewrite (silent_frame _ _ f Hs4 Hn), (Hfc f Hn Hc).
    rewrite (silent_frame _ _ f Hs3 Hn). now apply Hf2. }
  destruct (silent_kept _ _ "longa1.py" Hs4) as [H|H]; [now left|].
  destruct Hkc as [Hkc|Hkc]; [left; congruence|].
  right. split; [|reflexivity]. congruence.
Qed.

(** Recovery-A where the orchestrator's file cannot be written: the
    script raises before it has removed or started anything. *)
Lemma longamax_main_blocked (code : pystr) (w : World) :
  (forall t, write_refused env t "longa.py" = true) ->
  exists w',
    Generated.longamax_main env "longamax.py" code w
    = (inl (PermissionError "longa.py"), w')
    /\ trace w'
       = trace w
         ++ [Printed "longamax.py started. Countdown to self-destruct..."]
         ++ Seen.countdown
    /\ forall f, f ≠ "longa1.py" -> fs w' !! f = fs w !! f.
Proof.
  intros Hr. unfold Generated.longamax_main.
  rewrite (bind_ok _ _ _ _ _ (print_run _ w)).
  set (w1 := Os.log _ w).
  destruct (countdown_spec env w1) as (w2 & Hcount & Ht2).
  assert (steps Seen.writing_successor w1 w2) as Hsteps.
  { pose proof (runs_for_each Seen.writing_successor [3; 2; 1]
                  (fun i =>
                     Os.print ("Deleting in " +:+ str_N i +:+ " seconds...");;
                     Os.time_sleep env 1)) as Hruns.
    specialize (Hruns (fun i =>
                         runs_bind _ _ _ (runs_print _ _ eq_refl)
                           (fun _ => runs_time_sleep env _ 1 eq_refl)) w1).
    now rewrite Hcount in Hruns. }
  rewrite (bind_ok _ _ _ _ _ Hcount).
  destruct (write_text_refused "longa.py" code w2 Hr) as (w3 & Hs3 & Hwr).
  rewrite (bind_raised _ _ _ _ _ Hwr).
  eexists. split; [reflexivity|].
  split.
  { rewrite (silent_trace _ _ Hs3), Ht2. subst w1. cbn [trace Os.log].
    now rewrite <- app_assoc. }
  intros f Hn. rewrite (silent_frame _ _ f Hs3 Hn).
  rewrite (steps_frame Seen.writing_successor w1 w2 f Hsteps Hn); [reflexivity| |reflexivity].
  intros data. cbn. now apply String.eqb_neq.
Qed.

End Refused.

(** X18. An orchestrator whose file cannot be written is never
    regenerated.  Where every write of [longa.py] is refused while the
    successor can be written, a run started in a directory that holds the
    orchestrator's file reaches the branch decision with
    [longa1_imported] false and goes on with the failure path; the
    orchestrator's file is the one the run found; the successor's file
    has been deleted by the watcher, or it is still there, not having
    deleted itself, and the last line printed is the refusal. *)
Theorem read_only_orchestrator_is_not_regenerated
    (env : Env) (w0 : World) (raw : pybytes) :
  (forall t, write_refused env t "longa.py" = true) ->
  (forall t, write_refused env t "longa1.py" = false) ->
  fs w0 !! "longa.py" = Some raw ->
  exists code,
    Capture.clean_ascii_code raw = Some code
    /\ fst (Longa.until_branch env w0) = inr (code, false)
    /\ Longa.main env w0
       = Longa.branch env false (snd (Longa.until_branch env w0))
    /\ fs (snd (Longa.until_branch env w0)) !! "longa.py" = Some raw
    /\ (fs (snd (Longa.until_branch env w0)) !! "longa1.py" = None
        \/ (fs (snd (Longa.until_branch env w0)) !! "longa1.py"
            = Some (map Text.chr8 (Agents.longa1_code code))
            /\ exists evs,
                 trace (snd (Longa.until_branch env w0))
                 = trace w0 ++ evs
                   ++ [Printed "Step 2: Failed to import longa1.py: [Errno 13] Permission denied: 'longa.py'"])).
Proof.
  intros Hr Hw Hraw.
  destruct (write_successor_forward env raw w0 Hraw Hw) as (code & wa & Hws & _).
  destruct (write_successor_spec env w0 wa code Hws)
    as (raw' & Hraw' & Hcode & Hascii & Hlonga & Hsucc & Hprep & _).
  rewrite Hraw in Hraw'. injection Hraw' as <-.
  destruct (import_longa1_blocked env code wa Hr Hascii Hsucc)
    as (w1 & cache & line & Himp & Ht & Hframe & Hleft).
  assert (Longa.until_branch env w0 = (inr (code, false), w1)) as Huntil.
  { unfold Longa.until_branch.
    now rewrite (bind_ok _ _ _ _ _ Hws), (bind_ok _ _ _ _ _ Himp). }
  exists code. rewrite Huntil. cbn [fst snd].
  split; [exact Hcode|]. split; [reflexivity|].
  split.
  { unfold Longa.main.
    now rewrite (bind_ok _ _ _ _ _ Hws), (bind_ok _ _ _ _ _ Himp). }
  split; [rewrite Hframe by discriminate; exact Hlonga|].
  destruct Hleft as [Hgone|[Hsame ->]]; [now left|right].
  split; [now rewrite Hsame|].
  apply steps_trace in Hprep as (evs & Hta & _).
  exists (evs ++ [Slept 1] ++ cache). rewrite Ht, Hta. now rewrite <- !app_assoc.
Qed.

Lemma read_only_orchestrator_is_not_regenerated_witness :
  exists code,
    Capture.clean_ascii_code Scenario.source = Some code
    /\ fst (Longa.until_branch (Scenario.locked "longa.py")
              (Longa.boot Scenario.fresh []))
       = inr (code, false)
    /\ Longa.main (Scenario.locked "longa.py") (Longa.boot Scenario.fresh [])
       = Longa.branch (Scenario.locked "longa.py") false
           (snd (Longa.until_branch (Scenario.locked "longa.py")
                   (Longa.boot Scenario.fresh [])))
    /\ fs (snd (Longa.until_branch (Scenario.locked "longa.py")
                  (Longa.boot Scenario.fresh []))) !! "longa.py"
       = Some Scenario.source
    /\ (fs (snd (Longa.until_branch (Scenario.locked "longa.py")
                   (Longa.boot Scenario.fresh []))) !! "longa1.py" = None
        \/ (fs (snd (Longa.until_branch (Scenario.locked "longa.py")
                       (Longa.boot Scenario.fresh []))) !! "longa1.py"
            = Some (map Text.chr8 (Agents.longa1_code code))
            /\ exists evs,
                 trace (snd (Longa.until_branch (Scenario.locked "longa.py")
                               (Longa.boot Scenario.fresh [])))
                 = trace (Longa.boot Scenario.fresh []) ++ evs
                   ++ [Printed "Step 2: Failed to import longa1.py: [Errno 13] Permission denied: 'longa.py'"])).
Proof.
  apply (read_only_orchestrator_is_not_regenerated (Scenario.locked "longa.py")
           (Longa.boot Scenario.fresh []) Scenario.source).
  - intros t. reflexivity.
  - intros t. reflexivity.
  - vm_compute. reflexivity.
Defined.

(** X19. Recovery-A cannot restore a file it may not write.  Where
    [python] starts, [longamax.py] can be written and every write of
    [longa.py] is refused, the Recovery-A section runs the script through
    its countdown; the script then ends with exit status 1, which the
    orchestrator catches and reports.  No process has been launched
    detached, and [longamax.py], which has not deleted itself, is left in
    the directory beside the untouched orchestrator's file. *)
Theorem recovery_A_fails_on_read_only_orchestrator
    (env : Env) (w : World) (raw : pybytes) :
  (forall t, launch_fails env t = false) ->
  (forall t, write_refused env t "longamax.py" = false) ->
  (forall t, write_refused env t "longa.py" = true) ->
  fs w !! "longa.py" = Some raw ->
  exists code w',
    Capture.clean_ascii_code raw = Some code
    /\ Longa.recovery_A env w = (inr tt, w')
    /\ trace w'
       = trace w
         ++ [Printed "Skipping longa2.py creation -- longa1.py import failed.";
             Wrote "longamax.py"
               (map Text.chr8 (Agents.longamax_code_content code));
             Printed "longamax.py created because longa1.py import failed.";
             Printed "Attempting to run longamax.py...";
             ChildStarted ["python"; "longamax.py"];
             Printed "longamax.py started. Countdown to self-destruct..."]
         ++ Seen.countdown
         ++ [ChildExited ["python"; "longamax.py"] 1;
             Printed "Error running longamax.py: Command '['python', 'longamax.py']' returned non-zero exit status 1."]
    /\ fs w' !! "longamax.py"
       = Some (map Text.chr8 (Agents.longamax_code_content code))
    /\ fs w' !! "longa.py" = Some raw.
Proof.
  intros Hl Hwmax Hr Hraw. unfold Longa.recovery_A.
  rewrite (bind_ok _ _ _ _ _ (print_run _ w)).
  set (w1 := Os.log _ w).
  destruct (get_clean_ascii_code_spec env "longa.py" w1)
    as (w2 & Hs2 & [[Hnone _]|(raw' & code & Hraw' & Hcode & Hascii & Hc)]).
  { rewrite (silent_frame _ _ "longa.py" Hs2) in Hnone by discriminate.
    subst w1. cbn [fs Os.log] in Hnone. congruence. }
  assert (raw' = raw) as ->.
  { rewrite (silent_frame _ _ "longa.py" Hs2) in Hraw' by discriminate.
    subst w1. cbn [fs Os.log] in Hraw'. congruence. }
  rewrite (bind_ok _ _ _ _ _ Hc).
  destruct (write_text_granted env "longamax.py"
              (Agents.longamax_code_content code) w2 Hwmax
              (longamax_code_content_ascii code Hascii)) as (w3 & Hs3 & Hw).
  rewrite (bind_ok _ _ _ _ _ Hw).
  set (w4 := Os.log _ _).
  rewrite (bind_ok _ _ _ _ _ (print_run _ w4)).
  set (w5 := Os.log _ w4).
  rewrite (bind_ok _ _ _ _ _ (print_run _ w5)).
  set (w6 := Os.log _ w5).
  assert (fs w6 !! "longamax.py"
          = Some (map Text.chr8 (Agents.longamax_code_content code))) as Hmax6.
  { subst w6 w5 w4. cbn [fs Os.log Os.with_fs]. apply lookup_insert_eq. }
  assert (fs w6 !! "longa.py" = Some raw) as Hlonga6.
  { subst w6 w5 w4. cbn [fs Os.log Os.with_fs].
    rewrite lookup_insert_ne by discriminate.
    now rewrite (silent_frame _ _ "longa.py" Hs3) by discriminate. }
  assert (trace w6
          = trace w
            ++ [Printed "Skipping longa2.py creation -- longa1.py import failed.";
                Wrote "longamax.py"
                  (map Text.chr8 (Agents.longamax_code_content code));
                Printed "longamax.py created because longa1.py import failed.";
                Printed "Attempting to run longamax.py..."]) as Ht6.
  { subst w6 w5 w4. cbn [trace Os.log Os.with_fs].
    rewrite (silent_trace _ _ Hs3), (silent_trace _ _ Hs2). subst w1.
    cbn [trace Os.log]. now rewrite <- !app_assoc. }
  unfold Longa.run_python.
  destruct (subprocess_run_started env
              (Os.python env (Generated.interp env) "longamax.py")
              ["python"; "longamax.py"] w6 Hl) as (w7 & Hs7 & Hrun).
  set (w8 := Os.log (ChildStarted ["python"; "longamax.py"]) w7) in Hrun.
  destruct (python_read env "longamax.py" (Agents.longamax_code_content code) w8)
    as (w9 & Hs9 & Hpy); [discriminate| |].
  { subst w8. cbn [fs Os.log].
    now rewrite (silent_frame _ _ "longamax.py" Hs7) by discriminate. }
  rewrite (interp_longamax_code_content env _ code Hascii) in Hpy.
  destruct (longamax_main_blocked env code w9 Hr) as (w10 & Hmain & Ht10 & Hf10).
  rewrite Hmain in Hpy. specialize (Hrun _ _ Hpy). cbn in Hrun.
  rewrite (try_raised _ _ _ _ _ (bind_raised _ _ _ _ _ Hrun)).
  cbn [Longa.except_run].
  exists code. eexists. split; [exact Hcode|]. split; [reflexivity|].
  cbn [trace fs Os.log].
  split.
  { rewrite Ht10, (silent_trace _ _ Hs9). subst w8. cbn [trace Os.log].
    rewrite (silent_trace _ _ Hs7), Ht6. now rewrite <- !app_assoc. }
  split.
  - rewrite Hf10, (silent_frame _ _ "longamax.py" Hs9) by discriminate.
    subst w8. cbn [fs Os.log].
    now rewrite (silent_frame _ _ "longamax.py" Hs7) by discriminate.
  - rewrite Hf10, (silent_frame _ _ "longa.py" Hs9) by discriminate.
    subst w8. cbn [fs Os.log].
    now rewrite (silent_frame _ _ "longa.py" Hs7) by discriminate.
Qed.

Lemma recovery_A_fails_on_read_only_orchestrator_witness :
  exists code w',
    Capture.clean_ascii_code Scenario.source = Some code
    /\ Longa.recovery_A (Scenario.locked "longa.py") (Longa.boot Scenario.fresh [])
       = (inr tt, w')
    /\ trace w'
       = trace (Longa.boot Scenario.fresh [])
         ++ [Printed "Skipping longa2.py creation -- longa1.py import failed.";
             Wrote "longamax.py"
               (map Text.chr8 (Agents.longamax_code_content code));
             Printed "longamax.py created because longa1.py import failed.";
             Printed "Attempting to run longamax.py...";
             ChildStarted ["python"; "longamax.py"];
             Printed "longamax.py started. Countdown to self-destruct..."]
         ++ Seen.countdown
         ++ [ChildExited ["python"; "longamax.py"] 1;
             Printed "Error running longamax.py: Command '['python', 'longamax.py']' returned non-zero exit status 1."]
    /\ fs w' !! "longamax.py"
       = Some (map Text.chr8 (Agents.longamax_code_content code))
    /\ fs w' !! "longa.py" = Some Scenario.source.
Proof.
  apply (recovery_A_fails_on_read_only_orchestrator (Scenario.locked "longa.py")
           (Longa.boot Scenario.fresh []) Scenario.source).
  - intros t. reflexivity.
  - intros t. reflexivity.
  - intros t. reflexivity.
  - vm_compute. reflexivity.
Defined.

(** X20. Without [python] the cascade ends.  Where no process can be
    started, the two recovery scripts can be written and the
    orchestrator's file can be removed, the failure path runs to its end
    without starting anything: each supervised run is reported as a
    missing executable, the orchestrator deletes its own file, and the
    two recovery scripts are left in the directory with nothing to run
    them. *)
Theorem without_python_the_cascade_ends
    (env : Env) (w : World) (raw : pybytes) :
  (forall t, launch_fails env t = true) ->
  (forall t, write_refused env t "longamax.py" = false) ->
  (forall t, write_refused env t "loadedmax.py" = false) ->
  (forall t, remove_refused env t "longa.py" = false) ->
  fs w !! "longa.py" = Some raw ->
  exists code w',
    Capture.clean_ascii_code raw = Some code
    /\ Longa.failure_path env w = (inr tt, w')
    /\ trace w'
       = trace w
         ++ [Printed "Skipping longa2.py creation -- longa1.py import failed.";
             Wrote "longamax.py"
               (map Text.chr8 (Agents.longamax_code_content code));
             Printed "longamax.py created because longa1.py import failed.";
             Printed "Attempting to run longamax.py...";
             Printed "Python executable not found for longamax.py. Make sure Python is in your PATH.";
             Printed "
--- NEW SECTION (longa1_imported FALSE): Creating and Running loadedmax.py ---";
             Wrote "loadedmax.py" (map Text.chr8 Agents.loadedmax_code_content);
             Printed "loadedmax.py created.";
             Printed "Attempting to run loadedmax.py...";
             Printed "Python executable not found for loadedmax.py. Make sure Python is in your PATH.";
             Printed "--- NEW SECTION END ---";
             Removed "longa.py";
             Printed
               (Seen.orchestrator_done env
                  "longa.py has self-destructed after longamax.py and loadedmax.py completed from: ")]
    /\ fs w' !! "longa.py" = None
    /\ fs w' !! "longamax.py"
       = Some (map Text.chr8 (Agents.longamax_code_content code))
    /\ fs w' !! "loadedmax.py"
       = Some (map Text.chr8 Agents.loadedmax_code_content).
Proof.
  intros Hl Hwmax Hwloaded Hrm Hraw.
  set (w1 := Os.log
               (Printed "Skipping longa2.py creation -- longa1.py import failed.") w).
  destruct (get_clean_ascii_code_spec env "longa.py" w1)
    as (w2 & Hs2 & [[Hnone _]|(raw' & code & Hraw' & Hcode & Hascii & Hc)]).
  { rewrite (silent_frame _ _ "longa.py" Hs2) in Hnone by discriminate.
    subst w1. cbn [fs Os.log] in Hnone. congruence. }
  assert (raw' = raw) as ->.
  { rewrite (silent_frame _ _ "longa.py" Hs2) in Hraw' by discriminate.
    subst w1. cbn [fs Os.log] in Hraw'. congruence. }
  destruct (write_text_granted env "longamax.py"
              (Agents.longamax_code_content code) w2 Hwmax
              (longamax_code_content_ascii code Hascii)) as (w3 & Hs3 & Hw).
  set (w4 := Os.log _ _) in Hw.
  set (w6 := Os.log (Printed "Attempting to run longamax.py...")
               (Os.log (Printed "longamax.py created because longa1.py import failed.")
                  w4)).
  destruct (subprocess_run_no_python env
              (Os.python env (Generated.interp env) "longamax.py")
              ["python"; "longamax.py"] w6 Hl) as (w7 & Hs7 & Hrun7).
  set (w8 := Os.log
               (Printed "Python executable not found for longamax.py. Make sure Python is in your PATH.")
               w7).
  assert (Longa.recovery_A env w = (inr tt, w8)) as HA.
  { unfold Longa.recovery_A.
    rewrite (bind_ok _ _ _ _ _ (print_run _ w)). fold w1.
    rewrite (bind_ok _ _ _ _ _ Hc), (bind_ok _ _ _ _ _ Hw).
    rewrite (bind_ok _ _ _ _ _ (print_run _ w4)).
    rewrite (bind_ok _ _ _ _ _ (print_run _ _)). fold w6.
    unfold Longa.run_python.
    now rewrite (try_raised _ _ _ _ _ (bind_raised _ _ _ _ _ Hrun7)). }
  unfold Longa.failure_path. rewrite (bind_ok _ _ _ _ _ HA).
  set (w9 := Os.log
               (Printed "
--- NEW SECTION (longa1_imported FALSE): Creating and Running loadedmax.py ---")
               w8).
  destruct (write_text_granted env "loadedmax.py" Agents.loadedmax_code_content
              w9 Hwloaded loadedmax_code_content_ascii) as (w10 & Hs10 & Hw10).
  set (w11 := Os.log _ _) in Hw10.
  set (w13 := Os.log (Printed "Attempting to run loadedmax.py...")
                (Os.log (Printed "loadedmax.py created.") w11)).
  destruct (subprocess_run_no_python env
              (Os.python env (Generated.interp env) "loadedmax.py")
              ["python"; "loadedmax.py"] w13 Hl) as (w14 & Hs14 & Hrun14).
  set (w16 := Os.log (Printed "--- NEW SECTION END ---")
                (Os.log
                   (Printed "Python executable not found for loadedmax.py. Make sure Python is in your PATH.")
                   w14)).
  assert (Longa.recovery_B env w8 = (inr tt, w16)) as HB.
  { unfold Longa.recovery_B.
    rewrite (bind_ok _ _ _ _ _ (print_run _ w8)). fold w9.
    assert (try_except
              (Os.write_text env "loadedmax.py" Agents.loadedmax_code_content;;
               Os.print ("loadedmax.py" +:+ " created.");;
               Os.print ("Attempting to run " +:+ "loadedmax.py" +:+ "...");;
               Longa.run_python env "loadedmax.py";;
               Os.print ("loadedmax.py" +:+ " executed successfully."))
              (Longa.except_run "loadedmax.py" "creation/execution") w9
            = (inr tt,
               Os.log
                 (Printed "Python executable not found for loadedmax.py. Make sure Python is in your PATH.")
                 w14)) as Htry.
    { unfold try_except.
      rewrite (bind_ok _ _ _ _ _ Hw10).
      rewrite (bind_ok _ _ _ _ _ (print_run _ w11)).
      rewrite (bind_ok _ _ _ _ _ (print_run _ _)). fold w13.
      unfold Longa.run_python.
      now rewrite (bind_raised _ _ _ _ _ Hrun14). }
    now rewrite (bind_ok _ _ _ _ _ Htry). }
  rewrite (bind_ok _ _ _ _ _ HB).
  unfold Longa.self_destruct.
  destruct (os_remove_granted env "longa.py" w16 Hrm)
    as (w17 & Hs17 & Hcases).
  assert (fs w6 !! "longa.py" = Some raw) as Hlonga6.
  { subst w6 w4. cbn [fs Os.log Os.with_fs].
    rewrite lookup_insert_ne by discriminate.
    now rewrite (silent_frame _ _ "longa.py" Hs3) by discriminate. }
  assert (fs w6 !! "longamax.py"
          = Some (map Text.chr8 (Agents.longamax_code_content code))) as Hmax6.
  { subst w6 w4. cbn [fs Os.log Os.with_fs]. apply lookup_insert_eq. }
  assert (forall f, f ≠ "longa1.py" -> f ≠ "loadedmax.py" ->
                    fs w17 !! f = fs w6 !! f) as Hframe.
  { intros f H1 H2. rewrite (silent_frame _ _ f Hs17 H1). subst w16.
    cbn [fs Os.log]. rewrite (silent_frame _ _ f Hs14 H1). subst w13 w11.
    cbn [fs Os.log Os.with_fs]. rewrite lookup_insert_ne by congruence.
    rewrite (silent_frame _ _ f Hs10 H1). subst w9 w8. cbn [fs Os.log].
    apply (silent_frame _ _ f Hs7 H1). }
  assert (fs w17 !! "loadedmax.py"
          = Some (map Text.chr8 Agents.loadedmax_code_content)) as Hloaded.
  { rewrite (silent_frame _ _ "loadedmax.py" Hs17) by discriminate. subst w16.
    cbn [fs Os.log]. rewrite (silent_frame _ _ "loadedmax.py" Hs14) by discriminate.
    subst w13 w11. cbn [fs Os.log Os.with_fs]. apply lookup_insert_eq. }
  destruct Hcases as [[Hgone _]|[_ Hrmd]].
  { rewrite Hframe, Hlonga6 in Hgone by discriminate. discriminate. }
  rewrite (try_ok _ _ _ _ _ (bind_ok _ _ _ _ _ Hrmd)).
  exists code. eexists. split; [exact Hcode|]. split; [reflexivity|].
  cbn [trace fs Os.log Os.with_fs].
  split.
  { rewrite (silent_trace _ _ Hs17). subst w16. cbn [trace Os.log].
    rewrite (silent_trace _ _ Hs14). subst w13 w11. cbn [trace Os.log Os.with_fs].
    rewrite (silent_trace _ _ Hs10). subst w9 w8. cbn [trace Os.log].
    rewrite (silent_trace _ _ Hs7). subst w6 w4. cbn [trace Os.log Os.with_fs].
    rewrite (silent_trace _ _ Hs3), (silent_trace _ _ Hs2). subst w1.
    cbn [trace Os.log]. rewrite <- !app_assoc. reflexivity. }
  split; [apply lookup_delete_eq|].
  split.
  - rewrite lookup_delete_ne by discriminate.
    now rewrite Hframe by discriminate.
  - now rewrite lookup_delete_ne by discriminate.
Qed.

Lemma without_python_the_cascade_ends_witness :
  exists code w',
    Capture.clean_ascii_code Scenario.source = Some code
    /\ Longa.failure_path Scenario.no_python (Longa.boot Scenario.fresh [])
       = (inr tt, w')
    /\ trace w'
       = trace (Longa.boot Scenario.fresh [])
         ++ [Printed "Skipping longa2.py creation -- longa1.py import failed.";
             Wrote "longamax.py"
               (map Text.chr8 (Agents.longamax_code_content code));
             Printed "longamax.py created because longa1.py import failed.";
             Printed "Attempting to run longamax.py...";
             Printed "Python executable not found for longamax.py. Make sure Python is in your PATH.";
             Printed "
--- NEW SECTION (longa1_imported FALSE): Creating and Running loadedmax.py ---";
             Wrote "loadedmax.py" (map Text.chr8 Agents.loadedmax_code_content);
             Printed "loadedmax.py created.";
             Printed "Attempting to run loadedmax.py...";
             Printed "Python executable not found for loadedmax.py. Make sure Python is in your PATH.";
             Printed "--- NEW SECTION END ---";
             Removed "longa.py";
             Printed
               (Seen.orchestrator_done Scenario.no_python
                  "longa.py has self-destructed after longamax.py and loadedmax.py completed from: ")]
    /\ fs w' !! "longa.py" = None
    /\ fs w' !! "longamax.py"
       = Some (map Text.chr8 (Agents.longamax_code_content code))
    /\ fs w' !! "loadedmax.py"
       = Some (map Text.chr8 Agents.loadedmax_code_content).
Proof.
  apply (without_python_the_cascade_ends Scenario.no_python
           (Longa.boot Scenario.fresh []) Scenario.source).
  - intros t. reflexivity.
  - intros t. reflexivity.
  - intros t. reflexivity.
  - intros t. reflexivity.
  - vm_compute. reflexivity.
Defined.
